(** * Google Drive MCP server: the request/response pipeline, the client
      operations built on it and the tool handlers that call them.

    The development follows [client.ts] (class [GoogleDriveClientImpl]) and
    the [tools/*.ts] handlers.  JavaScript strings are modelled as byte
    strings holding the UTF-8 text that reaches the wire; JavaScript values
    coming out of [JSON.parse] are the trees of type [json], and [undefined]
    is the [None] of [value]. *)

From Stdlib Require Import String Ascii List ZArith Lia Bool DecimalString.
From Stdlib Require DecimalPos.
Import ListNotations.
Open Scope string_scope.
Open Scope Z_scope.

Set Implicit Arguments.

(* ------------------------------------------------------------------------- *)
(** ** Characters and strings of the platform *)

Module Js.

Definition DQUOTE : ascii := "034"%char.
Definition BACKSLASH : ascii := "092"%char.
Definition CR : ascii := "013"%char.
Definition LF : ascii := "010"%char.
Definition CRLF : string := String CR (String LF EmptyString).

Definition code (c : ascii) : nat := nat_of_ascii c.

Definition is_digit (c : ascii) : bool :=
  (48 <=? code c)%nat && (code c <=? 57)%nat.
Definition is_upper (c : ascii) : bool :=
  (65 <=? code c)%nat && (code c <=? 90)%nat.
Definition is_lower (c : ascii) : bool :=
  (97 <=? code c)%nat && (code c <=? 122)%nat.
Definition is_alnum (c : ascii) : bool :=
  is_digit c || is_upper c || is_lower c.

Definition digit_of (c : ascii) : option Z :=
  if is_digit c then Some (Z.of_nat (code c - 48)) else None.

(** [String(n)] for an integral number. *)
Definition String_of_number (z : Z) : string :=
  NilZero.string_of_int (Z.to_int z).

(** ASCII lower-casing, as header names are compared. *)
Definition lower (c : ascii) : ascii :=
  if is_upper c then ascii_of_nat (code c + 32) else c.

Fixpoint toLowerCase (s : string) : string :=
  match s with
  | EmptyString => EmptyString
  | String c r => String (lower c) (toLowerCase r)
  end.

(** The normalization of a header value: leading and trailing HTTP
    white space (tab, line feed, carriage return, space) is stripped. *)
Definition is_http_ws (c : ascii) : bool :=
  let n := code c in
  (n =? 9)%nat || (n =? 10)%nat || (n =? 13)%nat || (n =? 32)%nat.

Fixpoint strip_leading (s : string) : string :=
  match s with
  | String c r => if is_http_ws c then strip_leading r else s
  | EmptyString => EmptyString
  end.

Fixpoint strip_trailing (s : string) : string :=
  match s with
  | String c r =>
      match strip_trailing r with
      | EmptyString => if is_http_ws c then EmptyString else String c EmptyString
      | kept => String c kept
      end
  | EmptyString => EmptyString
  end.

Definition normalize (value : string) : string :=
  strip_trailing (strip_leading value).

(** [s.startsWith(p)]. *)
Fixpoint startsWith (p s : string) : bool :=
  match p with
  | EmptyString => true
  | String a p' =>
      match s with
      | String b s' => Ascii.eqb a b && startsWith p' s'
      | EmptyString => false
      end
  end.

(** [hay.includes(needle)]. *)
Fixpoint includes (needle hay : string) : bool :=
  if startsWith needle hay then true
  else match hay with
       | EmptyString => false
       | String _ r => includes needle r
       end.

Fixpoint join (sep : string) (l : list string) : string :=
  match l with
  | [] => EmptyString
  | [x] => x
  | x :: r => x ++ sep ++ join sep r
  end.

(** Two upper-case hexadecimal digits of a byte. *)
Definition hex_digit (n : nat) : ascii :=
  if (n <? 10)%nat then ascii_of_nat (48 + n) else ascii_of_nat (55 + n).
Definition hex2 (c : ascii) : string :=
  String (hex_digit (code c / 16)) (String (hex_digit (code c mod 16)) EmptyString).
Definition percent (c : ascii) : string := String "%"%char (hex2 c).

Definition one_of (set : string) (c : ascii) : bool :=
  includes (String c EmptyString) set.

(** [encodeURIComponent]: every byte outside
    [A-Z a-z 0-9 - _ . ! ~ * ' ( )] is percent-encoded. *)
Definition uri_unreserved (c : ascii) : bool :=
  is_alnum c || one_of "-_.!~*'()" c.

Fixpoint encodeURIComponent (s : string) : string :=
  match s with
  | EmptyString => EmptyString
  | String c r =>
      (if uri_unreserved c then String c EmptyString else percent c)
      ++ encodeURIComponent r
  end.

(** The [application/x-www-form-urlencoded] byte serializer used by
    [URLSearchParams.prototype.toString]. *)
Definition form_safe (c : ascii) : bool :=
  is_alnum c || one_of "*-._" c.

Fixpoint form_encode (s : string) : string :=
  match s with
  | EmptyString => EmptyString
  | String c r =>
      (if form_safe c then String c EmptyString
       else if Ascii.eqb c " "%char then "+"
       else percent c)
      ++ form_encode r
  end.

(** [s.slice(n)]. *)
Fixpoint drop (n : nat) (s : string) : string :=
  match n, s with
  | O, _ => s
  | S k, String _ r => drop k r
  | S _, EmptyString => EmptyString
  end.

(** Truthiness of a string: only the empty string is falsy. *)
Definition nonempty (s : string) : bool :=
  match s with EmptyString => false | _ => true end.

(** Truthiness of an optional string ([undefined] or a string). *)
Definition truthy_str (o : option string) : bool :=
  match o with Some s => nonempty s | None => false end.

(** [o || d] on an optional string with a string default. *)
Definition or_str (o : option string) (d : string) : string :=
  match o with
  | Some s => if nonempty s then s else d
  | None => d
  end.

(** Numbers as [Number.parseInt] returns them: an integer or [NaN]. *)
Inductive number : Type :=
| Finite (z : Z)
| NaN.

Definition is_ws (c : ascii) : bool :=
  let n := code c in
  ((9 <=? n)%nat && (n <=? 13)%nat) || (n =? 32)%nat.

Fixpoint skip_ws (s : string) : string :=
  match s with
  | String c r => if is_ws c then skip_ws r else s
  | EmptyString => EmptyString
  end.

(** The longest prefix of decimal digits, accumulated; [None] when there is
    no digit at all. *)
Fixpoint parse_digits (acc : option Z) (s : string) : option Z :=
  match s with
  | String c r =>
      match digit_of c with
      | Some d =>
          parse_digits
            (Some (10 * (match acc with Some a => a | None => 0 end) + d)) r
      | None => acc
      end
  | EmptyString => acc
  end.

Definition number_of (o : option Z) : number :=
  match o with Some z => Finite z | None => NaN end.

(** [Number.parseInt(s, 10)]: leading white space, an optional sign, then
    the longest run of digits; [NaN] when the run is empty. *)
Definition parseInt (s : string) : number :=
  match skip_ws s with
  | String "-"%char r => number_of (option_map Z.opp (parse_digits None r))
  | String "+"%char r => number_of (parse_digits None r)
  | t => number_of (parse_digits None t)
  end.

End Js.

Import Js.

(* ------------------------------------------------------------------------- *)
(** ** JavaScript values

    A [json] tree is what [JSON.parse] builds; objects keep their properties
    in insertion order.  Numbers are the integral ones: nothing in the client
    computes with a number taken from a payload.  [value] adds [undefined]. *)

Unset Elimination Schemes.
Inductive json : Type :=
| JNull
| JBool (b : bool)
| JNum (z : Z)
| JStr (s : string)
| JArr (items : list json)
| JObj (props : list (string * json)).
Set Elimination Schemes.

Definition value : Type := option json.
Definition undefined : value := None.

(** Truthiness, as [if (x)], [!!x] and [x || y] see it. *)
Definition truthy_json (j : json) : bool :=
  match j with
  | JNull => false
  | JBool b => b
  | JNum z => negb (z =? 0)
  | JStr s => nonempty s
  | JArr _ => true
  | JObj _ => true
  end.

Definition truthy (v : value) : bool :=
  match v with Some j => truthy_json j | None => false end.

(** Own-property lookup in an object kept in insertion order. *)
Fixpoint lookup {A : Type} (k : string) (l : list (string * A)) : option A :=
  match l with
  | [] => None
  | (k', v) :: r => if String.eqb k k' then Some v else lookup k r
  end.

(** Assignment [o[k] = v]: an existing property keeps its place. *)
Fixpoint put {A : Type} (k : string) (v : A) (l : list (string * A))
  : list (string * A) :=
  match l with
  | [] => [(k, v)]
  | (k', v') :: r =>
      if String.eqb k k' then (k, v) :: r else (k', v') :: put k v r
  end.

(** Object spread [{...a, ...b}]. *)
Definition spread {A : Type} (a b : list (string * A)) : list (string * A) :=
  fold_left (fun acc kv => put (fst kv) (snd kv) acc) b a.

(** An object literal some of whose properties may be [undefined]; those are
    the ones [JSON.stringify] leaves out, and they are dropped here. *)
Fixpoint defined_props (l : list (string * value)) : list (string * json) :=
  match l with
  | [] => []
  | (k, Some j) :: r => (k, j) :: defined_props r
  | (_, None) :: r => defined_props r
  end.

Definition js_obj (l : list (string * value)) : json := JObj (defined_props l).

Definition str (o : option string) : value := option_map JStr o.
Definition boolean (o : option bool) : value := option_map JBool o.
Definition strings (o : option (list string)) : value :=
  option_map (fun l => JArr (map JStr l)) o.

(* ------------------------------------------------------------------------- *)
(** ** [JSON.stringify] *)

Module Stringify.

(** [\u00XX] with lower-case hexadecimal digits, for control characters. *)
Definition lhex (n : nat) : ascii :=
  if (n <? 10)%nat then ascii_of_nat (48 + n) else ascii_of_nat (87 + n).

Definition escape (c : ascii) : string :=
  let n := code c in
  if (n =? 34)%nat then String BACKSLASH (String DQUOTE EmptyString)
  else if (n =? 92)%nat then String BACKSLASH (String BACKSLASH EmptyString)
  else if (n =? 8)%nat then String BACKSLASH "b"
  else if (n =? 12)%nat then String BACKSLASH "f"
  else if (n =? 10)%nat then String BACKSLASH "n"
  else if (n =? 13)%nat then String BACKSLASH "r"
  else if (n =? 9)%nat then String BACKSLASH "t"
  else if (n <? 32)%nat then
    String BACKSLASH
      (String "u" (String "0" (String "0"
         (String (lhex (n / 16)) (String (lhex (n mod 16)) EmptyString)))))
  else String c EmptyString.

Fixpoint escape_all (s : string) : string :=
  match s with
  | EmptyString => EmptyString
  | String c r => escape c ++ escape_all r
  end.

Definition quote (s : string) : string :=
  String DQUOTE (escape_all s ++ String DQUOTE EmptyString).

Fixpoint stringify (j : json) : string :=
  match j with
  | JNull => "null"
  | JBool true => "true"
  | JBool false => "false"
  | JNum z => String_of_number z
  | JStr s => quote s
  | JArr l => "[" ++ join "," (map stringify l) ++ "]"
  | JObj l =>
      "{" ++ join "," (map (fun '(k, x) => quote k ++ ":" ++ stringify x) l)
          ++ "}"
  end.

End Stringify.

Definition JSON_stringify : json -> string := Stringify.stringify.

(* ------------------------------------------------------------------------- *)
(** ** [JSON.parse]

    A reference reader for JSON texts.  The pipeline below takes the
    platform's parser as a parameter; this one instantiates it where a
    concrete parser is needed, and is the one the multipart round trip is
    stated with.  String escapes are decoded to UTF-8 bytes; a repeated
    property name overwrites the earlier value in place.  Number literals
    with a fraction or an exponent are outside the integral fragment and are
    refused. *)

Module Parse.

Definition ws (c : ascii) : bool :=
  let n := code c in
  (n =? 32)%nat || (n =? 9)%nat || (n =? 10)%nat || (n =? 13)%nat.

Fixpoint skip (s : string) : string :=
  match s with
  | String c r => if ws c then skip r else s
  | EmptyString => EmptyString
  end.

Definition hexval (c : ascii) : option N :=
  let n := code c in
  if is_digit c then Some (N.of_nat (n - 48))
  else if (97 <=? n)%nat && (n <=? 102)%nat then Some (N.of_nat (n - 87))
  else if (65 <=? n)%nat && (n <=? 70)%nat then Some (N.of_nat (n - 55))
  else None.

Definition hex4 (a b c d : ascii) : option N :=
  match hexval a, hexval b, hexval c, hexval d with
  | Some x, Some y, Some z, Some w =>
      Some (((x * 16 + y) * 16 + z) * 16 + w)%N
  | _, _, _, _ => None
  end.

(** What a string literal is made of: bytes of the text, and UTF-16 code
    units written as [\uXXXX]. *)
Inductive piece : Type :=
| Raw (c : ascii)
| Unit16 (n : N).

Definition simple_escape (e : ascii) : option ascii :=
  let n := code e in
  if (n =? 34)%nat then Some DQUOTE
  else if (n =? 92)%nat then Some BACKSLASH
  else if (n =? 47)%nat then Some "/"%char
  else if (n =? 98)%nat then Some (ascii_of_nat 8)
  else if (n =? 102)%nat then Some (ascii_of_nat 12)
  else if (n =? 110)%nat then Some LF
  else if (n =? 114)%nat then Some CR
  else if (n =? 116)%nat then Some (ascii_of_nat 9)
  else None.

(** The text after an opening quote, up to the closing one. *)
Fixpoint string_body (s : string) : option (list piece * string) :=
  match s with
  | EmptyString => None
  | String c r =>
      if (code c =? 34)%nat then Some ([], r)
      else if (code c =? 92)%nat then
        match r with
        | EmptyString => None
        | String e r1 =>
            if (code e =? 117)%nat then
              match r1 with
              | String a (String b (String x (String d r2))) =>
                  match hex4 a b x d with
                  | Some n =>
                      match string_body r2 with
                      | Some (ps, rest) => Some (Unit16 n :: ps, rest)
                      | None => None
                      end
                  | None => None
                  end
              | _ => None
              end
            else
              match simple_escape e with
              | Some x =>
                  match string_body r1 with
                  | Some (ps, rest) => Some (Raw x :: ps, rest)
                  | None => None
                  end
              | None => None
              end
        end
      else if (code c <? 32)%nat then None
      else
        match string_body r with
        | Some (ps, rest) => Some (Raw c :: ps, rest)
        | None => None
        end
  end.

Definition byte (n : N) : ascii := ascii_of_N n.

(** UTF-8 encoding of a code point. *)
Definition utf8 (cp : N) : string :=
  (if cp <? 128 then String (byte cp) EmptyString
   else if cp <? 2048 then
     String (byte (192 + cp / 64)) (String (byte (128 + cp mod 64)) EmptyString)
   else if cp <? 65536 then
     String (byte (224 + cp / 4096))
       (String (byte (128 + (cp / 64) mod 64))
          (String (byte (128 + cp mod 64)) EmptyString))
   else
     String (byte (240 + cp / 262144))
       (String (byte (128 + (cp / 4096) mod 64))
          (String (byte (128 + (cp / 64) mod 64))
             (String (byte (128 + cp mod 64)) EmptyString))))%N.

Definition high_surrogate (n : N) : bool := ((55296 <=? n) && (n <=? 56319))%N.
Definition low_surrogate (n : N) : bool := ((56320 <=? n) && (n <=? 57343))%N.

(** Bytes of the decoded string: surrogate pairs are combined, a lone
    surrogate leaves the replacement character U+FFFD. *)
Fixpoint decode (ps : list piece) : string :=
  match ps with
  | [] => EmptyString
  | Raw c :: r => String c (decode r)
  | Unit16 n :: r =>
      if high_surrogate n then
        match r with
        | Unit16 m :: r' =>
            if low_surrogate m then
              utf8 (65536 + (n - 55296) * 1024 + (m - 56320))%N ++ decode r'
            else utf8 65533 ++ decode r
        | _ => utf8 65533 ++ decode r
        end
      else if low_surrogate n then utf8 65533 ++ decode r
      else utf8 n ++ decode r
  end.

Definition string_lit (s : string) : option (string * string) :=
  match string_body s with
  | Some (ps, rest) => Some (decode ps, rest)
  | None => None
  end.

(** The digits at the head of a text, and what follows them. *)
Fixpoint digits (s : string) : string * string :=
  match s with
  | String c r =>
      if is_digit c then let '(d, rest) := digits r in (String c d, rest)
      else (EmptyString, s)
  | EmptyString => (EmptyString, EmptyString)
  end.

Definition after_int_ok (rest : string) : bool :=
  match rest with
  | String c _ => negb (one_of ".eE" c)
  | EmptyString => true
  end.

(** An integer literal: [0] or a run of digits not starting with [0]. *)
Definition natural (s : string) : option (Z * string) :=
  match digits s with
  | (EmptyString, _) => None
  | (String "0"%char (String _ _), _) => None
  | (d, rest) =>
      if after_int_ok rest then
        match parse_digits None d with
        | Some z => Some (z, rest)
        | None => None
        end
      else None
  end.

Definition literal (word : string) (v : json) (s : string)
  : option (json * string) :=
  if startsWith word s
  then Some (v, drop (String.length word) s)
  else None.

Fixpoint value_ (fuel : nat) (s : string) {struct fuel} : option (json * string) :=
  match fuel with
  | O => None
  | S n =>
      match skip s with
      | EmptyString => None
      | String c r as t =>
          if (code c =? 123)%nat then
            match skip r with
            | String "}"%char r' => Some (JObj [], r')
            | _ => members n [] r
            end
          else if (code c =? 91)%nat then
            match skip r with
            | String "]"%char r' => Some (JArr [], r')
            | _ => elements n [] r
            end
          else if (code c =? 34)%nat then
            match string_lit r with
            | Some (x, rest) => Some (JStr x, rest)
            | None => None
            end
          else if (code c =? 45)%nat then
            match natural r with
            | Some (z, rest) => Some (JNum (- z), rest)
            | None => None
            end
          else if is_digit c then
            match natural t with
            | Some (z, rest) => Some (JNum z, rest)
            | None => None
            end
          else if (code c =? 116)%nat then literal "true" (JBool true) t
          else if (code c =? 102)%nat then literal "false" (JBool false) t
          else if (code c =? 110)%nat then literal "null" JNull t
          else None
      end
  end

with elements (fuel : nat) (acc : list json) (s : string) {struct fuel}
  : option (json * string) :=
  match fuel with
  | O => None
  | S n =>
      match value_ n s with
      | Some (v, r) =>
          match skip r with
          | String ","%char r' => elements n (v :: acc) r'
          | String "]"%char r' => Some (JArr (rev (v :: acc)), r')
          | _ => None
          end
      | None => None
      end
  end

with members (fuel : nat) (acc : list (string * json)) (s : string) {struct fuel}
  : option (json * string) :=
  match fuel with
  | O => None
  | S n =>
      match skip s with
      | String c r =>
          if (code c =? 34)%nat then
            match string_lit r with
            | Some (k, r1) =>
                match skip r1 with
                | String ":"%char r2 =>
                    match value_ n r2 with
                    | Some (v, r3) =>
                        match skip r3 with
                        | String ","%char r4 => members n (put k v acc) r4
                        | String "}"%char r4 => Some (JObj (put k v acc), r4)
                        | _ => None
                        end
                    | None => None
                    end
                | _ => None
                end
            | None => None
            end
          else None
      | EmptyString => None
      end
  end.

Definition parse (s : string) : option json :=
  match value_ (S (String.length s)) s with
  | Some (v, rest) =>
      match skip rest with
      | EmptyString => Some v
      | String _ _ => None
      end
  | None => None
  end.

End Parse.

(* ------------------------------------------------------------------------- *)
(** ** More of the platform: [String(x)], [URLSearchParams], [Headers] *)

(** [String(x)], template-literal interpolation and the conversion of the
    elements in [Array.prototype.join], on a value read from a payload;
    [None] when the conversion throws its TypeError.  An object converts
    through its [toString]: an object read from JSON that has a property of
    that name holds there a value that is no function, and then nothing
    converts it; any other object gives [[object Object]].  An array joins
    its elements with commas, [null] ones giving the empty string. *)
Fixpoint ToString (j : json) : option string :=
  match j with
  | JNull => Some "null"
  | JBool true => Some "true"
  | JBool false => Some "false"
  | JNum z => Some (String_of_number z)
  | JStr s => Some s
  | JArr l =>
      option_map (join ",")
        ((fix elements (l : list json) : option (list string) :=
            match l with
            | [] => Some []
            | x :: r =>
                match (match x with
                       | JNull => Some EmptyString
                       | _ => ToString x
                       end), elements r with
                | Some text, Some texts => Some (text :: texts)
                | _, _ => None
                end
            end) l)
  | JObj props =>
      match lookup "toString" props with
      | Some _ => None
      | None => Some "[object Object]"
      end
  end.

(** The texts of the elements of an array, as [join] converts them. *)
Fixpoint element_texts (l : list json) : option (list string) :=
  match l with
  | [] => Some []
  | x :: r =>
      match (match x with
             | JNull => Some EmptyString
             | _ => ToString x
             end), element_texts r with
      | Some text, Some texts => Some (text :: texts)
      | _, _ => None
      end
  end.

Definition String_of_bool (b : bool) : string := if b then "true" else "false".

Definition truthy_num (o : option Z) : bool :=
  match o with Some z => negb (z =? 0) | None => false end.
Definition truthy_bool (o : option bool) : bool :=
  match o with Some b => b | None => false end.
Definition defined {A : Type} (o : option A) : bool :=
  match o with Some _ => true | None => false end.

(** The string, number or flag under a guard that has found it there.
    Numeric parameters ([pageSize], [count]) are integers. *)
Definition the (o : option string) : string :=
  match o with Some s => s | None => EmptyString end.
Definition the_num (o : option Z) : Z :=
  match o with Some z => z | None => 0 end.
Definition the_bool (o : option bool) : bool :=
  match o with Some b => b | None => false end.
Definition the_list (o : option (list string)) : list string :=
  match o with Some l => l | None => [] end.

Module URLSearchParams.

Definition t : Type := list (string * string).

Definition empty : t := [].

(** [set]: the first pair with that name takes the value and the others go;
    a new name is appended. *)
Fixpoint set (k v : string) (ps : t) : t :=
  match ps with
  | [] => [(k, v)]
  | (k', v') :: r =>
      if String.eqb k k'
      then (k, v) :: filter (fun p => negb (String.eqb k (fst p))) r
      else (k', v') :: set k v r
  end.

(** [if (c) queryParams.set(k, v)]. *)
Definition set_if (c : bool) (k v : string) (ps : t) : t :=
  if c then set k v ps else ps.

Definition toString (ps : t) : string :=
  join "&" (map (fun '(k, v) => form_encode k ++ "=" ++ form_encode v) ps).

End URLSearchParams.

Module Headers.

Definition t : Type := list (string * string).

(** [get]: names compare without case; the values are the normalized
    ones, and several are joined. *)
Definition get (name : string) (hs : t) : option string :=
  match filter (fun h => String.eqb (toLowerCase (fst h)) (toLowerCase name)) hs with
  | [] => None
  | l => Some (join ", " (map (fun h => normalize (snd h)) l))
  end.

End Headers.

(* ------------------------------------------------------------------------- *)
(** ** Errors, requests and responses *)

(** [utils/errors.ts]: the error classes, each recording the arguments its
    constructor is given in [client.ts]; [TypeError] and [SyntaxError] are the
    platform's (a property read on [undefined] or [null], a failed [fetch],
    a body that is not JSON). *)
Inductive error : Type :=
| AuthenticationError (message : string)
| ForbiddenError (message : json)
| NotFoundError (resource id : string)
| RateLimitError (message : string) (retryAfterSeconds : number)
| GoogleDriveApiError (message : json) (statusCode : Z)
| TypeError (what : string)
| SyntaxError.

Inductive result (A : Type) : Type :=
| Ok (a : A)
| Throw (e : error).
Arguments Ok {A} a.
Arguments Throw {A} e.

(** A conversion to a string where it is made: it returns, or throws. *)
Definition to_string (j : json) : result string :=
  match ToString j with
  | Some text => Ok text
  | None => Throw (TypeError "Cannot convert object to primitive value")
  end.

(** [types/env.ts]: the credentials of one tenant. *)
Record TenantCredentials : Type := {
  accessToken : option string;
  baseUrl : option string
}.

(** The [RequestInit] a client operation passes to [request]. *)
Record RequestInit : Type := {
  method : option string;
  headers : option (list (string * string));
  body : option string
}.

Definition no_options : RequestInit :=
  {| method := None; headers := None; body := None |}.

(** What [fetch] is called with. *)
Record HttpRequest : Type := {
  url : string;
  http_method : option string;
  http_headers : list (string * string);
  http_body : option string
}.

Record Response : Type := {
  status : Z;
  response_headers : Headers.t;
  response_body : string
}.

(** [response.ok]. *)
Definition ok (r : Response) : bool := (200 <=? status r) && (status r <=? 299).

(** What the network does with a call: a response, or no response at all. *)
Inductive fetched : Type :=
| Responded (r : Response)
| NetworkFailure (what : string).

(** Property reads.  [prop] is [j.k] on a value that is neither [undefined]
    nor [null]: an own property of an object, [undefined] otherwise (none of
    the names the client reads is a built-in of strings or arrays).  [get]
    is [v.k] and throws where JavaScript does; [get_opt] is [v?.k]. *)
Definition prop (j : json) (k : string) : value :=
  match j with
  | JObj l => lookup k l
  | _ => None
  end.

Definition get (v : value) (k : string) : result value :=
  match v with
  | None => Throw (TypeError "Cannot read properties of undefined")
  | Some JNull => Throw (TypeError "Cannot read properties of null")
  | Some j => Ok (prop j k)
  end.

Definition get_opt (v : value) (k : string) : value :=
  match v with
  | None => None
  | Some JNull => None
  | Some j => prop j k
  end.

(** [v || d] where the default is a value of the payload kind. *)
Definition or_json (v : value) (d : json) : json :=
  match v with
  | Some j => if truthy_json j then j else d
  | None => d
  end.

(** The state of one tool invocation is the list of calls made so far; a
    computation returns or throws, and leaves the list extended. *)
Definition M (A : Type) : Type := list HttpRequest -> result A * list HttpRequest.

Definition ret {A : Type} (a : A) : M A := fun log => (Ok a, log).
Definition throw {A : Type} (e : error) : M A := fun log => (Throw e, log).
Definition lift {A : Type} (r : result A) : M A := fun log => (r, log).

Definition bind {A B : Type} (m : M A) (k : A -> M B) : M B :=
  fun log =>
    match m log with
    | (Ok a, log') => k a log'
    | (Throw e, log') => (Throw e, log')
    end.

(** [try { m } catch (error) { h(error) }]. *)
Definition try_catch {A : Type} (m : M A) (h : error -> M A) : M A :=
  fun log =>
    match m log with
    | (Ok a, log') => (Ok a, log')
    | (Throw e, log') => h e log'
    end.

Declare Scope js_scope.
Delimit Scope js_scope with js.
Notation "x <- m ;; k" := (bind m (fun x => k))
  (at level 61, m at next level, right associativity) : js_scope.
Notation "m ;;; k" := (bind m (fun _ => k))
  (at level 61, right associativity) : js_scope.
Open Scope js_scope.

(** The pages a listing returns ([types/entities.ts]). *)
Record PaginatedResponse : Type := {
  items : json;
  hasMore : bool;
  nextPageToken : value
}.

(** The object [JSON.stringify] sees for a page. *)
Definition page_json (p : PaginatedResponse) : json :=
  js_obj [("items", Some (items p));
          ("hasMore", Some (JBool (hasMore p)));
          ("nextPageToken", nextPageToken p)].

(* ------------------------------------------------------------------------- *)
(** ** [client.ts]: configuration and parameter objects *)

Definition API_BASE_URL : string := "https://www.googleapis.com/drive/v3".
Definition UPLOAD_BASE_URL : string := "https://www.googleapis.com/upload/drive/v3".

Definition DEFAULT_FILE_FIELDS : string :=
  "id,name,mimeType,description,starred,trashed,parents,size,createdTime,modifiedTime,webViewLink,webContentLink,iconLink,thumbnailLink,shared,ownedByMe,owners,capabilities".

Module ListFiles.
Record params : Type := {
  q : option string;
  pageSize : option Z;
  pageToken : option string;
  fields : option string;
  orderBy : option string;
  spaces : option string;
  corpora : option string;
  driveId : option string;
  includeItemsFromAllDrives : option bool;
  supportsAllDrives : option bool
}.
Definition none : params :=
  {| q := None; pageSize := None; pageToken := None; fields := None;
     orderBy := None; spaces := None; corpora := None; driveId := None;
     includeItemsFromAllDrives := None; supportsAllDrives := None |}.
End ListFiles.

Module CreateFile.
Record params : Type := {
  name : string;
  mimeType : option string;
  parents : option (list string);
  description : option string;
  content : option string
}.
End CreateFile.

Module UpdateFile.
Record params : Type := {
  name : option string;
  description : option string;
  mimeType : option string;
  content : option string;
  addParents : option string;
  removeParents : option string;
  starred : option bool;
  trashed : option bool
}.
End UpdateFile.

Module ListFolderContents.
Record params : Type := {
  pageSize : option Z;
  pageToken : option string;
  orderBy : option string
}.
End ListFolderContents.

Module ListPermissions.
Record params : Type := {
  pageSize : option Z;
  pageToken : option string;
  supportsAllDrives : option bool
}.
End ListPermissions.

Module CreatePermission.
Record params : Type := {
  role : string;
  type : string;
  emailAddress : option string;
  domain : option string;
  allowFileDiscovery : option bool;
  sendNotificationEmail : option bool;
  emailMessage : option string;
  transferOwnership : option bool;
  moveToNewOwnersRoot : option bool
}.
End CreatePermission.

Module ListComments.
Record params : Type := {
  pageSize : option Z;
  pageToken : option string;
  includeDeleted : option bool;
  startModifiedTime : option string
}.
End ListComments.

Module ListReplies.
Record params : Type := {
  pageSize : option Z;
  pageToken : option string;
  includeDeleted : option bool
}.
End ListReplies.

Module ListRevisions.
Record params : Type := {
  pageSize : option Z;
  pageToken : option string
}.
End ListRevisions.

Module ListDrives.
Record params : Type := {
  pageSize : option Z;
  pageToken : option string;
  q : option string;
  useDomainAdminAccess : option bool
}.
End ListDrives.

Module GetStartPageToken.
Record params : Type := {
  driveId : option string;
  supportsAllDrives : option bool
}.
End GetStartPageToken.

Module ListChanges.
Record params : Type := {
  driveId : option string;
  pageSize : option Z;
  spaces : option string;
  includeItemsFromAllDrives : option bool;
  supportsAllDrives : option bool;
  includeRemoved : option bool;
  restrictToMyDrive : option bool
}.
End ListChanges.

Module WatchChanges.
Record params : Type := {
  driveId : option string;
  includeItemsFromAllDrives : option bool;
  supportsAllDrives : option bool
}.
End WatchChanges.

Module ListApps.
Record params : Type := {
  appFilterExtensions : option string;
  appFilterMimeTypes : option string;
  languageCode : option string
}.
End ListApps.

Module ListAccessProposals.
Record params : Type := {
  pageSize : option Z;
  pageToken : option string
}.
End ListAccessProposals.

(** A parameter object that an operation hands to [JSON.stringify] as it is:
    its properties in the order the caller wrote them, [undefined] ones
    included (and left out of the text). *)
Definition object_literal : Type := list (string * value).

(** The multipart framing of an upload. *)
Definition boundary : string := "-------314159265358979323846".
Definition delimiter : string := CRLF ++ "--" ++ boundary ++ CRLF.
Definition closeDelim : string := CRLF ++ "--" ++ boundary ++ "--".

Definition multipart_content_type : string :=
  "multipart/related; boundary=" ++ String DQUOTE (boundary ++ String DQUOTE EmptyString).

Definition multipartBody (metadata : json) (mimeType : option string)
  (content : string) : string :=
  delimiter
  ++ "Content-Type: application/json; charset=UTF-8" ++ CRLF ++ CRLF
  ++ JSON_stringify metadata
  ++ delimiter
  ++ "Content-Type: " ++ or_str mimeType "text/plain" ++ CRLF ++ CRLF
  ++ content
  ++ closeDelim.

(* ------------------------------------------------------------------------- *)
(** ** [client.ts]: [GoogleDriveClientImpl], then the tool handlers *)

Section Server.

(** The platform: [JSON.parse], the network behind [fetch] (it sees the calls
    made before and the call being made) and the [message] property of an
    error object. *)
Variable JSON_parse : string -> option json.
Variable remote : list HttpRequest -> HttpRequest -> fetched.
Variable message_of : error -> string.

Variable credentials : TenantCredentials.

(** The constructor. *)
Definition this_baseUrl : string := or_str (baseUrl credentials) API_BASE_URL.
Definition this_uploadUrl : string := UPLOAD_BASE_URL.

(** [fetch(url, init)]: the call is recorded, the network answers. *)
Definition fetch (call : HttpRequest) : M Response :=
  fun log =>
    match remote log call with
    | Responded r => (Ok r, (log ++ [call])%list)
    | NetworkFailure what => (Throw (TypeError what), (log ++ [call])%list)
    end.

Definition getAuthHeaders : result (list (string * string)) :=
  if negb (truthy_str (accessToken credentials)) then
    Throw (AuthenticationError
             "No credentials provided. Include X-Google-Access-Token header.")
  else
    Ok [("Authorization", "Bearer " ++ the (accessToken credentials));
        ("Content-Type", "application/json")].

(** [errorJson.error?.message || message], inside [try]. *)
Definition forbidden_message (errorBody : string) : json :=
  let message := JStr "Access denied" in
  match JSON_parse errorBody with
  | None => message
  | Some errorJson =>
      match get (Some errorJson) "error" with
      | Throw _ => message
      | Ok e => or_json (get_opt e "message") message
      end
  end.

(** [errorJson.error?.message || errorJson.message || message], inside
    [try]. *)
Definition api_error_message (errorBody : string) (st : Z) : json :=
  let message := JStr ("API error: " ++ String_of_number st) in
  match JSON_parse errorBody with
  | None => message
  | Some errorJson =>
      match get (Some errorJson) "error" with
      | Throw _ => message
      | Ok e =>
          or_json (get_opt e "message")
            (or_json (prop errorJson "message") message)
      end
  end.

Definition is_json_content (contentType : option string) : bool :=
  match contentType with
  | Some ct => includes "application/json" ct
  | None => false
  end.

(** What [request] hands to [fetch]: the URL on the chosen base and
    [{...options, headers: {...auth, ...(options.headers || {})}}]. *)
Definition fetch_arguments (auth : list (string * string)) (endpoint : string)
  (options : RequestInit) (useUploadUrl : bool) : HttpRequest :=
  let base := if useUploadUrl then this_uploadUrl else this_baseUrl in
  {| url := base ++ endpoint;
     http_method := method options;
     http_headers := spread auth (match headers options with
                                  | Some h => h
                                  | None => []
                                  end);
     http_body := body options |}.

Definition request (endpoint : string) (options : RequestInit)
  (useUploadUrl : bool) : M value :=
  auth <- lift getAuthHeaders ;;
  response <- fetch (fetch_arguments auth endpoint options useUploadUrl) ;;
  if status response =? 429 then
    let retryAfter := Headers.get "Retry-After" (response_headers response) in
    throw (RateLimitError "Rate limit exceeded"
             (if truthy_str retryAfter then parseInt (the retryAfter)
              else Finite 60))
  else if status response =? 401 then
    throw (AuthenticationError
             "Authentication failed. Check your OAuth access token.")
  else if status response =? 403 then
    throw (ForbiddenError (forbidden_message (response_body response)))
  else if status response =? 404 then
    throw (NotFoundError "Resource" endpoint)
  else if negb (ok response) then
    throw (GoogleDriveApiError
             (api_error_message (response_body response) (status response))
             (status response))
  else if status response =? 204 then
    ret undefined
  else if is_json_content (Headers.get "content-type" (response_headers response)) then
    match JSON_parse (response_body response) with
    | Some j => ret (Some j)
    | None => throw SyntaxError
    end
  else
    ret (Some (JStr (response_body response))).

Definition POST (b : option string) : RequestInit :=
  {| method := Some "POST"; headers := None; body := b |}.
Definition PATCH (b : option string) : RequestInit :=
  {| method := Some "PATCH"; headers := None; body := b |}.
Definition DELETE : RequestInit :=
  {| method := Some "DELETE"; headers := None; body := None |}.

(** The shape every listing returns, from the key of its resource array. *)
Definition paginated (resource : string) (response : value) : M PaginatedResponse :=
  xs <- lift (get response resource) ;;
  token <- lift (get response "nextPageToken") ;;
  ret {| items := or_json xs (JArr []);
         hasMore := truthy token;
         nextPageToken := token |}.

(** *** Connection and about *)

Definition getAbout (fields : option string) : M value :=
  let fields := match fields with Some f => f | None => "*" end in
  request ("/about?fields=" ++ encodeURIComponent fields) no_options false.

Record ConnectionStatus : Type := {
  connected : bool;
  connection_message : string
}.

Definition testConnection : M ConnectionStatus :=
  try_catch
    (about <- getAbout (Some "user") ;;
     user <- lift (get about "user") ;;
     let who :=
       or_json (get_opt user "displayName")
         (or_json (get_opt user "emailAddress") (JStr "unknown user")) in
     name <- lift (to_string who) ;;
     ret {| connected := true;
            connection_message := "Connected to Google Drive as " ++ name |})
    (fun e => ret {| connected := false; connection_message := message_of e |}).

(** *** Files *)

Definition listFiles (params : ListFiles.params) : M PaginatedResponse :=
  let queryParams := URLSearchParams.empty in
  let queryParams := URLSearchParams.set_if (truthy_str (ListFiles.q params))
                       "q" (the (ListFiles.q params)) queryParams in
  let queryParams := URLSearchParams.set_if (truthy_num (ListFiles.pageSize params))
                       "pageSize" (String_of_number (the_num (ListFiles.pageSize params)))
                       queryParams in
  let queryParams := URLSearchParams.set_if (truthy_str (ListFiles.pageToken params))
                       "pageToken" (the (ListFiles.pageToken params)) queryParams in
  let queryParams := URLSearchParams.set "fields"
                       ("nextPageToken,files("
                        ++ or_str (ListFiles.fields params) DEFAULT_FILE_FIELDS ++ ")")
                       queryParams in
  let queryParams := URLSearchParams.set_if (truthy_str (ListFiles.orderBy params))
                       "orderBy" (the (ListFiles.orderBy params)) queryParams in
  let queryParams := URLSearchParams.set_if (truthy_str (ListFiles.spaces params))
                       "spaces" (the (ListFiles.spaces params)) queryParams in
  let queryParams := URLSearchParams.set_if (truthy_str (ListFiles.corpora params))
                       "corpora" (the (ListFiles.corpora params)) queryParams in
  let queryParams := URLSearchParams.set_if (truthy_str (ListFiles.driveId params))
                       "driveId" (the (ListFiles.driveId params)) queryParams in
  let queryParams := URLSearchParams.set_if
                       (truthy_bool (ListFiles.includeItemsFromAllDrives params))
                       "includeItemsFromAllDrives"
                       (String_of_bool (the_bool (ListFiles.includeItemsFromAllDrives params)))
                       queryParams in
  let queryParams := URLSearchParams.set_if
                       (truthy_bool (ListFiles.supportsAllDrives params))
                       "supportsAllDrives"
                       (String_of_bool (the_bool (ListFiles.supportsAllDrives params)))
                       queryParams in
  response <- request ("/files?" ++ URLSearchParams.toString queryParams)
                no_options false ;;
  paginated "files" response.

Definition getFile (fileId : string) (fields : option string) : M value :=
  let queryParams := URLSearchParams.empty in
  let queryParams := URLSearchParams.set "fields"
                       (or_str fields DEFAULT_FILE_FIELDS) queryParams in
  let queryParams := URLSearchParams.set "supportsAllDrives" "true" queryParams in
  request ("/files/" ++ fileId ++ "?" ++ URLSearchParams.toString queryParams)
    no_options false.

(** [if (c) metadata.k = v]. *)
Definition assign_if (c : bool) (k : string) (v : json)
  (o : list (string * json)) : list (string * json) :=
  if c then put k v o else o.

Definition createFile_metadata (params : CreateFile.params) : json :=
  let metadata := [("name", JStr (CreateFile.name params))] in
  let metadata := assign_if (truthy_str (CreateFile.mimeType params))
                    "mimeType" (JStr (the (CreateFile.mimeType params))) metadata in
  let metadata := assign_if (defined (CreateFile.parents params))
                    "parents" (JArr (map JStr (the_list (CreateFile.parents params))))
                    metadata in
  let metadata := assign_if (truthy_str (CreateFile.description params))
                    "description" (JStr (the (CreateFile.description params)))
                    metadata in
  JObj metadata.

Definition createFile (params : CreateFile.params) : M value :=
  let metadata := createFile_metadata params in
  if truthy_str (CreateFile.content params) then
    request ("/files?uploadType=multipart&fields=" ++ DEFAULT_FILE_FIELDS)
      {| method := Some "POST";
         headers := Some [("Content-Type", multipart_content_type)];
         body := Some (multipartBody metadata (CreateFile.mimeType params)
                         (the (CreateFile.content params))) |}
      true
  else
    request ("/files?fields=" ++ DEFAULT_FILE_FIELDS)
      (POST (Some (JSON_stringify metadata))) false.

Definition updateFile_metadata (params : UpdateFile.params) : json :=
  let metadata := [] in
  let metadata := assign_if (defined (UpdateFile.name params))
                    "name" (JStr (the (UpdateFile.name params))) metadata in
  let metadata := assign_if (defined (UpdateFile.description params))
                    "description" (JStr (the (UpdateFile.description params)))
                    metadata in
  let metadata := assign_if (defined (UpdateFile.mimeType params))
                    "mimeType" (JStr (the (UpdateFile.mimeType params))) metadata in
  let metadata := assign_if (defined (UpdateFile.starred params))
                    "starred" (JBool (the_bool (UpdateFile.starred params))) metadata in
  let metadata := assign_if (defined (UpdateFile.trashed params))
                    "trashed" (JBool (the_bool (UpdateFile.trashed params))) metadata in
  JObj metadata.

Definition updateFile (fileId : string) (params : UpdateFile.params) : M value :=
  let queryParams := URLSearchParams.empty in
  let queryParams := URLSearchParams.set "fields" DEFAULT_FILE_FIELDS queryParams in
  let queryParams := URLSearchParams.set "supportsAllDrives" "true" queryParams in
  let queryParams := URLSearchParams.set_if (truthy_str (UpdateFile.addParents params))
                       "addParents" (the (UpdateFile.addParents params)) queryParams in
  let queryParams := URLSearchParams.set_if (truthy_str (UpdateFile.removeParents params))
                       "removeParents" (the (UpdateFile.removeParents params))
                       queryParams in
  let metadata := updateFile_metadata params in
  if truthy_str (UpdateFile.content params) then
    request ("/files/" ++ fileId ++ "?uploadType=multipart&"
             ++ URLSearchParams.toString queryParams)
      {| method := Some "PATCH";
         headers := Some [("Content-Type", multipart_content_type)];
         body := Some (multipartBody metadata (UpdateFile.mimeType params)
                         (the (UpdateFile.content params))) |}
      true
  else
    request ("/files/" ++ fileId ++ "?" ++ URLSearchParams.toString queryParams)
      (PATCH (Some (JSON_stringify metadata))) false.

Definition copyFile (fileId : string) (params : object_literal) : M value :=
  let queryParams := URLSearchParams.empty in
  let queryParams := URLSearchParams.set "fields" DEFAULT_FILE_FIELDS queryParams in
  let queryParams := URLSearchParams.set "supportsAllDrives" "true" queryParams in
  request ("/files/" ++ fileId ++ "/copy?" ++ URLSearchParams.toString queryParams)
    (POST (Some (JSON_stringify (js_obj params)))) false.

Definition deleteFile (fileId : string) : M unit :=
  request ("/files/" ++ fileId ++ "?supportsAllDrives=true") DELETE false ;;;
  ret tt.

Definition emptyTrash : M unit :=
  request "/files/trash" DELETE false ;;; ret tt.

Definition exportFile (fileId mimeType : string) : M value :=
  request ("/files/" ++ fileId ++ "/export?mimeType=" ++ encodeURIComponent mimeType)
    no_options false.

Definition downloadFile (fileId : string) : M value :=
  request ("/files/" ++ fileId ++ "?alt=media&supportsAllDrives=true")
    no_options false.

Definition generateIds (count : option Z) (space : option string) : M value :=
  let count := match count with Some c => c | None => 10 end in
  let space := match space with Some s => s | None => "drive" end in
  response <- request ("/files/generateIds?count=" ++ String_of_number count
                       ++ "&space=" ++ space) no_options false ;;
  lift (get response "ids").

Definition listLabels (fileId : string) : M value :=
  request ("/files/" ++ fileId ++ "/listLabels") no_options false.

Definition modifyLabels (fileId : string) (labelModifications : value) : M value :=
  request ("/files/" ++ fileId ++ "/modifyLabels")
    (POST (Some (JSON_stringify (js_obj [("labelModifications", labelModifications)]))))
    false.

Definition watchFile (fileId : string) (channel : object_literal) : M value :=
  request ("/files/" ++ fileId ++ "/watch?supportsAllDrives=true")
    (POST (Some (JSON_stringify (js_obj channel)))) false.

(** *** Folders *)

Definition createFolder (name : string) (parents : option (list string)) : M value :=
  createFile {| CreateFile.name := name;
                CreateFile.mimeType := Some "application/vnd.google-apps.folder";
                CreateFile.parents := parents;
                CreateFile.description := None;
                CreateFile.content := None |}.

Definition listFolderContents (folderId : string)
  (params : ListFolderContents.params) : M PaginatedResponse :=
  listFiles
    {| ListFiles.q := Some ("'" ++ folderId ++ "' in parents and trashed = false");
       ListFiles.pageSize := ListFolderContents.pageSize params;
       ListFiles.pageToken := ListFolderContents.pageToken params;
       ListFiles.fields := None;
       ListFiles.orderBy := ListFolderContents.orderBy params;
       ListFiles.spaces := None;
       ListFiles.corpora := None;
       ListFiles.driveId := None;
       ListFiles.includeItemsFromAllDrives := None;
       ListFiles.supportsAllDrives := None |}.

(** *** Permissions *)

Definition listPermissions (fileId : string) (params : ListPermissions.params)
  : M PaginatedResponse :=
  let queryParams := URLSearchParams.empty in
  let queryParams := URLSearchParams.set_if (truthy_num (ListPermissions.pageSize params))
                       "pageSize"
                       (String_of_number (the_num (ListPermissions.pageSize params)))
                       queryParams in
  let queryParams := URLSearchParams.set_if (truthy_str (ListPermissions.pageToken params))
                       "pageToken" (the (ListPermissions.pageToken params)) queryParams in
  let queryParams := URLSearchParams.set "supportsAllDrives"
                       (String_of_bool
                          (match ListPermissions.supportsAllDrives params with
                           | Some b => b
                           | None => true
                           end))
                       queryParams in
  let queryParams := URLSearchParams.set "fields" "nextPageToken,permissions(*)"
                       queryParams in
  response <- request ("/files/" ++ fileId ++ "/permissions?"
                       ++ URLSearchParams.toString queryParams) no_options false ;;
  paginated "permissions" response.

Definition getPermission (fileId permissionId : string) : M value :=
  request ("/files/" ++ fileId ++ "/permissions/" ++ permissionId
           ++ "?supportsAllDrives=true&fields=*") no_options false.

Definition createPermission (fileId : string) (params : CreatePermission.params)
  : M value :=
  let queryParams := URLSearchParams.empty in
  let queryParams := URLSearchParams.set "supportsAllDrives" "true" queryParams in
  let queryParams := URLSearchParams.set "fields" "*" queryParams in
  let queryParams := URLSearchParams.set_if
                       (defined (CreatePermission.sendNotificationEmail params))
                       "sendNotificationEmail"
                       (String_of_bool
                          (the_bool (CreatePermission.sendNotificationEmail params)))
                       queryParams in
  let queryParams := URLSearchParams.set_if
                       (truthy_str (CreatePermission.emailMessage params))
                       "emailMessage" (the (CreatePermission.emailMessage params))
                       queryParams in
  let queryParams := URLSearchParams.set_if
                       (truthy_bool (CreatePermission.transferOwnership params))
                       "transferOwnership" "true" queryParams in
  let queryParams := URLSearchParams.set_if
                       (truthy_bool (CreatePermission.moveToNewOwnersRoot params))
                       "moveToNewOwnersRoot" "true" queryParams in
  let body := [("role", JStr (CreatePermission.role params));
               ("type", JStr (CreatePermission.type params))] in
  let body := assign_if (truthy_str (CreatePermission.emailAddress params))
                "emailAddress" (JStr (the (CreatePermission.emailAddress params)))
                body in
  let body := assign_if (truthy_str (CreatePermission.domain params))
                "domain" (JStr (the (CreatePermission.domain params))) body in
  let body := assign_if (defined (CreatePermission.allowFileDiscovery params))
                "allowFileDiscovery"
                (JBool (the_bool (CreatePermission.allowFileDiscovery params))) body in
  request ("/files/" ++ fileId ++ "/permissions?"
           ++ URLSearchParams.toString queryParams)
    (POST (Some (JSON_stringify (JObj body)))) false.

Definition updatePermission (fileId permissionId : string) (params : object_literal)
  : M value :=
  request ("/files/" ++ fileId ++ "/permissions/" ++ permissionId
           ++ "?supportsAllDrives=true&fields=*")
    (PATCH (Some (JSON_stringify (js_obj params)))) false.

Definition deletePermission (fileId permissionId : string) : M unit :=
  request ("/files/" ++ fileId ++ "/permissions/" ++ permissionId
           ++ "?supportsAllDrives=true") DELETE false ;;;
  ret tt.

(** *** Comments *)

Definition listComments (fileId : string) (params : ListComments.params)
  : M PaginatedResponse :=
  let queryParams := URLSearchParams.empty in
  let queryParams := URLSearchParams.set_if (truthy_num (ListComments.pageSize params))
                       "pageSize"
                       (String_of_number (the_num (ListComments.pageSize params)))
                       queryParams in
  let queryParams := URLSearchParams.set_if (truthy_str (ListComments.pageToken params))
                       "pageToken" (the (ListComments.pageToken params)) queryParams in
  let queryParams := URLSearchParams.set_if
                       (truthy_bool (ListComments.includeDeleted params))
                       "includeDeleted" "true" queryParams in
  let queryParams := URLSearchParams.set_if
                       (truthy_str (ListComments.startModifiedTime params))
                       "startModifiedTime" (the (ListComments.startModifiedTime params))
                       queryParams in
  let queryParams := URLSearchParams.set "fields" "nextPageToken,comments(*)"
                       queryParams in
  response <- request ("/files/" ++ fileId ++ "/comments?"
                       ++ URLSearchParams.toString queryParams) no_options false ;;
  paginated "comments" response.

Definition getComment (fileId commentId : string) (includeDeleted : option bool)
  : M value :=
  let includeDeleted := match includeDeleted with Some b => b | None => false end in
  let queryParams := URLSearchParams.empty in
  let queryParams := URLSearchParams.set "fields" "*" queryParams in
  let queryParams := URLSearchParams.set_if includeDeleted "includeDeleted" "true"
                       queryParams in
  request ("/files/" ++ fileId ++ "/comments/" ++ commentId ++ "?"
           ++ URLSearchParams.toString queryParams) no_options false.

Definition createComment (fileId : string) (params : object_literal) : M value :=
  request ("/files/" ++ fileId ++ "/comments?fields=*")
    (POST (Some (JSON_stringify (js_obj params)))) false.

Definition updateComment (fileId commentId content : string) : M value :=
  request ("/files/" ++ fileId ++ "/comments/" ++ commentId ++ "?fields=*")
    (PATCH (Some (JSON_stringify (js_obj [("content", Some (JStr content))])))) false.

Definition deleteComment (fileId commentId : string) : M unit :=
  request ("/files/" ++ fileId ++ "/comments/" ++ commentId) DELETE false ;;;
  ret tt.

(** *** Replies *)

Definition listReplies (fileId commentId : string) (params : ListReplies.params)
  : M PaginatedResponse :=
  let queryParams := URLSearchParams.empty in
  let queryParams := URLSearchParams.set_if (truthy_num (ListReplies.pageSize params))
                       "pageSize"
                       (String_of_number (the_num (ListReplies.pageSize params)))
                       queryParams in
  let queryParams := URLSearchParams.set_if (truthy_str (ListReplies.pageToken params))
                       "pageToken" (the (ListReplies.pageToken params)) queryParams in
  let queryParams := URLSearchParams.set_if
                       (truthy_bool (ListReplies.includeDeleted params))
                       "includeDeleted" "true" queryParams in
  let queryParams := URLSearchParams.set "fields" "nextPageToken,replies(*)"
                       queryParams in
  response <- request ("/files/" ++ fileId ++ "/comments/" ++ commentId ++ "/replies?"
                       ++ URLSearchParams.toString queryParams) no_options false ;;
  paginated "replies" response.

Definition getReply (fileId commentId replyId : string) (includeDeleted : option bool)
  : M value :=
  let includeDeleted := match includeDeleted with Some b => b | None => false end in
  let queryParams := URLSearchParams.empty in
  let queryParams := URLSearchParams.set "fields" "*" queryParams in
  let queryParams := URLSearchParams.set_if includeDeleted "includeDeleted" "true"
                       queryParams in
  request ("/files/" ++ fileId ++ "/comments/" ++ commentId ++ "/replies/" ++ replyId
           ++ "?" ++ URLSearchParams.toString queryParams) no_options false.

Definition createReply (fileId commentId : string) (params : object_literal)
  : M value :=
  request ("/files/" ++ fileId ++ "/comments/" ++ commentId ++ "/replies?fields=*")
    (POST (Some (JSON_stringify (js_obj params)))) false.

Definition updateReply (fileId commentId replyId content : string) : M value :=
  request ("/files/" ++ fileId ++ "/comments/" ++ commentId ++ "/replies/" ++ replyId
           ++ "?fields=*")
    (PATCH (Some (JSON_stringify (js_obj [("content", Some (JStr content))])))) false.

Definition deleteReply (fileId commentId replyId : string) : M unit :=
  request ("/files/" ++ fileId ++ "/comments/" ++ commentId ++ "/replies/" ++ replyId)
    DELETE false ;;;
  ret tt.

(** *** Revisions *)

Definition listRevisions (fileId : string) (params : ListRevisions.params)
  : M PaginatedResponse :=
  let queryParams := URLSearchParams.empty in
  let queryParams := URLSearchParams.set_if (truthy_num (ListRevisions.pageSize params))
                       "pageSize"
                       (String_of_number (the_num (ListRevisions.pageSize params)))
                       queryParams in
  let queryParams := URLSearchParams.set_if (truthy_str (ListRevisions.pageToken params))
                       "pageToken" (the (ListRevisions.pageToken params)) queryParams in
  let queryParams := URLSearchParams.set "fields" "nextPageToken,revisions(*)"
                       queryParams in
  response <- request ("/files/" ++ fileId ++ "/revisions?"
                       ++ URLSearchParams.toString queryParams) no_options false ;;
  paginated "revisions" response.

Definition getRevision (fileId revisionId : string) : M value :=
  request ("/files/" ++ fileId ++ "/revisions/" ++ revisionId ++ "?fields=*")
    no_options false.

Definition updateRevision (fileId revisionId : string) (params : object_literal)
  : M value :=
  request ("/files/" ++ fileId ++ "/revisions/" ++ revisionId ++ "?fields=*")
    (PATCH (Some (JSON_stringify (js_obj params)))) false.

Definition deleteRevision (fileId revisionId : string) : M unit :=
  request ("/files/" ++ fileId ++ "/revisions/" ++ revisionId) DELETE false ;;;
  ret tt.

(** *** Shared drives *)

Definition listDrives (params : ListDrives.params) : M PaginatedResponse :=
  let queryParams := URLSearchParams.empty in
  let queryParams := URLSearchParams.set_if (truthy_num (ListDrives.pageSize params))
                       "pageSize"
                       (String_of_number (the_num (ListDrives.pageSize params)))
                       queryParams in
  let queryParams := URLSearchParams.set_if (truthy_str (ListDrives.pageToken params))
                       "pageToken" (the (ListDrives.pageToken params)) queryParams in
  let queryParams := URLSearchParams.set_if (truthy_str (ListDrives.q params))
                       "q" (the (ListDrives.q params)) queryParams in
  let queryParams := URLSearchParams.set_if
                       (truthy_bool (ListDrives.useDomainAdminAccess params))
                       "useDomainAdminAccess" "true" queryParams in
  let queryParams := URLSearchParams.set "fields" "nextPageToken,drives(*)"
                       queryParams in
  response <- request ("/drives?" ++ URLSearchParams.toString queryParams)
                no_options false ;;
  paginated "drives" response.

Definition getDrive (driveId : string) (useDomainAdminAccess : option bool)
  : M value :=
  let useDomainAdminAccess :=
    match useDomainAdminAccess with Some b => b | None => false end in
  let queryParams := URLSearchParams.empty in
  let queryParams := URLSearchParams.set "fields" "*" queryParams in
  let queryParams := URLSearchParams.set_if useDomainAdminAccess
                       "useDomainAdminAccess" "true" queryParams in
  request ("/drives/" ++ driveId ++ "?" ++ URLSearchParams.toString queryParams)
    no_options false.

Definition createDrive (requestId : string) (params : object_literal) : M value :=
  request ("/drives?requestId=" ++ encodeURIComponent requestId ++ "&fields=*")
    (POST (Some (JSON_stringify (js_obj params)))) false.

Definition updateDrive (driveId : string) (params : object_literal) : M value :=
  request ("/drives/" ++ driveId ++ "?fields=*")
    (PATCH (Some (JSON_stringify (js_obj params)))) false.

Definition deleteDrive (driveId : string) : M unit :=
  request ("/drives/" ++ driveId) DELETE false ;;; ret tt.

Definition hideDrive (driveId : string) : M value :=
  request ("/drives/" ++ driveId ++ "/hide?fields=*") (POST None) false.

Definition unhideDrive (driveId : string) : M value :=
  request ("/drives/" ++ driveId ++ "/unhide?fields=*") (POST None) false.

(** *** Changes and channels *)

Definition getStartPageToken (params : GetStartPageToken.params) : M value :=
  let queryParams := URLSearchParams.empty in
  let queryParams := URLSearchParams.set_if
                       (truthy_str (GetStartPageToken.driveId params))
                       "driveId" (the (GetStartPageToken.driveId params)) queryParams in
  let queryParams := URLSearchParams.set_if
                       (truthy_bool (GetStartPageToken.supportsAllDrives params))
                       "supportsAllDrives" "true" queryParams in
  response <- request ("/changes/startPageToken?"
                       ++ URLSearchParams.toString queryParams) no_options false ;;
  lift (get response "startPageToken").

Definition listChanges (pageToken : string) (params : ListChanges.params) : M value :=
  let queryParams := URLSearchParams.empty in
  let queryParams := URLSearchParams.set "pageToken" pageToken queryParams in
  let queryParams := URLSearchParams.set_if (truthy_str (ListChanges.driveId params))
                       "driveId" (the (ListChanges.driveId params)) queryParams in
  let queryParams := URLSearchParams.set_if (truthy_num (ListChanges.pageSize params))
                       "pageSize"
                       (String_of_number (the_num (ListChanges.pageSize params)))
                       queryParams in
  let queryParams := URLSearchParams.set_if (truthy_str (ListChanges.spaces params))
                       "spaces" (the (ListChanges.spaces params)) queryParams in
  let queryParams := URLSearchParams.set_if
                       (truthy_bool (ListChanges.includeItemsFromAllDrives params))
                       "includeItemsFromAllDrives"
                       (String_of_bool
                          (the_bool (ListChanges.includeItemsFromAllDrives params)))
                       queryParams in
  let queryParams := URLSearchParams.set_if
                       (truthy_bool (ListChanges.supportsAllDrives params))
                       "supportsAllDrives"
                       (String_of_bool (the_bool (ListChanges.supportsAllDrives params)))
                       queryParams in
  let queryParams := URLSearchParams.set_if
                       (defined (ListChanges.includeRemoved params))
                       "includeRemoved"
                       (String_of_bool (the_bool (ListChanges.includeRemoved params)))
                       queryParams in
  let queryParams := URLSearchParams.set_if
                       (truthy_bool (ListChanges.restrictToMyDrive params))
                       "restrictToMyDrive"
                       (String_of_bool (the_bool (ListChanges.restrictToMyDrive params)))
                       queryParams in
  let queryParams := URLSearchParams.set "fields"
                       "nextPageToken,newStartPageToken,changes(*)" queryParams in
  request ("/changes?" ++ URLSearchParams.toString queryParams) no_options false.

Definition watchChanges (pageToken : string) (channel : object_literal)
  (params : WatchChanges.params) : M value :=
  let queryParams := URLSearchParams.empty in
  let queryParams := URLSearchParams.set "pageToken" pageToken queryParams in
  let queryParams := URLSearchParams.set_if (truthy_str (WatchChanges.driveId params))
                       "driveId" (the (WatchChanges.driveId params)) queryParams in
  let queryParams := URLSearchParams.set_if
                       (truthy_bool (WatchChanges.includeItemsFromAllDrives params))
                       "includeItemsFromAllDrives"
                       (String_of_bool
                          (the_bool (WatchChanges.includeItemsFromAllDrives params)))
                       queryParams in
  let queryParams := URLSearchParams.set_if
                       (truthy_bool (WatchChanges.supportsAllDrives params))
                       "supportsAllDrives"
                       (String_of_bool (the_bool (WatchChanges.supportsAllDrives params)))
                       queryParams in
  request ("/changes/watch?" ++ URLSearchParams.toString queryParams)
    (POST (Some (JSON_stringify (js_obj channel)))) false.

Definition stopChannel (channelId resourceId : string) : M unit :=
  request "/channels/stop"
    (POST (Some (JSON_stringify
                   (js_obj [("id", Some (JStr channelId));
                            ("resourceId", Some (JStr resourceId))])))) false ;;;
  ret tt.

(** *** Apps *)

Definition listApps (params : ListApps.params) : M json :=
  let queryParams := URLSearchParams.empty in
  let queryParams := URLSearchParams.set_if
                       (truthy_str (ListApps.appFilterExtensions params))
                       "appFilterExtensions" (the (ListApps.appFilterExtensions params))
                       queryParams in
  let queryParams := URLSearchParams.set_if
                       (truthy_str (ListApps.appFilterMimeTypes params))
                       "appFilterMimeTypes" (the (ListApps.appFilterMimeTypes params))
                       queryParams in
  let queryParams := URLSearchParams.set_if (truthy_str (ListApps.languageCode params))
                       "languageCode" (the (ListApps.languageCode params)) queryParams in
  let queryParams := URLSearchParams.set "fields" "items(*)" queryParams in
  response <- request ("/apps?" ++ URLSearchParams.toString queryParams)
                no_options false ;;
  xs <- lift (get response "items") ;;
  ret (or_json xs (JArr [])).

Definition getApp (appId : string) : M value :=
  request ("/apps/" ++ appId ++ "?fields=*") no_options false.

(** *** Access proposals *)

Definition listAccessProposals (fileId : string) (params : ListAccessProposals.params)
  : M PaginatedResponse :=
  let queryParams := URLSearchParams.empty in
  let queryParams := URLSearchParams.set_if
                       (truthy_num (ListAccessProposals.pageSize params))
                       "pageSize"
                       (String_of_number (the_num (ListAccessProposals.pageSize params)))
                       queryParams in
  let queryParams := URLSearchParams.set_if
                       (truthy_str (ListAccessProposals.pageToken params))
                       "pageToken" (the (ListAccessProposals.pageToken params))
                       queryParams in
  response <- request ("/files/" ++ fileId ++ "/accessproposals?"
                       ++ URLSearchParams.toString queryParams) no_options false ;;
  paginated "accessProposals" response.

Definition getAccessProposal (fileId proposalId : string) : M value :=
  request ("/files/" ++ fileId ++ "/accessproposals/" ++ proposalId) no_options false.

Definition resolveAccessProposal (fileId proposalId action : string)
  (role view : option string) (sendNotification : option bool) : M unit :=
  let queryParams := URLSearchParams.empty in
  let queryParams := URLSearchParams.set "action" action queryParams in
  let queryParams := URLSearchParams.set_if (truthy_str role) "role" (the role)
                       queryParams in
  let queryParams := URLSearchParams.set_if (truthy_str view) "view" (the view)
                       queryParams in
  let queryParams := URLSearchParams.set_if (defined sendNotification)
                       "sendNotification" (String_of_bool (the_bool sendNotification))
                       queryParams in
  request ("/files/" ++ fileId ++ "/accessproposals/" ++ proposalId ++ ":resolve?"
           ++ URLSearchParams.toString queryParams) (POST None) false ;;;
  ret tt.

(** *** Long-running operations *)

Definition getOperation (operationName : string) : M value :=
  request ("/operations/" ++ operationName) no_options false.


(** *** The interface [GoogleDriveClient]

    The operations of the client as data, each with the type of its answer,
    and the method that runs each. *)

Inductive operation : Type -> Type :=
| testConnection_ : operation ConnectionStatus
| getAbout_ (fields : option string) : operation value
| listFiles_ (params : ListFiles.params) : operation PaginatedResponse
| getFile_ (fileId : string) (fields : option string) : operation value
| createFile_ (params : CreateFile.params) : operation value
| updateFile_ (fileId : string) (params : UpdateFile.params) : operation value
| copyFile_ (fileId : string) (params : object_literal) : operation value
| deleteFile_ (fileId : string) : operation unit
| emptyTrash_ : operation unit
| exportFile_ (fileId mimeType : string) : operation value
| downloadFile_ (fileId : string) : operation value
| generateIds_ (count : option Z) (space : option string) : operation value
| listLabels_ (fileId : string) : operation value
| modifyLabels_ (fileId : string) (labelModifications : value) : operation value
| watchFile_ (fileId : string) (channel : object_literal) : operation value
| createFolder_ (name : string) (parents : option (list string)) : operation value
| listFolderContents_ (folderId : string) (params : ListFolderContents.params)
  : operation PaginatedResponse
| listPermissions_ (fileId : string) (params : ListPermissions.params)
  : operation PaginatedResponse
| getPermission_ (fileId permissionId : string) : operation value
| createPermission_ (fileId : string) (params : CreatePermission.params)
  : operation value
| updatePermission_ (fileId permissionId : string) (params : object_literal)
  : operation value
| deletePermission_ (fileId permissionId : string) : operation unit
| listComments_ (fileId : string) (params : ListComments.params)
  : operation PaginatedResponse
| getComment_ (fileId commentId : string) (includeDeleted : option bool)
  : operation value
| createComment_ (fileId : string) (params : object_literal) : operation value
| updateComment_ (fileId commentId content : string) : operation value
| deleteComment_ (fileId commentId : string) : operation unit
| listReplies_ (fileId commentId : string) (params : ListReplies.params)
  : operation PaginatedResponse
| getReply_ (fileId commentId replyId : string) (includeDeleted : option bool)
  : operation value
| createReply_ (fileId commentId : string) (params : object_literal)
  : operation value
| updateReply_ (fileId commentId replyId content : string) : operation value
| deleteReply_ (fileId commentId replyId : string) : operation unit
| listRevisions_ (fileId : string) (params : ListRevisions.params)
  : operation PaginatedResponse
| getRevision_ (fileId revisionId : string) : operation value
| updateRevision_ (fileId revisionId : string) (params : object_literal)
  : operation value
| deleteRevision_ (fileId revisionId : string) : operation unit
| listDrives_ (params : ListDrives.params) : operation PaginatedResponse
| getDrive_ (driveId : string) (useDomainAdminAccess : option bool)
  : operation value
| createDrive_ (requestId : string) (params : object_literal) : operation value
| updateDrive_ (driveId : string) (params : object_literal) : operation value
| deleteDrive_ (driveId : string) : operation unit
| hideDrive_ (driveId : string) : operation value
| unhideDrive_ (driveId : string) : operation value
| getStartPageToken_ (params : GetStartPageToken.params) : operation value
| listChanges_ (pageToken : string) (params : ListChanges.params) : operation value
| watchChanges_ (pageToken : string) (channel : object_literal)
    (params : WatchChanges.params) : operation value
| stopChannel_ (channelId resourceId : string) : operation unit
| listApps_ (params : ListApps.params) : operation json
| getApp_ (appId : string) : operation value
| listAccessProposals_ (fileId : string) (params : ListAccessProposals.params)
  : operation PaginatedResponse
| getAccessProposal_ (fileId proposalId : string) : operation value
| resolveAccessProposal_ (fileId proposalId action : string)
    (role view : option string) (sendNotification : option bool) : operation unit
| getOperation_ (operationName : string) : operation value.

Definition perform {A : Type} (op : operation A) : M A :=
  match op in operation T return M T with
  | testConnection_ => testConnection
  | getAbout_ fields => getAbout fields
  | listFiles_ params => listFiles params
  | getFile_ fileId fields => getFile fileId fields
  | createFile_ params => createFile params
  | updateFile_ fileId params => updateFile fileId params
  | copyFile_ fileId params => copyFile fileId params
  | deleteFile_ fileId => deleteFile fileId
  | emptyTrash_ => emptyTrash
  | exportFile_ fileId mimeType => exportFile fileId mimeType
  | downloadFile_ fileId => downloadFile fileId
  | generateIds_ count space => generateIds count space
  | listLabels_ fileId => listLabels fileId
  | modifyLabels_ fileId labelModifications => modifyLabels fileId labelModifications
  | watchFile_ fileId channel => watchFile fileId channel
  | createFolder_ name parents => createFolder name parents
  | listFolderContents_ folderId params => listFolderContents folderId params
  | listPermissions_ fileId params => listPermissions fileId params
  | getPermission_ fileId permissionId => getPermission fileId permissionId
  | createPermission_ fileId params => createPermission fileId params
  | updatePermission_ fileId permissionId params =>
      updatePermission fileId permissionId params
  | deletePermission_ fileId permissionId => deletePermission fileId permissionId
  | listComments_ fileId params => listComments fileId params
  | getComment_ fileId commentId includeDeleted =>
      getComment fileId commentId includeDeleted
  | createComment_ fileId params => createComment fileId params
  | updateComment_ fileId commentId content => updateComment fileId commentId content
  | deleteComment_ fileId commentId => deleteComment fileId commentId
  | listReplies_ fileId commentId params => listReplies fileId commentId params
  | getReply_ fileId commentId replyId includeDeleted =>
      getReply fileId commentId replyId includeDeleted
  | createReply_ fileId commentId params => createReply fileId commentId params
  | updateReply_ fileId commentId replyId content =>
      updateReply fileId commentId replyId content
  | deleteReply_ fileId commentId replyId => deleteReply fileId commentId replyId
  | listRevisions_ fileId params => listRevisions fileId params
  | getRevision_ fileId revisionId => getRevision fileId revisionId
  | updateRevision_ fileId revisionId params =>
      updateRevision fileId revisionId params
  | deleteRevision_ fileId revisionId => deleteRevision fileId revisionId
  | listDrives_ params => listDrives params
  | getDrive_ driveId useDomainAdminAccess => getDrive driveId useDomainAdminAccess
  | createDrive_ requestId params => createDrive requestId params
  | updateDrive_ driveId params => updateDrive driveId params
  | deleteDrive_ driveId => deleteDrive driveId
  | hideDrive_ driveId => hideDrive driveId
  | unhideDrive_ driveId => unhideDrive driveId
  | getStartPageToken_ params => getStartPageToken params
  | listChanges_ pageToken params => listChanges pageToken params
  | watchChanges_ pageToken channel params => watchChanges pageToken channel params
  | stopChannel_ channelId resourceId => stopChannel channelId resourceId
  | listApps_ params => listApps params
  | getApp_ appId => getApp appId
  | listAccessProposals_ fileId params => listAccessProposals fileId params
  | getAccessProposal_ fileId proposalId => getAccessProposal fileId proposalId
  | resolveAccessProposal_ fileId proposalId action role view sendNotification =>
      resolveAccessProposal fileId proposalId action role view sendNotification
  | getOperation_ operationName => getOperation operationName
  end.

(* ------------------------------------------------------------------------- *)
(** ** [tools/*.ts] and [index.ts]: the tool surface

    A handler receives its arguments after schema validation (a field with a
    default is always there), runs inside [try], and any error becomes the
    result of [formatError].  What a handler returns is kept as the data it
    hands to the text renderer; the rendering itself ([JSON.stringify] with
    indentation, the Markdown tables) is not part of the model. *)

Inductive ToolResponse : Type :=
| json_text (data : value)
| plain_text (data : value)
| error_response (e : error)
| connection_failed (e : error).

(** [formatBytes] and the percentage of [googledrive_get_storage_quota] are
    floating-point renderings; they are taken as given. *)
Variable formatBytes : value -> string.
Variable percentage : value -> value -> string.

Definition handle (m : M ToolResponse) : M ToolResponse :=
  try_catch m (fun e => ret (error_response e)).

Definition formatResponse (data : value) : ToolResponse := json_text data.

Definition success (message : string) (extra : list (string * value)) : ToolResponse :=
  json_text (Some (js_obj (("success", Some (JBool true))
                           :: ("message", Some (JStr message)) :: extra))).

(** [parentId ? [parentId] : undefined]. *)
Definition parents_of (parentId : option string) : option (list string) :=
  if truthy_str parentId then Some [the parentId] else None.

(** [x?.join(',')] on a value read from a payload: nothing for
    [undefined] and [null], the joined elements for an array (when they
    convert), and a TypeError for anything else, which has no [join] to
    call. *)
Definition join_opt (v : value) : result (option string) :=
  match v with
  | None => Ok None
  | Some JNull => Ok None
  | Some (JArr l) =>
      match to_string (JArr l) with
      | Ok joined => Ok (Some joined)
      | Throw e => Throw e
      end
  | Some _ => Throw (TypeError "join is not a function")
  end.

Inductive tool : Type :=
(* index.ts *)
| googledrive_test_connection
(* tools/about.ts *)
| googledrive_get_about (fields : option string)
| googledrive_get_storage_quota
| googledrive_get_user_info
| googledrive_get_export_formats
| googledrive_get_import_formats
(* tools/files.ts *)
| googledrive_list_files (query : option string) (pageSize : Z)
    (pageToken orderBy spaces : option string) (includeSharedDrives : bool)
| googledrive_get_file (fileId : string) (fields : option string)
| googledrive_create_file (name : string)
    (mimeType parentId description content : option string)
| googledrive_update_file (fileId : string)
    (name description content addParents removeParents : option string)
    (starred trashed : option bool)
| googledrive_copy_file (fileId : string) (name parentId description : option string)
| googledrive_delete_file (fileId : string)
| googledrive_empty_trash
| googledrive_export_file (fileId mimeType : string)
| googledrive_download_file (fileId : string)
| googledrive_generate_ids (count : Z) (space : string)
| googledrive_search_files (query : string) (pageSize : Z) (pageToken : option string)
(* tools/folders.ts *)
| googledrive_create_folder (name : string) (parentId : option string)
| googledrive_list_folder (folderId : string) (pageSize : Z)
    (pageToken orderBy : option string)
| googledrive_move_file (fileId newParentId : string) (removeFromCurrentParent : bool)
(* tools/permissions.ts *)
| googledrive_list_permissions (fileId : string) (pageSize : Z)
    (pageToken : option string)
| googledrive_get_permission (fileId permissionId : string)
| googledrive_share_with_user (fileId email role : string) (sendNotification : bool)
    (emailMessage : option string) (transferOwnership : option bool)
| googledrive_share_with_group (fileId email role : string) (sendNotification : bool)
| googledrive_share_with_domain (fileId domain role : string)
    (allowFileDiscovery : bool)
| googledrive_make_public (fileId role : string) (allowFileDiscovery : bool)
| googledrive_update_permission (fileId permissionId role : string)
    (expirationTime : option string)
| googledrive_remove_permission (fileId permissionId : string)
(* tools/comments.ts *)
| googledrive_list_comments (fileId : string) (pageSize : Z)
    (pageToken : option string) (includeDeleted : bool)
    (startModifiedTime : option string)
| googledrive_get_comment (fileId commentId : string) (includeDeleted : bool)
| googledrive_create_comment (fileId content : string) (anchor : option string)
| googledrive_update_comment (fileId commentId content : string)
| googledrive_delete_comment (fileId commentId : string)
| googledrive_list_replies (fileId commentId : string) (pageSize : Z)
    (pageToken : option string) (includeDeleted : bool)
| googledrive_get_reply (fileId commentId replyId : string) (includeDeleted : bool)
| googledrive_create_reply (fileId commentId content : string) (action : option string)
| googledrive_update_reply (fileId commentId replyId content : string)
| googledrive_delete_reply (fileId commentId replyId : string)
| googledrive_resolve_comment (fileId commentId content : string)
| googledrive_reopen_comment (fileId commentId content : string)
(* tools/drives.ts *)
| googledrive_list_drives (pageSize : Z) (pageToken query : option string)
| googledrive_get_drive (driveId : string)
| googledrive_create_drive (name requestId : string) (themeId : option string)
| googledrive_update_drive (driveId : string) (name colorRgb themeId : option string)
| googledrive_delete_drive (driveId : string)
| googledrive_hide_drive (driveId : string)
| googledrive_unhide_drive (driveId : string)
| googledrive_update_drive_restrictions (driveId : string)
    (adminManagedRestrictions copyRequiresWriterPermission domainUsersOnly
       driveMembersOnly sharingFoldersRequiresOrganizerPermission : option bool)
(* tools/changes.ts *)
| googledrive_get_changes_start_token (driveId : option string)
| googledrive_list_changes (pageToken : string) (pageSize : Z)
    (driveId : option string) (includeRemoved restrictToMyDrive : bool)
| googledrive_watch_changes (pageToken channelId webhookUrl : string)
    (token expirationTime driveId : option string)
| googledrive_watch_file (fileId channelId webhookUrl : string)
    (token expirationTime : option string)
| googledrive_stop_channel (channelId resourceId : string)
(* tools/access-proposals.ts *)
| googledrive_list_access_proposals (fileId : string) (pageSize : Z)
    (pageToken : option string)
| googledrive_get_access_proposal (fileId proposalId : string)
| googledrive_accept_access_proposal (fileId proposalId : string)
    (role : option string) (sendNotification : bool)
| googledrive_deny_access_proposal (fileId proposalId : string)
    (sendNotification : bool)
(* tools/apps.ts *)
| googledrive_list_apps
    (appFilterExtensions appFilterMimeTypes languageCode : option string)
| googledrive_get_app (appId : string)
(* tools/revisions.ts *)
| googledrive_list_revisions (fileId : string) (pageSize : Z)
    (pageToken : option string)
| googledrive_get_revision (fileId revisionId : string)
| googledrive_update_revision (fileId revisionId : string)
    (keepForever published publishAuto publishedOutsideDomain : option bool)
| googledrive_delete_revision (fileId revisionId : string)
| googledrive_keep_revision (fileId revisionId : string).

Definition channel_literal (channelId webhookUrl : string)
  (token expirationTime : option string) : object_literal :=
  [("id", Some (JStr channelId));
   ("type", Some (JStr "web_hook"));
   ("address", Some (JStr webhookUrl));
   ("token", str token);
   ("expiration", str expirationTime)].

Definition handler (t : tool) : M ToolResponse :=
  match t with
  | googledrive_test_connection =>
      try_catch
        (result <- testConnection ;;
         ret (json_text
                (Some (js_obj [("connected", Some (JBool (connected result)));
                               ("message", Some (JStr (connection_message result)))]))))
        (fun e => ret (connection_failed e))

  | googledrive_get_about fields =>
      handle (about <- getAbout (Some (or_str fields "*")) ;;
              ret (formatResponse about))
  | googledrive_get_storage_quota =>
      handle (about <- getAbout (Some "storageQuota") ;;
              quota <- lift (get about "storageQuota") ;;
              ret (json_text
                     (Some (js_obj
                        [("storageQuota",
                          Some (js_obj
                            [("limit", Some (JStr (formatBytes (get_opt quota "limit"))));
                             ("usage", Some (JStr (formatBytes (get_opt quota "usage"))));
                             ("usageInDrive",
                              Some (JStr (formatBytes (get_opt quota "usageInDrive"))));
                             ("usageInDriveTrash",
                              Some (JStr (formatBytes (get_opt quota "usageInDriveTrash"))));
                             ("percentUsed",
                              Some (JStr
                                (if truthy (get_opt quota "limit")
                                    && truthy (get_opt quota "usage")
                                 then percentage (get_opt quota "usage")
                                        (get_opt quota "limit")
                                 else "Unknown")))]));
                         ("raw", quota)]))))
  | googledrive_get_user_info =>
      handle (about <- getAbout (Some "user") ;;
              user <- lift (get about "user") ;;
              ret (formatResponse user))
  | googledrive_get_export_formats =>
      handle (about <- getAbout (Some "exportFormats") ;;
              formats <- lift (get about "exportFormats") ;;
              ret (json_text
                     (Some (js_obj
                        [("exportFormats", formats);
                         ("description",
                          Some (JStr "Map of Google Workspace MIME types to available export formats"))]))))
  | googledrive_get_import_formats =>
      handle (about <- getAbout (Some "importFormats") ;;
              formats <- lift (get about "importFormats") ;;
              ret (json_text
                     (Some (js_obj
                        [("importFormats", formats);
                         ("description",
                          Some (JStr "Map of MIME types to Google Workspace formats they can be converted to"))]))))

  | googledrive_list_files query pageSize pageToken orderBy spaces includeSharedDrives =>
      handle (result <- listFiles
                          {| ListFiles.q := query;
                             ListFiles.pageSize := Some pageSize;
                             ListFiles.pageToken := pageToken;
                             ListFiles.fields := None;
                             ListFiles.orderBy := orderBy;
                             ListFiles.spaces := spaces;
                             ListFiles.corpora := None;
                             ListFiles.driveId := None;
                             ListFiles.includeItemsFromAllDrives := Some includeSharedDrives;
                             ListFiles.supportsAllDrives := Some includeSharedDrives |} ;;
              ret (formatResponse (Some (page_json result))))
  | googledrive_get_file fileId fields =>
      handle (file <- getFile fileId fields ;;
              ret (formatResponse file))
  | googledrive_create_file name mimeType parentId description content =>
      handle (file <- createFile
                        {| CreateFile.name := name;
                           CreateFile.mimeType := mimeType;
                           CreateFile.parents := parents_of parentId;
                           CreateFile.description := description;
                           CreateFile.content := content |} ;;
              ret (success "File created" [("file", file)]))
  | googledrive_update_file fileId name description content addParents removeParents
      starred trashed =>
      handle (file <- updateFile fileId
                        {| UpdateFile.name := name;
                           UpdateFile.description := description;
                           UpdateFile.mimeType := None;
                           UpdateFile.content := content;
                           UpdateFile.addParents := addParents;
                           UpdateFile.removeParents := removeParents;
                           UpdateFile.starred := starred;
                           UpdateFile.trashed := trashed |} ;;
              ret (success "File updated" [("file", file)]))
  | googledrive_copy_file fileId name parentId description =>
      handle (file <- copyFile fileId
                        [("name", str name);
                         ("parents", strings (parents_of parentId));
                         ("description", str description)] ;;
              ret (success "File copied" [("file", file)]))
  | googledrive_delete_file fileId =>
      handle (deleteFile fileId ;;;
              ret (success ("File " ++ fileId ++ " deleted") []))
  | googledrive_empty_trash =>
      handle (emptyTrash ;;; ret (success "Trash emptied" []))
  | googledrive_export_file fileId mimeType =>
      handle (content <- exportFile fileId mimeType ;;
              ret (plain_text content))
  | googledrive_download_file fileId =>
      handle (content <- downloadFile fileId ;;
              ret (plain_text content))
  | googledrive_generate_ids count space =>
      handle (ids <- generateIds (Some count) (Some space) ;;
              ret (json_text (Some (js_obj [("ids", ids)]))))
  | googledrive_search_files query pageSize pageToken =>
      handle (result <- listFiles
                          {| ListFiles.q := Some query;
                             ListFiles.pageSize := Some pageSize;
                             ListFiles.pageToken := pageToken;
                             ListFiles.fields := None;
                             ListFiles.orderBy := None;
                             ListFiles.spaces := None;
                             ListFiles.corpora := None;
                             ListFiles.driveId := None;
                             ListFiles.includeItemsFromAllDrives := Some true;
                             ListFiles.supportsAllDrives := Some true |} ;;
              ret (formatResponse (Some (page_json result))))

  | googledrive_create_folder name parentId =>
      handle (folder <- createFolder name (parents_of parentId) ;;
              ret (success "Folder created" [("folder", folder)]))
  | googledrive_list_folder folderId pageSize pageToken orderBy =>
      handle (result <- listFolderContents folderId
                          {| ListFolderContents.pageSize := Some pageSize;
                             ListFolderContents.pageToken := pageToken;
                             ListFolderContents.orderBy := orderBy |} ;;
              ret (formatResponse (Some (page_json result))))
  | googledrive_move_file fileId newParentId removeFromCurrentParent =>
      handle (currentFile <- getFile fileId None ;;
              parents <- lift (get currentFile "parents") ;;
              currentParents <- lift (join_opt parents) ;;
              file <- updateFile fileId
                        {| UpdateFile.name := None;
                           UpdateFile.description := None;
                           UpdateFile.mimeType := None;
                           UpdateFile.content := None;
                           UpdateFile.addParents := Some newParentId;
                           UpdateFile.removeParents :=
                             if removeFromCurrentParent then currentParents else None;
                           UpdateFile.starred := None;
                           UpdateFile.trashed := None |} ;;
              ret (success "File moved" [("file", file)]))

  | googledrive_list_permissions fileId pageSize pageToken =>
      handle (result <- listPermissions fileId
                          {| ListPermissions.pageSize := Some pageSize;
                             ListPermissions.pageToken := pageToken;
                             ListPermissions.supportsAllDrives := None |} ;;
              ret (formatResponse (Some (page_json result))))
  | googledrive_get_permission fileId permissionId =>
      handle (permission <- getPermission fileId permissionId ;;
              ret (formatResponse permission))
  | googledrive_share_with_user fileId email role sendNotification emailMessage
      transferOwnership =>
      handle (permission <- createPermission fileId
                              {| CreatePermission.role := role;
                                 CreatePermission.type := "user";
                                 CreatePermission.emailAddress := Some email;
                                 CreatePermission.domain := None;
                                 CreatePermission.allowFileDiscovery := None;
                                 CreatePermission.sendNotificationEmail :=
                                   Some sendNotification;
                                 CreatePermission.emailMessage := emailMessage;
                                 CreatePermission.transferOwnership := transferOwnership;
                                 CreatePermission.moveToNewOwnersRoot := None |} ;;
              ret (success ("Shared with " ++ email) [("permission", permission)]))
  | googledrive_share_with_group fileId email role sendNotification =>
      handle (permission <- createPermission fileId
                              {| CreatePermission.role := role;
                                 CreatePermission.type := "group";
                                 CreatePermission.emailAddress := Some email;
                                 CreatePermission.domain := None;
                                 CreatePermission.allowFileDiscovery := None;
                                 CreatePermission.sendNotificationEmail :=
                                   Some sendNotification;
                                 CreatePermission.emailMessage := None;
                                 CreatePermission.transferOwnership := None;
                                 CreatePermission.moveToNewOwnersRoot := None |} ;;
              ret (success ("Shared with group " ++ email)
                     [("permission", permission)]))
  | googledrive_share_with_domain fileId domain role allowFileDiscovery =>
      handle (permission <- createPermission fileId
                              {| CreatePermission.role := role;
                                 CreatePermission.type := "domain";
                                 CreatePermission.emailAddress := None;
                                 CreatePermission.domain := Some domain;
                                 CreatePermission.allowFileDiscovery :=
                                   Some allowFileDiscovery;
                                 CreatePermission.sendNotificationEmail := None;
                                 CreatePermission.emailMessage := None;
                                 CreatePermission.transferOwnership := None;
                                 CreatePermission.moveToNewOwnersRoot := None |} ;;
              ret (success ("Shared with domain " ++ domain)
                     [("permission", permission)]))
  | googledrive_make_public fileId role allowFileDiscovery =>
      handle (permission <- createPermission fileId
                              {| CreatePermission.role := role;
                                 CreatePermission.type := "anyone";
                                 CreatePermission.emailAddress := None;
                                 CreatePermission.domain := None;
                                 CreatePermission.allowFileDiscovery :=
                                   Some allowFileDiscovery;
                                 CreatePermission.sendNotificationEmail := None;
                                 CreatePermission.emailMessage := None;
                                 CreatePermission.transferOwnership := None;
                                 CreatePermission.moveToNewOwnersRoot := None |} ;;
              ret (success "File is now publicly accessible"
                     [("permission", permission)]))
  | googledrive_update_permission fileId permissionId role expirationTime =>
      handle (permission <- updatePermission fileId permissionId
                              [("role", Some (JStr role));
                               ("expirationTime", str expirationTime)] ;;
              ret (success "Permission updated" [("permission", permission)]))
  | googledrive_remove_permission fileId permissionId =>
      handle (deletePermission fileId permissionId ;;;
              ret (success "Permission removed" []))

  | googledrive_list_comments fileId pageSize pageToken includeDeleted
      startModifiedTime =>
      handle (result <- listComments fileId
                          {| ListComments.pageSize := Some pageSize;
                             ListComments.pageToken := pageToken;
                             ListComments.includeDeleted := Some includeDeleted;
                             ListComments.startModifiedTime := startModifiedTime |} ;;
              ret (formatResponse (Some (page_json result))))
  | googledrive_get_comment fileId commentId includeDeleted =>
      handle (comment <- getComment fileId commentId (Some includeDeleted) ;;
              ret (formatResponse comment))
  | googledrive_create_comment fileId content anchor =>
      handle (comment <- createComment fileId
                           [("content", Some (JStr content)); ("anchor", str anchor)] ;;
              ret (success "Comment created" [("comment", comment)]))
  | googledrive_update_comment fileId commentId content =>
      handle (comment <- updateComment fileId commentId content ;;
              ret (success "Comment updated" [("comment", comment)]))
  | googledrive_delete_comment fileId commentId =>
      handle (deleteComment fileId commentId ;;;
              ret (success "Comment deleted" []))
  | googledrive_list_replies fileId commentId pageSize pageToken includeDeleted =>
      handle (result <- listReplies fileId commentId
                          {| ListReplies.pageSize := Some pageSize;
                             ListReplies.pageToken := pageToken;
                             ListReplies.includeDeleted := Some includeDeleted |} ;;
              ret (formatResponse (Some (page_json result))))
  | googledrive_get_reply fileId commentId replyId includeDeleted =>
      handle (reply <- getReply fileId commentId replyId (Some includeDeleted) ;;
              ret (formatResponse reply))
  | googledrive_create_reply fileId commentId content action =>
      handle (reply <- createReply fileId commentId
                         [("content", Some (JStr content)); ("action", str action)] ;;
              ret (success "Reply created" [("reply", reply)]))
  | googledrive_update_reply fileId commentId replyId content =>
      handle (reply <- updateReply fileId commentId replyId content ;;
              ret (success "Reply updated" [("reply", reply)]))
  | googledrive_delete_reply fileId commentId replyId =>
      handle (deleteReply fileId commentId replyId ;;;
              ret (success "Reply deleted" []))
  | googledrive_resolve_comment fileId commentId content =>
      handle (reply <- createReply fileId commentId
                         [("content", Some (JStr content));
                          ("action", Some (JStr "resolve"))] ;;
              ret (success "Comment resolved" [("reply", reply)]))
  | googledrive_reopen_comment fileId commentId content =>
      handle (reply <- createReply fileId commentId
                         [("content", Some (JStr content));
                          ("action", Some (JStr "reopen"))] ;;
              ret (success "Comment reopened" [("reply", reply)]))

  | googledrive_list_drives pageSize pageToken query =>
      handle (result <- listDrives
                          {| ListDrives.pageSize := Some pageSize;
                             ListDrives.pageToken := pageToken;
                             ListDrives.q := query;
                             ListDrives.useDomainAdminAccess := None |} ;;
              ret (formatResponse (Some (page_json result))))
  | googledrive_get_drive driveId =>
      handle (drive <- getDrive driveId None ;;
              ret (formatResponse drive))
  | googledrive_create_drive name requestId themeId =>
      handle (drive <- createDrive requestId
                         [("name", Some (JStr name)); ("themeId", str themeId)] ;;
              ret (success "Shared drive created" [("drive", drive)]))
  | googledrive_update_drive driveId name colorRgb themeId =>
      handle (drive <- updateDrive driveId
                         [("name", str name); ("colorRgb", str colorRgb);
                          ("themeId", str themeId)] ;;
              ret (success "Shared drive updated" [("drive", drive)]))
  | googledrive_delete_drive driveId =>
      handle (deleteDrive driveId ;;;
              ret (success "Shared drive deleted" []))
  | googledrive_hide_drive driveId =>
      handle (drive <- hideDrive driveId ;;
              ret (success "Shared drive hidden" [("drive", drive)]))
  | googledrive_unhide_drive driveId =>
      handle (drive <- unhideDrive driveId ;;
              ret (success "Shared drive unhidden" [("drive", drive)]))
  | googledrive_update_drive_restrictions driveId adminManagedRestrictions
      copyRequiresWriterPermission domainUsersOnly driveMembersOnly
      sharingFoldersRequiresOrganizerPermission =>
      handle (drive <- updateDrive driveId
                         [("restrictions",
                           Some (js_obj
                             [("adminManagedRestrictions",
                               boolean adminManagedRestrictions);
                              ("copyRequiresWriterPermission",
                               boolean copyRequiresWriterPermission);
                              ("domainUsersOnly", boolean domainUsersOnly);
                              ("driveMembersOnly", boolean driveMembersOnly);
                              ("sharingFoldersRequiresOrganizerPermission",
                               boolean sharingFoldersRequiresOrganizerPermission)]))] ;;
              ret (success "Drive restrictions updated" [("drive", drive)]))

  | googledrive_get_changes_start_token driveId =>
      handle (token <- getStartPageToken
                         {| GetStartPageToken.driveId := driveId;
                            GetStartPageToken.supportsAllDrives := Some true |} ;;
              ret (json_text
                     (Some (js_obj
                        [("startPageToken", token);
                         ("message",
                          Some (JStr "Use this token with googledrive_list_changes to track future changes"))]))))
  | googledrive_list_changes pageToken pageSize driveId includeRemoved
      restrictToMyDrive =>
      handle (result <- listChanges pageToken
                          {| ListChanges.driveId := driveId;
                             ListChanges.pageSize := Some pageSize;
                             ListChanges.spaces := None;
                             ListChanges.includeItemsFromAllDrives := Some true;
                             ListChanges.supportsAllDrives := Some true;
                             ListChanges.includeRemoved := Some includeRemoved;
                             ListChanges.restrictToMyDrive := Some restrictToMyDrive |} ;;
              changes <- lift (get result "changes") ;;
              newStartPageToken <- lift (get result "newStartPageToken") ;;
              next <- lift (get result "nextPageToken") ;;
              ret (json_text
                     (Some (js_obj
                        [("changes", changes);
                         ("newStartPageToken", newStartPageToken);
                         ("nextPageToken", next);
                         ("hasMore", Some (JBool (truthy next)));
                         ("message",
                          Some (JStr
                            (if truthy newStartPageToken
                             then "No more changes. Save newStartPageToken for future polling."
                             else "More changes available. Use nextPageToken to continue.")))]))))
  | googledrive_watch_changes pageToken channelId webhookUrl token expirationTime
      driveId =>
      handle (channel <- watchChanges pageToken
                           (channel_literal channelId webhookUrl token expirationTime)
                           {| WatchChanges.driveId := driveId;
                              WatchChanges.includeItemsFromAllDrives := Some true;
                              WatchChanges.supportsAllDrives := Some true |} ;;
              ret (success "Watch channel created" [("channel", channel)]))
  | googledrive_watch_file fileId channelId webhookUrl token expirationTime =>
      handle (channel <- watchFile fileId
                           (channel_literal channelId webhookUrl token expirationTime) ;;
              ret (success "File watch channel created" [("channel", channel)]))
  | googledrive_stop_channel channelId resourceId =>
      handle (stopChannel channelId resourceId ;;;
              ret (success "Watch channel stopped" []))

  | googledrive_list_access_proposals fileId pageSize pageToken =>
      handle (result <- listAccessProposals fileId
                          {| ListAccessProposals.pageSize := Some pageSize;
                             ListAccessProposals.pageToken := pageToken |} ;;
              ret (formatResponse (Some (page_json result))))
  | googledrive_get_access_proposal fileId proposalId =>
      handle (proposal <- getAccessProposal fileId proposalId ;;
              ret (formatResponse proposal))
  | googledrive_accept_access_proposal fileId proposalId role sendNotification =>
      handle (resolveAccessProposal fileId proposalId "accept" role None
                (Some sendNotification) ;;;
              ret (success "Access proposal accepted" []))
  | googledrive_deny_access_proposal fileId proposalId sendNotification =>
      handle (resolveAccessProposal fileId proposalId "deny" None None
                (Some sendNotification) ;;;
              ret (success "Access proposal denied" []))

  | googledrive_list_apps appFilterExtensions appFilterMimeTypes languageCode =>
      handle (apps <- listApps
                        {| ListApps.appFilterExtensions := appFilterExtensions;
                           ListApps.appFilterMimeTypes := appFilterMimeTypes;
                           ListApps.languageCode := languageCode |} ;;
              ret (formatResponse
                     (Some (js_obj [("items", Some apps);
                                    ("hasMore", Some (JBool false))]))))
  | googledrive_get_app appId =>
      handle (app <- getApp appId ;;
              ret (formatResponse app))

  | googledrive_list_revisions fileId pageSize pageToken =>
      handle (result <- listRevisions fileId
                          {| ListRevisions.pageSize := Some pageSize;
                             ListRevisions.pageToken := pageToken |} ;;
              ret (formatResponse (Some (page_json result))))
  | googledrive_get_revision fileId revisionId =>
      handle (revision <- getRevision fileId revisionId ;;
              ret (formatResponse revision))
  | googledrive_update_revision fileId revisionId keepForever published publishAuto
      publishedOutsideDomain =>
      handle (revision <- updateRevision fileId revisionId
                            [("keepForever", boolean keepForever);
                             ("published", boolean published);
                             ("publishAuto", boolean publishAuto);
                             ("publishedOutsideDomain", boolean publishedOutsideDomain)] ;;
              ret (success "Revision updated" [("revision", revision)]))
  | googledrive_delete_revision fileId revisionId =>
      handle (deleteRevision fileId revisionId ;;;
              ret (success "Revision deleted" []))
  | googledrive_keep_revision fileId revisionId =>
      handle (revision <- updateRevision fileId revisionId
                            [("keepForever", Some (JBool true))] ;;
              ret (success "Revision marked to keep forever" [("revision", revision)]))
  end.

End Server.

(* ------------------------------------------------------------------------- *)
(** ** Reading a multipart body back

    The receiving side of [multipart/related] (RFC 2046, section 5.1.1): the
    parts are what lies between delimiter lines [CRLF -- boundary]; after a
    delimiter, [--] closes the body and [CRLF] opens the next part; inside a
    part the first empty line ends its headers. *)

Module Multipart.

(** The first occurrence of [d] in [s]: what is before it and what is after. *)
Fixpoint cut (d s : string) : option (string * string) :=
  if startsWith d s then Some (EmptyString, drop (String.length d) s)
  else match s with
       | EmptyString => None
       | String c r =>
           match cut d r with
           | Some (a, b) => Some (String c a, b)
           | None => None
           end
       end.

Definition dash_boundary (b : string) : string := CRLF ++ "--" ++ b.

(** A part: its header lines and its content. *)
Definition part : Type := (string * string)%type.

Definition entity (e : string) : option part :=
  if startsWith CRLF e then Some (EmptyString, drop 2 e)
  else cut (CRLF ++ CRLF) e.

(** [s] is what follows a delimiter. *)
Fixpoint parts (fuel : nat) (b : string) (s : string) : option (list part) :=
  match fuel with
  | O => None
  | S n =>
      if startsWith "--" s then Some []
      else if startsWith CRLF s then
        match cut (dash_boundary b) (drop 2 s) with
        | Some (e, rest) =>
            match entity e, parts n b rest with
            | Some p, Some ps => Some (p :: ps)
            | _, _ => None
            end
        | None => None
        end
      else None
  end.

Definition read (b : string) (body : string) : option (list part) :=
  match cut (dash_boundary b) body with
  | Some (_, rest) => parts (String.length body) b rest
  | None => None
  end.

End Multipart.


(* ------------------------------------------------------------------------- *)
(** ** Reading a query string back

    The receiving side of [application/x-www-form-urlencoded]: the fields
    are what lies between [&]; in a field the first [=] ends the name; in a
    name and in a value [+] is a space and [%XX] is the byte with that
    hexadecimal code. *)

Module QueryString.

Definition unhex (c : ascii) : option nat :=
  let n := code c in
  if is_digit c then Some (n - 48)%nat
  else if ((65 <=? n)%nat && (n <=? 70)%nat) then Some (n - 55)%nat
  else if ((97 <=? n)%nat && (n <=? 102)%nat) then Some (n - 87)%nat
  else None.

Fixpoint form_decode (s : string) : option string :=
  match s with
  | EmptyString => Some EmptyString
  | String c r =>
      if Ascii.eqb c "+" then option_map (String " ") (form_decode r)
      else if Ascii.eqb c "%" then
        match r with
        | String a (String b r') =>
            match unhex a, unhex b with
            | Some x, Some y =>
                option_map (String (ascii_of_nat (16 * x + y))) (form_decode r')
            | _, _ => None
            end
        | _ => None
        end
      else option_map (String c) (form_decode r)
  end.

(** What is before the first [sep], and what is after it when there is
    one. *)
Fixpoint upto (sep : ascii) (s : string) : string * option string :=
  match s with
  | EmptyString => (EmptyString, None)
  | String c r =>
      if Ascii.eqb c sep then (EmptyString, Some r)
      else let '(a, b) := upto sep r in (String c a, b)
  end.

Fixpoint pairs (fuel : nat) (s : string) : option (list (string * string)) :=
  match fuel with
  | O => None
  | S n =>
      let '(field, more) := upto "&" s in
      let rest :=
        match more with
        | Some r => pairs n r
        | None => Some []
        end in
      match field with
      | EmptyString => rest
      | _ =>
          let '(k, v) := upto "=" field in
          match form_decode k,
                form_decode (match v with Some x => x | None => EmptyString end),
                rest with
          | Some name, Some value, Some others => Some ((name, value) :: others)
          | _, _, _ => None
          end
      end
  end.

Definition parse (s : string) : option (list (string * string)) :=
  pairs (S (String.length s)) s.

End QueryString.

(* ------------------------------------------------------------------------- *)
(** ** Reading a search query

    The search language of the remote service, as far as the client writes
    it: a text in single quotes is a literal, in which a backslash takes the
    next character as it is; letters, digits and [_] make words; white space
    separates; any other character stands alone.  The two kinds of terms
    the client writes are ['<id>' in parents] and [trashed = <flag>]; terms
    are negated by [not], grouped by parentheses and joined by [and] and by
    [or], read the usual way: [not] before [and], [and] before [or]. *)

Module Query.

Inductive token : Type :=
| Literal (text : string)
| Word (text : string)
| Symbol (c : ascii).

Inductive state : Type :=
| Between
| InWord (w : string)
| InLiteral (l : string)
| Escaped (l : string).

Definition is_word (c : ascii) : bool := is_alnum c || one_of "_" c.

Definition pending (st : state) : list token :=
  match st with
  | InWord w => [Word w]
  | _ => []
  end.

Definition word_so_far (st : state) : string :=
  match st with
  | InWord w => w
  | _ => EmptyString
  end.

Fixpoint scan (st : state) (s : string) : option (list token) :=
  match s with
  | EmptyString =>
      match st with
      | Between => Some []
      | InWord w => Some [Word w]
      | InLiteral _ => None
      | Escaped _ => None
      end
  | String c r =>
      match st with
      | InLiteral l =>
          if Ascii.eqb c "'" then option_map (cons (Literal l)) (scan Between r)
          else if Ascii.eqb c BACKSLASH then scan (Escaped l) r
          else scan (InLiteral (l ++ String c EmptyString)) r
      | Escaped l => scan (InLiteral (l ++ String c EmptyString)) r
      | _ =>
          if Ascii.eqb c "'"
          then option_map (app (pending st)) (scan (InLiteral EmptyString) r)
          else if is_ws c
          then option_map (app (pending st)) (scan Between r)
          else if is_word c
          then scan (InWord (word_so_far st ++ String c EmptyString)) r
          else option_map (fun ts => (pending st ++ Symbol c :: ts)%list)
                 (scan Between r)
      end
  end.

Definition tokens (q : string) : option (list token) := scan Between q.

Inductive term : Type :=
| HasParent (folder : string)
| Trashed (flag : bool).

Definition flag_of (w : string) : option bool :=
  if String.eqb w "true" then Some true
  else if String.eqb w "false" then Some false
  else None.

(** The term at the head of a list of tokens, and what follows it. *)
Definition term_of (ts : list token) : option (term * list token) :=
  match ts with
  | Literal folder :: Word a :: Word b :: rest =>
      if String.eqb a "in" && String.eqb b "parents"
      then Some (HasParent folder, rest) else None
  | Word a :: Symbol c :: Word b :: rest =>
      if String.eqb a "trashed" && Ascii.eqb c "="
      then match flag_of b with
           | Some flag => Some (Trashed flag, rest)
           | None => None
           end
      else None
  | _ => None
  end.

Inductive expr : Type :=
| Term (t : term)
| Not (e : expr)
| And (e1 e2 : expr)
| Or (e1 e2 : expr).

Definition as_atom (ts : list token) : option (expr * list token) :=
  match term_of ts with
  | Some (t, rest) => Some (Term t, rest)
  | None => None
  end.

(** [atom] reads a term, a negation or a group; [conjunction] atoms joined
    by [and]; [disjunction] conjunctions joined by [or]. *)
Fixpoint atom (fuel : nat) (ts : list token) : option (expr * list token) :=
  match fuel with
  | O => None
  | S n =>
      match ts with
      | Symbol c :: rest =>
          if Ascii.eqb c "("
          then match disjunction n rest with
               | Some (e, Symbol d :: after) =>
                   if Ascii.eqb d ")" then Some (e, after) else None
               | _ => None
               end
          else None
      | Word w :: rest =>
          if String.eqb w "not"
          then match atom n rest with
               | Some (e, after) => Some (Not e, after)
               | None => None
               end
          else as_atom ts
      | _ => as_atom ts
      end
  end
with conjunction (fuel : nat) (ts : list token) : option (expr * list token) :=
  match fuel with
  | O => None
  | S n =>
      match atom n ts with
      | Some (e, Word w :: rest) =>
          if String.eqb w "and"
          then match conjunction n rest with
               | Some (e', after) => Some (And e e', after)
               | None => None
               end
          else Some (e, Word w :: rest)
      | other => other
      end
  end
with disjunction (fuel : nat) (ts : list token) : option (expr * list token) :=
  match fuel with
  | O => None
  | S n =>
      match conjunction n ts with
      | Some (e, Word w :: rest) =>
          if String.eqb w "or"
          then match disjunction n rest with
               | Some (e', after) => Some (Or e e', after)
               | None => None
               end
          else Some (e, Word w :: rest)
      | other => other
      end
  end.

(** The expression a query is, when all of it reads as one. *)
Definition read (q : string) : option expr :=
  match tokens q with
  | Some ts =>
      match disjunction (3 * List.length ts + 3) ts with
      | Some (e, []) => Some e
      | _ => None
      end
  | None => None
  end.

(** A file, as far as the two kinds of terms look at it. *)
Record file : Type := {
  file_parents : list string;
  file_trashed : bool
}.

Definition holds (f : file) (t : term) : bool :=
  match t with
  | HasParent folder => existsb (String.eqb folder) (file_parents f)
  | Trashed flag => Bool.eqb (file_trashed f) flag
  end.

(** Whether a file matches an expression. *)
Fixpoint matches (f : file) (e : expr) : bool :=
  match e with
  | Term t => holds f t
  | Not e' => negb (matches f e')
  | And e1 e2 => matches f e1 && matches f e2
  | Or e1 e2 => matches f e1 || matches f e2
  end.

End Query.

(* ------------------------------------------------------------------------- *)
(** ** Vocabulary of the statements *)

(** The headers of a client that holds a token. *)
Definition bearer (token : string) : list (string * string) :=
  [("Authorization", "Bearer " ++ token); ("Content-Type", "application/json")].

(** The one call [request] makes for a client that holds a token. *)
Definition outbound (credentials : TenantCredentials) (endpoint : string)
  (options : RequestInit) (useUploadUrl : bool) : HttpRequest :=
  fetch_arguments credentials (bearer (the (accessToken credentials)))
    endpoint options useUploadUrl.

Definition no_token (credentials : TenantCredentials) : Prop :=
  accessToken credentials = None \/ accessToken credentials = Some EmptyString.

Definition has_token (credentials : TenantCredentials) : Prop :=
  truthy_str (accessToken credentials) = true.

(** The message of the generic error, in the words of the specification:
    the body's [error.message], else its [message], else the text with the
    status; a field counts when it is there and truthy. *)
Definition default_message (st : Z) : json :=
  JStr ("API error: " ++ String_of_number st).

Definition truthy_field (k : string) (j : json) : option json :=
  match j with
  | JObj props =>
      match lookup k props with
      | Some m => if truthy_json m then Some m else None
      | None => None
      end
  | _ => None
  end.

Definition best_effort_message (parsed : option json) (st : Z) : json :=
  match parsed with
  | None => default_message st
  | Some j =>
      match (match prop j "error" with
             | Some e => truthy_field "message" e
             | None => None
             end) with
      | Some m => m
      | None =>
          match truthy_field "message" j with
          | Some m => m
          | None => default_message st
          end
      end
  end.

(** A response whose content type marks it as JSON, as the pipeline tests
    it: the header contains [application/json]. *)
Definition json_content (r : Response) : bool :=
  is_json_content (Headers.get "content-type" (response_headers r)).

(** What the pipeline makes of a response, once it has one. *)
Definition interpret (JSON_parse : string -> option json) (endpoint : string)
  (r : Response) : result value :=
  if status r =? 429 then
    Throw (RateLimitError "Rate limit exceeded"
             (if truthy_str (Headers.get "Retry-After" (response_headers r))
              then parseInt (the (Headers.get "Retry-After" (response_headers r)))
              else Finite 60))
  else if status r =? 401 then
    Throw (AuthenticationError
             "Authentication failed. Check your OAuth access token.")
  else if status r =? 403 then
    Throw (ForbiddenError (forbidden_message JSON_parse (response_body r)))
  else if status r =? 404 then Throw (NotFoundError "Resource" endpoint)
  else if negb (ok r) then
    Throw (GoogleDriveApiError
             (api_error_message JSON_parse (response_body r) (status r))
             (status r))
  else if status r =? 204 then Ok undefined
  else if json_content r then
    match JSON_parse (response_body r) with
    | Some j => Ok (Some j)
    | None => Throw SyntaxError
    end
  else Ok (Some (JStr (response_body r))).

(** The payload the pipeline extracts from a successful response that is
    not a 204. *)
Definition payload (JSON_parse : string -> option json) (r : Response) : value :=
  if json_content r then JSON_parse (response_body r)
  else Some (JStr (response_body r)).

(** Documents without numbers, and with no property name twice in an
    object: the ones whose text reads back as themselves. *)
Fixpoint number_free (j : json) : bool :=
  match j with
  | JNum _ => false
  | JArr l => forallb number_free l
  | JObj l => forallb (fun '(_, x) => number_free x) l
  | _ => true
  end.

Fixpoint fresh (k : string) (l : list (string * json)) : bool :=
  match l with
  | [] => true
  | (k', _) :: r => negb (String.eqb k k') && fresh k r
  end.

Fixpoint distinct (l : list (string * json)) : bool :=
  match l with
  | [] => true
  | (k, _) :: r => fresh k r && distinct r
  end.

Fixpoint distinct_keys (j : json) : bool :=
  match j with
  | JArr l => forallb distinct_keys l
  | JObj l => distinct l && forallb (fun '(_, x) => distinct_keys x) l
  | _ => true
  end.

Definition plain (j : json) : bool := number_free j && distinct_keys j.

(** A text in which the character does not occur. *)
Fixpoint without (c : ascii) (s : string) : bool :=
  match s with
  | EmptyString => true
  | String x r => negb (Ascii.eqb x c) && without c r
  end.

(** The delimiter line of the upload framing, the header lines of its two
    parts, and the contents that can be framed: those in which no line starts
    with the boundary marker (the content begins right after a line break,
    so its first line counts). *)
Definition delimiter_line : string := Multipart.dash_boundary boundary.

Definition json_part_header : string :=
  "Content-Type: application/json; charset=UTF-8".

Definition content_part_header (mimeType : option string) : string :=
  "Content-Type: " ++ or_str mimeType "text/plain".

Definition boundary_free (content : string) : bool :=
  negb (includes delimiter_line (CRLF ++ content)).

Definition single_line (o : option string) : bool :=
  match o with
  | Some m => without CR m
  | None => true
  end.

(** The text of one property of an object. *)
Definition member (kv : string * json) : string :=
  let '(k, x) := kv in Stringify.quote k ++ ":" ++ Stringify.stringify x.

(** With this much fuel, the reader gets back every document (without
    numbers, without repeated names) whose text is no longer than the fuel. *)
Definition reads_back (fuel : nat) : Prop :=
  forall j rest,
    number_free j = true -> distinct_keys j = true ->
    (String.length (Stringify.stringify j) <= fuel)%nat ->
    Parse.value_ fuel (Stringify.stringify j ++ rest) = Some (j, rest).

(** How the reader sees a character that [JSON.stringify] wrote: as a code
    unit when it was written [\\u00XX], as itself otherwise. *)
Definition piece_of (c : ascii) : Parse.piece :=
  let n := code c in
  if (n <? 32)%nat
     && negb ((n =? 8)%nat || (n =? 9)%nat || (n =? 10)%nat
              || (n =? 12)%nat || (n =? 13)%nat)
  then Parse.Unit16 (N.of_nat n)
  else Parse.Raw c.

Fixpoint pieces (s : string) : list Parse.piece :=
  match s with
  | EmptyString => []
  | String c r => piece_of c :: pieces r
  end.

(** The page a listing makes of a payload, from the key of its array. *)
Definition page_of (key : string) (v : json) : PaginatedResponse :=
  {| items := or_json (prop v key) (JArr []);
     hasMore := truthy (prop v "nextPageToken");
     nextPageToken := prop v "nextPageToken" |}.



(** Effects of a computation on the list of calls: none at all, or exactly
    one call, which satisfies [P]. *)
Definition silent {A : Type} (m : M A) : Prop :=
  forall log, snd (m log) = log.

Definition single {A : Type} (P : HttpRequest -> Prop) (m : M A) : Prop :=
  forall log, exists c, snd (m log) = (log ++ [c])%list /\ P c.

(** A call made by [request] on the upload base ([up = true]) or on the
    metadata base. *)
Definition via (credentials : TenantCredentials) (up : bool) (c : HttpRequest)
  : Prop :=
  exists endpoint options, c = outbound credentials endpoint options up.

(** The listing operations, to quantify over them. *)
Inductive listing : Type :=
| files_listing (params : ListFiles.params)
| permissions_listing (fileId : string) (params : ListPermissions.params)
| comments_listing (fileId : string) (params : ListComments.params)
| replies_listing (fileId commentId : string) (params : ListReplies.params)
| revisions_listing (fileId : string) (params : ListRevisions.params)
| drives_listing (params : ListDrives.params)
| access_proposals_listing (fileId : string) (params : ListAccessProposals.params).

Definition run_listing (JSON_parse : string -> option json)
  (remote : list HttpRequest -> HttpRequest -> fetched)
  (credentials : TenantCredentials) (l : listing) : M PaginatedResponse :=
  match l with
  | files_listing params => listFiles JSON_parse remote credentials params
  | permissions_listing fileId params =>
      listPermissions JSON_parse remote credentials fileId params
  | comments_listing fileId params =>
      listComments JSON_parse remote credentials fileId params
  | replies_listing fileId commentId params =>
      listReplies JSON_parse remote credentials fileId commentId params
  | revisions_listing fileId params =>
      listRevisions JSON_parse remote credentials fileId params
  | drives_listing params => listDrives JSON_parse remote credentials params
  | access_proposals_listing fileId params =>
      listAccessProposals JSON_parse remote credentials fileId params
  end.

Definition resource_key (l : listing) : string :=
  match l with
  | files_listing _ => "files"
  | permissions_listing _ _ => "permissions"
  | comments_listing _ _ => "comments"
  | replies_listing _ _ _ => "replies"
  | revisions_listing _ _ => "revisions"
  | drives_listing _ => "drives"
  | access_proposals_listing _ _ => "accessProposals"
  end.

(** The tool that reads a file before it updates it. *)
Definition reads_then_writes (t : tool) : bool :=
  match t with
  | googledrive_move_file _ _ _ => true
  | _ => false
  end.

(** Whether the read that [googledrive_move_file] starts with returns a
    file whose parents can be joined: an array, or none at all. *)
Definition read_gives_parents (JSON_parse : string -> option json)
  (remote : list HttpRequest -> HttpRequest -> fetched)
  (credentials : TenantCredentials) (fileId : string) (log : list HttpRequest)
  : bool :=
  match getFile JSON_parse remote credentials fileId None log with
  | (Ok currentFile, _) =>
      match get currentFile "parents" with
      | Ok parents =>
          match join_opt parents with
          | Ok _ => true
          | Throw _ => false
          end
      | Throw _ => false
      end
  | (Throw _, _) => false
  end.

(** The operations that carry inline content. *)
Definition carries_content {A : Type} (op : operation A) : bool :=
  match op with
  | createFile_ params => truthy_str (CreateFile.content params)
  | updateFile_ _ params => truthy_str (UpdateFile.content params)
  | _ => false
  end.

(** How an operation surfaces an error thrown by the pipeline:
    [testConnection] catches it and reports its message, every other
    operation lets it through. *)
Definition surfaces {A : Type} (message_of : error -> string)
  (op : operation A) (e : error) : result A :=
  match op in operation T return result T with
  | testConnection_ =>
      Ok {| connected := false; connection_message := message_of e |}
  | _ => Throw e
  end.

(** The tool invocations that carry inline content. *)
Definition uploads (t : tool) : bool :=
  match t with
  | googledrive_create_file _ _ _ _ content => truthy_str content
  | googledrive_update_file _ _ _ content _ _ _ _ => truthy_str content
  | _ => false
  end.

(** Sample tenants and networks, for running the model. *)
Definition tenant : TenantCredentials :=
  {| accessToken := Some "ya29.sample-token"; baseUrl := None |}.

Definition tenant_without_token : TenantCredentials :=
  {| accessToken := Some EmptyString; baseUrl := None |}.

Definition tenant_with_override : TenantCredentials :=
  {| accessToken := Some "ya29.sample-token";
     baseUrl := Some "https://drive.example.test/v3" |}.

Definition answering (r : Response) : list HttpRequest -> HttpRequest -> fetched :=
  fun _ _ => Responded r.

Definition json_response (st : Z) (text : string) : Response :=
  {| status := st;
     response_headers := [("Content-Type", "application/json; charset=UTF-8")];
     response_body := text |}.

Definition text_response (st : Z) (text : string) : Response :=
  {| status := st;
     response_headers := [("Content-Type", "text/plain")];
     response_body := text |}.

Definition throttled (headers : Headers.t) : Response :=
  {| status := 429; response_headers := headers; response_body := EmptyString |}.

Definition sample_page_text : string :=
  JSON_stringify (JObj [("files", JArr [JObj [("id", JStr "f1")]]);
                        ("nextPageToken", JStr "page-2")]).

Definition empty_token_page_text : string :=
  JSON_stringify (JObj [("files", JArr []); ("nextPageToken", JStr EmptyString)]).

Definition sample_file_text : string :=
  JSON_stringify (JObj [("id", JStr "f1"); ("parents", JArr [JStr "p1"])]).

Definition sample_error_text : string :=
  JSON_stringify (JObj [("error", JObj [("code", JNum 500);
                                        ("message", JStr "Backend Error")])]).

Definition sample_upload : CreateFile.params :=
  {| CreateFile.name := "notes.txt";
     CreateFile.mimeType := Some "text/plain";
     CreateFile.parents := Some ["p1"];
     CreateFile.description := None;
     CreateFile.content := Some "first line" |}.

(** An upload whose content has a line that starts with the boundary
    marker. *)
Definition colliding_content : string := "x" ++ closeDelim ++ CRLF ++ "y".

Definition colliding_upload : CreateFile.params :=
  {| CreateFile.name := "notes.txt";
     CreateFile.mimeType := None;
     CreateFile.parents := None;
     CreateFile.description := None;
     CreateFile.content := Some colliding_content |}.

Definition page_network : list HttpRequest -> HttpRequest -> fetched :=
  answering (json_response 200 sample_page_text).
Definition file_network : list HttpRequest -> HttpRequest -> fetched :=
  answering (json_response 200 sample_file_text).

Definition no_message : error -> string := fun _ => EmptyString.
Definition no_rendering : value -> string := fun _ => EmptyString.
Definition no_percentage : value -> value -> string := fun _ _ => EmptyString.

(** The body of the first call on a list of calls. *)
Definition first_body (log : list HttpRequest) : option string :=
  match log with
  | c :: _ => http_body c
  | [] => None
  end.

(* ------------------------------------------------------------------------- *)
(** ** [utils/pagination.ts]

    Page sizes are integers, as everywhere in the client. *)

Module PAGINATION_DEFAULTS.
Definition pageSize : Z := 100.
Definition maxPageSize : Z := 1000.
End PAGINATION_DEFAULTS.

Module PaginationParams.
Record t : Type := {
  pageSize : option Z;
  pageToken : option string
}.
End PaginationParams.

(** [Required<Pick<PaginationParams, 'pageSize'>> & Omit<PaginationParams, 'pageSize'>]. *)
Module NormalizedParams.
Record t : Type := {
  pageSize : Z;
  pageToken : option string
}.
End NormalizedParams.

(** [n || d] on an optional number. *)
Definition or_num (o : option Z) (d : Z) : Z :=
  match o with
  | Some z => if z =? 0 then d else z
  | None => d
  end.

Definition normalizePaginationParams (params : option PaginationParams.t)
  (maxPageSize : option Z) : NormalizedParams.t :=
  let maxPageSize :=
    match maxPageSize with
    | Some m => m
    | None => PAGINATION_DEFAULTS.maxPageSize
    end in
  {| NormalizedParams.pageSize :=
       Z.min (or_num (match params with
                      | Some ps => PaginationParams.pageSize ps
                      | None => None
                      end) PAGINATION_DEFAULTS.pageSize)
             maxPageSize;
     NormalizedParams.pageToken :=
       match params with
       | Some ps => PaginationParams.pageToken ps
       | None => None
       end |}.

Definition emptyPaginatedResponse : PaginatedResponse :=
  {| items := JArr []; hasMore := false; nextPageToken := None |}.

(** [options.hasMore ?? false]. *)
Definition createPaginatedResponse (xs : list json) (hasMore : option bool)
  (nextPageToken : option string) : PaginatedResponse :=
  {| items := JArr xs;
     hasMore := match hasMore with Some b => b | None => false end;
     nextPageToken := str nextPageToken |}.

(* ------------------------------------------------------------------------- *)
(** ** [index.ts]: the names under which the tools are registered, and the
    list of tools the default response of the worker advertises *)

Definition tool_name (t : tool) : string :=
  match t with
  | googledrive_test_connection => "googledrive_test_connection"
  | googledrive_get_about _ => "googledrive_get_about"
  | googledrive_get_storage_quota => "googledrive_get_storage_quota"
  | googledrive_get_user_info => "googledrive_get_user_info"
  | googledrive_get_export_formats => "googledrive_get_export_formats"
  | googledrive_get_import_formats => "googledrive_get_import_formats"
  | googledrive_list_files _ _ _ _ _ _ => "googledrive_list_files"
  | googledrive_get_file _ _ => "googledrive_get_file"
  | googledrive_create_file _ _ _ _ _ => "googledrive_create_file"
  | googledrive_update_file _ _ _ _ _ _ _ _ => "googledrive_update_file"
  | googledrive_copy_file _ _ _ _ => "googledrive_copy_file"
  | googledrive_delete_file _ => "googledrive_delete_file"
  | googledrive_empty_trash => "googledrive_empty_trash"
  | googledrive_export_file _ _ => "googledrive_export_file"
  | googledrive_download_file _ => "googledrive_download_file"
  | googledrive_generate_ids _ _ => "googledrive_generate_ids"
  | googledrive_search_files _ _ _ => "googledrive_search_files"
  | googledrive_create_folder _ _ => "googledrive_create_folder"
  | googledrive_list_folder _ _ _ _ => "googledrive_list_folder"
  | googledrive_move_file _ _ _ => "googledrive_move_file"
  | googledrive_list_permissions _ _ _ => "googledrive_list_permissions"
  | googledrive_get_permission _ _ => "googledrive_get_permission"
  | googledrive_share_with_user _ _ _ _ _ _ => "googledrive_share_with_user"
  | googledrive_share_with_group _ _ _ _ => "googledrive_share_with_group"
  | googledrive_share_with_domain _ _ _ _ => "googledrive_share_with_domain"
  | googledrive_make_public _ _ _ => "googledrive_make_public"
  | googledrive_update_permission _ _ _ _ => "googledrive_update_permission"
  | googledrive_remove_permission _ _ => "googledrive_remove_permission"
  | googledrive_list_comments _ _ _ _ _ => "googledrive_list_comments"
  | googledrive_get_comment _ _ _ => "googledrive_get_comment"
  | googledrive_create_comment _ _ _ => "googledrive_create_comment"
  | googledrive_update_comment _ _ _ => "googledrive_update_comment"
  | googledrive_delete_comment _ _ => "googledrive_delete_comment"
  | googledrive_list_replies _ _ _ _ _ => "googledrive_list_replies"
  | googledrive_get_reply _ _ _ _ => "googledrive_get_reply"
  | googledrive_create_reply _ _ _ _ => "googledrive_create_reply"
  | googledrive_update_reply _ _ _ _ => "googledrive_update_reply"
  | googledrive_delete_reply _ _ _ => "googledrive_delete_reply"
  | googledrive_resolve_comment _ _ _ => "googledrive_resolve_comment"
  | googledrive_reopen_comment _ _ _ => "googledrive_reopen_comment"
  | googledrive_list_drives _ _ _ => "googledrive_list_drives"
  | googledrive_get_drive _ => "googledrive_get_drive"
  | googledrive_create_drive _ _ _ => "googledrive_create_drive"
  | googledrive_update_drive _ _ _ _ => "googledrive_update_drive"
  | googledrive_delete_drive _ => "googledrive_delete_drive"
  | googledrive_hide_drive _ => "googledrive_hide_drive"
  | googledrive_unhide_drive _ => "googledrive_unhide_drive"
  | googledrive_update_drive_restrictions _ _ _ _ _ _ => "googledrive_update_drive_restrictions"
  | googledrive_get_changes_start_token _ => "googledrive_get_changes_start_token"
  | googledrive_list_changes _ _ _ _ _ => "googledrive_list_changes"
  | googledrive_watch_changes _ _ _ _ _ _ => "googledrive_watch_changes"
  | googledrive_watch_file _ _ _ _ _ => "googledrive_watch_file"
  | googledrive_stop_channel _ _ => "googledrive_stop_channel"
  | googledrive_list_access_proposals _ _ _ => "googledrive_list_access_proposals"
  | googledrive_get_access_proposal _ _ => "googledrive_get_access_proposal"
  | googledrive_accept_access_proposal _ _ _ _ => "googledrive_accept_access_proposal"
  | googledrive_deny_access_proposal _ _ _ => "googledrive_deny_access_proposal"
  | googledrive_list_apps _ _ _ => "googledrive_list_apps"
  | googledrive_get_app _ => "googledrive_get_app"
  | googledrive_list_revisions _ _ _ => "googledrive_list_revisions"
  | googledrive_get_revision _ _ => "googledrive_get_revision"
  | googledrive_update_revision _ _ _ _ _ _ => "googledrive_update_revision"
  | googledrive_delete_revision _ _ => "googledrive_delete_revision"
  | googledrive_keep_revision _ _ => "googledrive_keep_revision"
  end.

Definition advertised_tools : list string :=
  ["googledrive_test_connection";
   "googledrive_get_about";
   "googledrive_get_storage_quota";
   "googledrive_get_user_info";
   "googledrive_get_export_formats";
   "googledrive_get_import_formats";
   "googledrive_list_files";
   "googledrive_get_file";
   "googledrive_create_file";
   "googledrive_update_file";
   "googledrive_copy_file";
   "googledrive_delete_file";
   "googledrive_empty_trash";
   "googledrive_export_file";
   "googledrive_download_file";
   "googledrive_generate_ids";
   "googledrive_search_files";
   "googledrive_create_folder";
   "googledrive_list_folder";
   "googledrive_move_file";
   "googledrive_list_permissions";
   "googledrive_get_permission";
   "googledrive_share_with_user";
   "googledrive_share_with_group";
   "googledrive_share_with_domain";
   "googledrive_make_public";
   "googledrive_update_permission";
   "googledrive_remove_permission";
   "googledrive_list_comments";
   "googledrive_get_comment";
   "googledrive_create_comment";
   "googledrive_update_comment";
   "googledrive_delete_comment";
   "googledrive_resolve_comment";
   "googledrive_reopen_comment";
   "googledrive_list_replies";
   "googledrive_get_reply";
   "googledrive_create_reply";
   "googledrive_update_reply";
   "googledrive_delete_reply";
   "googledrive_list_revisions";
   "googledrive_get_revision";
   "googledrive_update_revision";
   "googledrive_delete_revision";
   "googledrive_keep_revision";
   "googledrive_list_drives";
   "googledrive_get_drive";
   "googledrive_create_drive";
   "googledrive_update_drive";
   "googledrive_delete_drive";
   "googledrive_hide_drive";
   "googledrive_unhide_drive";
   "googledrive_update_drive_restrictions";
   "googledrive_get_changes_start_token";
   "googledrive_list_changes";
   "googledrive_watch_changes";
   "googledrive_watch_file";
   "googledrive_stop_channel";
   "googledrive_list_apps";
   "googledrive_get_app";
   "googledrive_list_access_proposals";
   "googledrive_get_access_proposal";
   "googledrive_accept_access_proposal";
   "googledrive_deny_access_proposal"].

(* ------------------------------------------------------------------------- *)
(** ** Further vocabulary *)

(** The message of a refusal: the body's [error.message] when the body is
    JSON, has an [error] and that has a truthy [message]; the fixed text
    otherwise. *)
Definition denied_message (parsed : option json) : json :=
  match parsed with
  | None => JStr "Access denied"
  | Some j =>
      match prop j "error" with
      | Some e =>
          match truthy_field "message" e with
          | Some m => m
          | None => JStr "Access denied"
          end
      | None => JStr "Access denied"
      end
  end.

(** The two headers of a call. *)
Definition call_headers (token : string) (multipart : bool)
  : list (string * string) :=
  [("Authorization", "Bearer " ++ token);
   ("Content-Type",
    if multipart then multipart_content_type else "application/json")].

(** The base a call is made on. *)
Definition base_of (credentials : TenantCredentials) (up : bool) : string :=
  if up then UPLOAD_BASE_URL else or_str (baseUrl credentials) API_BASE_URL.

(** The read [testConnection] makes. *)
Definition about_user : string := "/about?fields=user".

(** The name [testConnection] greets: [displayName], else [emailAddress],
    else a fixed text; the first that is truthy. *)
Definition greeted (about : json) : json :=
  let user := prop about "user" in
  or_json (get_opt user "displayName")
    (or_json (get_opt user "emailAddress") (JStr "unknown user")).

(** A payload the client can read a property of: anything but [undefined]
    and [null]. *)
Definition readable (v : value) : bool :=
  match v with
  | None => false
  | Some JNull => false
  | Some _ => true
  end.

(** The parents [googledrive_move_file] takes away: those the read returned,
    joined, when it is asked to and there are any. *)
Definition removed_parents (removeFromCurrentParent : bool)
  (parents : option (list string)) : option string :=
  match parents with
  | Some ps =>
      if removeFromCurrentParent && nonempty (join "," ps)
      then Some (join "," ps) else None
  | None => None
  end.

(** The read [googledrive_move_file] starts with. *)
Definition file_read (fileId : string) : string :=
  "/files/" ++ fileId ++ "?"
  ++ URLSearchParams.toString
       [("fields", DEFAULT_FILE_FIELDS); ("supportsAllDrives", "true")].

(** The query of the update [googledrive_move_file] makes. *)
Definition move_query (newParentId : string) (removed : option string)
  : URLSearchParams.t :=
  ([("fields", DEFAULT_FILE_FIELDS); ("supportsAllDrives", "true")]
   ++ (if nonempty newParentId then [("addParents", newParentId)] else [])
   ++ (match removed with
       | Some r => [("removeParents", r)]
       | None => []
       end))%list.

(** The values that convert to a string: everything but an object with a
    property named [toString], and but an array that holds such an object at
    any depth. *)
Fixpoint convertible (j : json) : bool :=
  match j with
  | JArr l => forallb convertible l
  | JObj props =>
      match lookup "toString" props with
      | Some _ => false
      | None => true
      end
  | _ => true
  end.

(** The parents [googledrive_move_file] can join: none at all
    ([undefined] or [null]), or an array whose elements convert. *)
Definition joinable (parents : value) : bool :=
  match parents with
  | None => true
  | Some JNull => true
  | Some (JArr l) => forallb convertible l
  | Some _ => false
  end.

(** Whether the answer to the read lets [googledrive_move_file] go on to
    its update: a success with a payload that is not [null], in which the
    parents can be joined. *)
Definition read_allows_update (JSON_parse : string -> option json)
  (answer : fetched) : bool :=
  match answer with
  | Responded r =>
      ok r && negb (status r =? 204)
      && match payload JSON_parse r with
         | Some file => readable (Some file) && joinable (prop file "parents")
         | None => false
         end
  | NetworkFailure _ => false
  end.

(** The metadata [createFolder] sends. *)
Definition folder_metadata (name : string) (parents : option (list string)) : json :=
  js_obj [("name", Some (JStr name));
          ("mimeType", Some (JStr "application/vnd.google-apps.folder"));
          ("parents", strings parents)].

(** The metadata [updateFile] sends: the fields that are given, an empty
    string included. *)
Definition update_metadata (params : UpdateFile.params) : json :=
  js_obj [("name", str (UpdateFile.name params));
          ("description", str (UpdateFile.description params));
          ("mimeType", str (UpdateFile.mimeType params));
          ("starred", boolean (UpdateFile.starred params));
          ("trashed", boolean (UpdateFile.trashed params))].

(** The value of a run of decimal digits read after [acc]. *)
Fixpoint horner (acc : Z) (d : Decimal.uint) : Z :=
  match d with
  | Decimal.Nil => acc
  | Decimal.D0 l => horner (10 * acc + 0) l
  | Decimal.D1 l => horner (10 * acc + 1) l
  | Decimal.D2 l => horner (10 * acc + 2) l
  | Decimal.D3 l => horner (10 * acc + 3) l
  | Decimal.D4 l => horner (10 * acc + 4) l
  | Decimal.D5 l => horner (10 * acc + 5) l
  | Decimal.D6 l => horner (10 * acc + 6) l
  | Decimal.D7 l => horner (10 * acc + 7) l
  | Decimal.D8 l => horner (10 * acc + 8) l
  | Decimal.D9 l => horner (10 * acc + 9) l
  end.

(** The operations that read a property of the payload they receive. *)
Definition reads_payload {A : Type} (op : operation A) : bool :=
  match op with
  | testConnection_ => true
  | listFiles_ _ => true
  | generateIds_ _ _ => true
  | listFolderContents_ _ _ => true
  | listPermissions_ _ _ => true
  | listComments_ _ _ => true
  | listReplies_ _ _ _ => true
  | listRevisions_ _ _ => true
  | listDrives_ _ => true
  | getStartPageToken_ _ => true
  | listApps_ _ => true
  | listAccessProposals_ _ _ => true
  | _ => false
  end.

(** What a tool returns when the call of its operation ends in an error:
    the error formatted, except for [googledrive_test_connection], whose
    operation has caught it and reported it. *)
Definition at_the_boundary (message_of : error -> string) (t : tool) (e : error)
  : ToolResponse :=
  match t with
  | googledrive_test_connection =>
      json_text (Some (js_obj [("connected", Some (JBool false));
                               ("message", Some (JStr (message_of e)))]))
  | _ => error_response e
  end.


(** A file that is in the trash, in no folder. *)
Definition trashed_file : Query.file :=
  {| Query.file_parents := []; Query.file_trashed := true |}.

(** A service that holds files and answers a listing with those that match
    the query it is sent. *)
Definition file_json (f : string * Query.file) : json :=
  JObj [("id", JStr (fst f)); ("trashed", JBool (Query.file_trashed (snd f)))].

Definition query_of (call : HttpRequest) : option Query.expr :=
  let listing := API_BASE_URL ++ "/files?" in
  if startsWith listing (url call)
  then match QueryString.parse (drop (String.length listing) (url call)) with
       | Some ps =>
           match lookup "q" ps with
           | Some q => Query.read q
           | None => None
           end
       | None => None
       end
  else None.

Definition drive (files : list (string * Query.file))
  : list HttpRequest -> HttpRequest -> fetched :=
  fun _ call =>
    match query_of call with
    | Some e =>
        Responded
          (json_response 200
             (JSON_stringify
                (JObj [("files",
                        JArr (map file_json
                                (filter (fun f => Query.matches (snd f) e) files)))])))
    | None =>
        Responded
          (json_response 400
             (JSON_stringify
                (JObj [("error", JObj [("message", JStr "Invalid Value")])])))
    end.

Definition no_paging : ListFolderContents.params :=
  {| ListFolderContents.pageSize := None;
     ListFolderContents.pageToken := None;
     ListFolderContents.orderBy := None |}.

(** Payloads in which an object has a property named [toString]. *)
Definition odd_parents_text : string :=
  JSON_stringify
    (JObj [("id", JStr "f1");
           ("parents", JArr [JObj [("toString", JNum 1)]])]).

Definition odd_name_text : string :=
  JSON_stringify
    (JObj [("user",
            JObj [("displayName", JObj [("toString", JNum 1)])])]).

(** More sample responses and networks. *)
Definition unreachable : list HttpRequest -> HttpRequest -> fetched :=
  fun _ _ => NetworkFailure "fetch failed".

Definition sample_about_text : string :=
  JSON_stringify (JObj [("user", JObj [("displayName", JStr "Ada");
                                       ("emailAddress", JStr "ada@example.test")])]).

Definition sample_changes_text : string :=
  JSON_stringify (JObj [("changes", JArr []);
                        ("newStartPageToken", JStr "start-9")]).

Definition sample_update : UpdateFile.params :=
  {| UpdateFile.name := Some "notes.txt";
     UpdateFile.description := Some EmptyString;
     UpdateFile.mimeType := None;
     UpdateFile.content := Some "first line";
     UpdateFile.addParents := None;
     UpdateFile.removeParents := None;
     UpdateFile.starred := Some true;
     UpdateFile.trashed := None |}.

(* ------------------------------------------------------------------------- *)
(** ** The pipeline *)

Unset Implicit Arguments.

Section Pipeline.

Variable JSON_parse : string -> option json.
Variable remote : list HttpRequest -> HttpRequest -> fetched.
Variable credentials : TenantCredentials.

Lemma no_token_falsy :
  no_token credentials -> truthy_str (accessToken credentials) = false.
Proof. intros [H | H]; rewrite H; reflexivity. Qed.

Lemma falsy_no_token :
  truthy_str (accessToken credentials) = false -> no_token credentials.
Proof.
  unfold no_token. destruct (accessToken credentials) as [[|c s]|]; simpl; auto.
  discriminate.
Qed.

Lemma auth_headers_of_token :
  has_token credentials ->
  getAuthHeaders credentials = Ok (bearer (the (accessToken credentials))).
Proof. unfold has_token, getAuthHeaders. intros ->. reflexivity. Qed.

(** With a token, [request] is one [fetch] of [outbound] followed by the
    interpretation of what came back. *)
Lemma request_unfold endpoint options up log :
  has_token credentials ->
  request JSON_parse remote credentials endpoint options up log =
  bind (fetch remote (outbound credentials endpoint options up))
    (fun response =>
       if status response =? 429 then
         let retryAfter := Headers.get "Retry-After" (response_headers response) in
         throw (RateLimitError "Rate limit exceeded"
                  (if truthy_str retryAfter then parseInt (the retryAfter)
                   else Finite 60))
       else if status response =? 401 then
         throw (AuthenticationError
                  "Authentication failed. Check your OAuth access token.")
       else if status response =? 403 then
         throw (ForbiddenError
                  (forbidden_message JSON_parse (response_body response)))
       else if status response =? 404 then
         throw (NotFoundError "Resource" endpoint)
       else if negb (ok response) then
         throw (GoogleDriveApiError
                  (api_error_message JSON_parse (response_body response)
                     (status response))
                  (status response))
       else if status response =? 204 then ret undefined
       else if json_content response then
         match JSON_parse (response_body response) with
         | Some j => ret (Some j)
         | None => throw SyntaxError
         end
       else ret (Some (JStr (response_body response))))
    log.
Proof.
  intros Htok. unfold request, outbound.
  rewrite (auth_headers_of_token Htok). reflexivity.
Qed.

Lemma request_responded endpoint options up log r :
  has_token credentials ->
  remote log (outbound credentials endpoint options up) = Responded r ->
  request JSON_parse remote credentials endpoint options up log
  = (interpret JSON_parse endpoint r,
     (log ++ [outbound credentials endpoint options up])%list).
Proof.
  intros Htok Hr.
  rewrite (request_unfold _ _ _ _ Htok). unfold bind, fetch. rewrite Hr.
  unfold interpret, throw, ret.
  repeat match goal with
         | |- context [if ?b then _ else _] => destruct b
         | |- context [match JSON_parse ?x with _ => _ end] => destruct (JSON_parse x)
         end; reflexivity.
Qed.

Lemma ok_range r : ok r = true <-> 200 <= status r <= 299.
Proof. unfold ok. rewrite andb_true_iff, !Z.leb_le. tauto. Qed.

Lemma api_error_message_best_effort text st :
  api_error_message JSON_parse text st = best_effort_message (JSON_parse text) st.
Proof.
  unfold api_error_message, best_effort_message.
  destruct (JSON_parse text) as [j|]; [|reflexivity].
  destruct j as [| b | z | x | l | props]; try reflexivity.
  simpl. destruct (lookup "error" props) as [e|]; simpl.
  - destruct e as [| b | z | x | l | eprops]; simpl;
      try solve [destruct (lookup "message" props) as [m|]; simpl;
                 [destruct (truthy_json m)|]; reflexivity].
    destruct (lookup "message" eprops) as [m|]; simpl.
    + destruct (truthy_json m); [reflexivity|].
      destruct (lookup "message" props) as [m'|]; simpl;
        [destruct (truthy_json m')|]; reflexivity.
    + destruct (lookup "message" props) as [m'|]; simpl;
        [destruct (truthy_json m')|]; reflexivity.
  - destruct (lookup "message" props) as [m|]; simpl;
      [destruct (truthy_json m)|]; reflexivity.
Qed.

Lemma request_without_token endpoint options up log :
  truthy_str (accessToken credentials) = false ->
  request JSON_parse remote credentials endpoint options up log
  = (Throw (AuthenticationError
              "No credentials provided. Include X-Google-Access-Token header."),
     log).
Proof.
  intros H. unfold request, getAuthHeaders. rewrite H. reflexivity.
Qed.

(** A response with status 401 makes [request] throw. *)
Lemma request_401 endpoint options up log r :
  has_token credentials ->
  remote log (outbound credentials endpoint options up) = Responded r ->
  status r = 401 ->
  request JSON_parse remote credentials endpoint options up log
  = (Throw (AuthenticationError
              "Authentication failed. Check your OAuth access token."),
     (log ++ [outbound credentials endpoint options up])%list).
Proof.
  intros Htok Hr Hst. rewrite (request_responded _ _ _ _ _ Htok Hr).
  unfold interpret. rewrite Hst. reflexivity.
Qed.

(** The retry-after value of a throttled call, as the code computes it. *)
Lemma status_429_is_rate_limit endpoint options up log r :
  has_token credentials ->
  remote log (outbound credentials endpoint options up) = Responded r ->
  status r = 429 ->
  fst (request JSON_parse remote credentials endpoint options up log)
  = Throw (RateLimitError "Rate limit exceeded"
             (match Headers.get "Retry-After" (response_headers r) with
              | Some (String c v) => parseInt (String c v)
              | _ => Finite 60
              end)).
Proof.
  intros Htok Hr Hst. rewrite (request_responded _ _ _ _ _ Htok Hr).
  unfold interpret. rewrite Hst. simpl.
  destruct (Headers.get "Retry-After" (response_headers r)) as [[|c v]|];
    reflexivity.
Qed.

(** C7.  A response with a 2xx status: 204 gives [undefined]; otherwise,
    under a JSON content type, the body parsed (a body that does not parse
    surfaces as the parser's SyntaxError), and under any other content type
    the body as text. *)
Theorem success_is_shaped_by_status_and_content_type endpoint options up log r :
  has_token credentials ->
  remote log (outbound credentials endpoint options up) = Responded r ->
  ok r = true ->
  (status r = 204 ->
     fst (request JSON_parse remote credentials endpoint options up log) = Ok undefined)
  /\ (status r <> 204 -> json_content r = true ->
        fst (request JSON_parse remote credentials endpoint options up log)
        = match JSON_parse (response_body r) with
          | Some payload => Ok (Some payload)
          | None => Throw SyntaxError
          end)
  /\ (status r <> 204 -> json_content r = false ->
        fst (request JSON_parse remote credentials endpoint options up log) = Ok (Some (JStr (response_body r)))).
Proof.
  intros Htok Hr Hok. rewrite (request_responded _ _ _ _ _ Htok Hr).
  pose proof (proj1 (ok_range r) Hok) as Hrange.
  unfold interpret. rewrite Hok. simpl.
  destruct (Z.eqb_spec (status r) 429); [lia|].
  destruct (Z.eqb_spec (status r) 401); [lia|].
  destruct (Z.eqb_spec (status r) 403); [lia|].
  destruct (Z.eqb_spec (status r) 404); [lia|].
  destruct (Z.eqb_spec (status r) 204) as [E|E].
  - repeat split; intros; try reflexivity; contradiction.
  - repeat split; intros; try contradiction.
    + rewrite H0. destruct (JSON_parse (response_body r)); reflexivity.
    + rewrite H0. reflexivity.
Qed.

(** A status outside 2xx that is none of 429, 401, 403, 404: the generic
    error, with the status and the message read from the body. *)
Lemma request_other_status endpoint options up log r :
  has_token credentials ->
  remote log (outbound credentials endpoint options up) = Responded r ->
  ok r = false ->
  status r <> 429 -> status r <> 401 -> status r <> 403 -> status r <> 404 ->
  request JSON_parse remote credentials endpoint options up log
  = (Throw (GoogleDriveApiError
              (best_effort_message (JSON_parse (response_body r)) (status r))
              (status r)),
     (log ++ [outbound credentials endpoint options up])%list).
Proof.
  intros Htok Hr Hok H429 H401 H403 H404.
  rewrite (request_responded _ _ _ _ _ Htok Hr).
  unfold interpret. rewrite Hok. simpl.
  destruct (Z.eqb_spec (status r) 429); [contradiction|].
  destruct (Z.eqb_spec (status r) 401); [contradiction|].
  destruct (Z.eqb_spec (status r) 403); [contradiction|].
  destruct (Z.eqb_spec (status r) 404); [contradiction|].
  rewrite api_error_message_best_effort. reflexivity.
Qed.

End Pipeline.

(* ------------------------------------------------------------------------- *)
(** ** Calls made by the operations and by the tools *)

Section Effects.

Variable JSON_parse : string -> option json.
Variable remote : list HttpRequest -> HttpRequest -> fetched.
Variable message_of : error -> string.
Variable credentials : TenantCredentials.
Variable formatBytes : value -> string.
Variable percentage : value -> value -> string.

Lemma silent_ret A (a : A) : silent (ret a).
Proof. intro; reflexivity. Qed.

Lemma silent_throw A e : silent (@throw A e).
Proof. intro; reflexivity. Qed.

Lemma silent_lift A (r : result A) : silent (lift r).
Proof. intro; reflexivity. Qed.

Lemma silent_bind A B (m : M A) (k : A -> M B) :
  silent m -> (forall a, silent (k a)) -> silent (bind m k).
Proof.
  intros Hm Hk log. unfold bind. specialize (Hm log).
  destruct (m log) as [[a|e] log']; simpl in *; subst; [apply Hk|reflexivity].
Qed.

Lemma silent_try_catch A (m : M A) (h : error -> M A) :
  silent m -> (forall e, silent (h e)) -> silent (try_catch m h).
Proof.
  intros Hm Hh log. unfold try_catch. specialize (Hm log).
  destruct (m log) as [[a|e] log']; simpl in *; subst; [reflexivity|apply Hh].
Qed.

Lemma single_bind A B P (m : M A) (k : A -> M B) :
  single P m -> (forall a, silent (k a)) -> single P (bind m k).
Proof.
  intros Hm Hk log. unfold bind. destruct (Hm log) as (c & Hc & HP).
  exists c. split; [|exact HP].
  destruct (m log) as [[a|e] log']; simpl in *; subst; [apply Hk|reflexivity].
Qed.

Lemma single_try_catch A P (m : M A) (h : error -> M A) :
  single P m -> (forall e, silent (h e)) -> single P (try_catch m h).
Proof.
  intros Hm Hh log. unfold try_catch. destruct (Hm log) as (c & Hc & HP).
  exists c. split; [|exact HP].
  destruct (m log) as [[a|e] log']; simpl in *; subst; [reflexivity|apply Hh].
Qed.

Lemma paginated_silent key response : silent (paginated key response).
Proof.
  unfold paginated. apply silent_bind; [apply silent_lift|intro].
  apply silent_bind; [apply silent_lift|intro]. apply silent_ret.
Qed.

Lemma request_silent endpoint options up :
  no_token credentials ->
  silent (request JSON_parse remote credentials endpoint options up).
Proof.
  intros H log.
  rewrite (request_without_token _ _ _ _ _ _ log (no_token_falsy _ H)).
  reflexivity.
Qed.

Lemma request_single endpoint options up :
  has_token credentials ->
  single (via credentials up)
    (request JSON_parse remote credentials endpoint options up).
Proof.
  intros Htok log. exists (outbound credentials endpoint options up).
  split; [|exists endpoint, options; reflexivity].
  rewrite (request_unfold _ _ _ _ _ _ _ Htok). unfold bind, fetch.
  destruct (remote log (outbound credentials endpoint options up)) as [r|what];
    [|reflexivity].
  unfold throw, ret.
  repeat match goal with
         | |- context [if ?b then _ else _] => destruct b
         | |- context [match JSON_parse ?x with _ => _ end] => destruct (JSON_parse x)
         end; reflexivity.
Qed.

Lemma request_logs endpoint options up log :
  has_token credentials ->
  snd (request JSON_parse remote credentials endpoint options up log)
  = (log ++ [outbound credentials endpoint options up])%list.
Proof.
  intros Htok.
  rewrite (request_unfold _ _ _ _ _ _ _ Htok). unfold bind, fetch.
  destruct (remote log (outbound credentials endpoint options up)) as [r|what];
    [|reflexivity].
  unfold throw, ret.
  repeat match goal with
         | |- context [if ?b then _ else _] => destruct b
         | |- context [match JSON_parse ?x with _ => _ end] => destruct (JSON_parse x)
         end; reflexivity.
Qed.

Ltac effect_step :=
  match goal with
  | |- forall _, _ => intro
  | |- silent (ret _) => apply silent_ret
  | |- silent (throw _) => apply silent_throw
  | |- silent (lift _) => apply silent_lift
  | |- silent (paginated _ _) => apply paginated_silent
  | |- silent (bind _ _) => apply silent_bind
  | |- silent (try_catch _ _) => apply silent_try_catch
  | |- silent (request _ _ _ _ _ _) => apply request_silent; assumption
  | |- silent (if ?b then _ else _) => destruct b
  | |- single _ (try_catch _ _) => apply single_try_catch
  | |- single _ (bind _ _) => apply single_bind
  | |- single _ (request _ _ _ _ _ _) => apply request_single; assumption
  | |- single _ (if ?b then _ else _) => destruct b
  end.

Ltac open_operations :=
  cbv beta iota zeta delta
    [handler handle uploads formatResponse success
     testConnection getAbout listFiles getFile createFile updateFile copyFile
     deleteFile emptyTrash exportFile downloadFile generateIds listLabels
     modifyLabels watchFile createFolder listFolderContents listPermissions
     getPermission createPermission updatePermission deletePermission
     listComments getComment createComment updateComment deleteComment
     listReplies getReply createReply updateReply deleteReply listRevisions
     getRevision updateRevision deleteRevision listDrives getDrive createDrive
     updateDrive deleteDrive hideDrive unhideDrive getStartPageToken
     listChanges watchChanges stopChannel listApps getApp listAccessProposals
     getAccessProposal resolveAccessProposal getOperation
     CreateFile.content UpdateFile.content truthy_str].

(** [testConnection] is the one operation that catches what the pipeline
    throws: it reports the error's message with [connected = false]. *)
Lemma testConnection_reports_missing_token log :
  no_token credentials ->
  testConnection JSON_parse remote message_of credentials log
  = (Ok {| connected := false;
           connection_message :=
             message_of
               (AuthenticationError
                  "No credentials provided. Include X-Google-Access-Token header.") |},
     log).
Proof.
  intros H. unfold testConnection, try_catch, bind, getAbout.
  rewrite (request_without_token _ _ _ _ _ _ log (no_token_falsy _ H)).
  reflexivity.
Qed.

(** Every client operation goes through [request] once, before anything
    else: the calls it makes are those of that one [request], and what that
    [request] throws is what the operation surfaces. *)
Lemma perform_through_request A (op : operation A) log :
  exists endpoint options,
    snd (perform JSON_parse remote message_of credentials op log)
    = snd (request JSON_parse remote credentials endpoint options
             (carries_content op) log)
    /\ forall e,
         fst (request JSON_parse remote credentials endpoint options
                (carries_content op) log) = Throw e ->
         fst (perform JSON_parse remote message_of credentials op log)
         = surfaces message_of op e.
Proof.
  destruct op; cbv beta iota delta [perform carries_content surfaces];
    open_operations;
    try match goal with
        | |- context [if ?b then _ else _] => destruct b
        end;
    unfold try_catch, bind;
    match goal with
    | |- context [request ?a ?b ?c ?e ?o ?u log] =>
        exists e, o; destruct (request a b c e o u log) as [[v|e0] l]
    end; simpl; (split; [|intros e1 He; try discriminate He; try congruence]);
    try reflexivity;
    try apply paginated_silent;
    match goal with
    | |- context [get ?v ?k] => destruct (get v k); try reflexivity
    end;
    match goal with
    | |- context [to_string ?w] => destruct (to_string w); reflexivity
    end.
Qed.

(** With a token, the one call of an operation is on the upload base when
    the operation carries inline content and on the metadata base otherwise,
    and an error made of its response is what the operation surfaces. *)
Lemma perform_call A (op : operation A) log :
  has_token credentials ->
  exists endpoint options,
    snd (perform JSON_parse remote message_of credentials op log)
    = (log ++ [outbound credentials endpoint options (carries_content op)])%list
    /\ forall r e,
         remote log (outbound credentials endpoint options (carries_content op))
         = Responded r ->
         interpret JSON_parse endpoint r = Throw e ->
         fst (perform JSON_parse remote message_of credentials op log)
         = surfaces message_of op e.
Proof.
  intros Htok.
  destruct (perform_through_request A op log) as (endpoint & options & Hs & Hf).
  exists endpoint, options. split.
  - rewrite Hs. apply request_logs. exact Htok.
  - intros r e Hr He. apply Hf.
    rewrite (request_responded _ _ _ _ _ _ _ _ Htok Hr). exact He.
Qed.

(** Without a token no operation reaches the network. *)
Lemma perform_without_token A (op : operation A) log :
  no_token credentials ->
  perform JSON_parse remote message_of credentials op log
  = (surfaces message_of op
       (AuthenticationError
          "No credentials provided. Include X-Google-Access-Token header."),
     log).
Proof.
  intros Hno.
  destruct (perform_through_request A op log) as (endpoint & options & Hs & Hf).
  rewrite (request_without_token _ _ _ _ _ _ log (no_token_falsy _ Hno)) in Hs, Hf.
  specialize (Hf _ eq_refl). simpl in Hs.
  destruct (perform JSON_parse remote message_of credentials op log) as [res calls].
  simpl in *. subst. reflexivity.
Qed.

(** Without a token no tool reaches the network. *)
Lemma handler_silent t :
  no_token credentials ->
  silent (handler JSON_parse remote message_of credentials formatBytes percentage t).
Proof.
  intros Hno. destruct t; open_operations; repeat effect_step.
Qed.

(** With a token, every tool but the one that moves a file makes exactly one
    call: on the upload base when it carries inline content, on the metadata
    base otherwise. *)
Lemma handler_single t :
  has_token credentials ->
  reads_then_writes t = false ->
  single (via credentials (uploads t))
    (handler JSON_parse remote message_of credentials formatBytes percentage t).
Proof.
  intros Htok Hrw. destruct t; try discriminate Hrw; clear Hrw;
    open_operations; repeat effect_step.
Qed.

Lemma move_file_calls fileId newParentId removeFromCurrentParent log :
  has_token credentials ->
  exists c1 rest,
    snd (handler JSON_parse remote message_of credentials formatBytes percentage
           (googledrive_move_file fileId newParentId removeFromCurrentParent) log)
    = (log ++ c1 :: rest)%list
    /\ via credentials false c1
    /\ Forall (via credentials false) rest
    /\ length rest
       = if read_gives_parents JSON_parse remote credentials fileId log
         then 1%nat else 0%nat.
Proof.
  intros Htok. unfold read_gives_parents. open_operations.
  unfold try_catch, bind, lift.
  match goal with
  | |- context [request ?a ?b ?c ?e ?o ?u log] =>
      destruct (request_single e o u Htok log) as (c1 & Hc1 & Hv1)
  end.
  match goal with
  | |- context [request ?a ?b ?c ?e ?o ?u log] =>
      destruct (request a b c e o u log) as [[currentFile|e1] log1]
  end; simpl in Hc1; subst log1; exists c1; cbn beta iota.
  2: { exists []. auto. }
  destruct (get currentFile "parents") as [parents|e2]; cbn beta iota;
    [|exists []; auto].
  destruct (join_opt parents) as [currentParents|e3]; cbn beta iota;
    [|exists []; auto].
  match goal with
  | |- context [request ?a ?b ?c ?e ?o ?u ?l] =>
      destruct (request_single e o u Htok l) as (c2 & Hc2 & Hv2)
  end.
  match goal with
  | |- context [request ?a ?b ?c ?e ?o ?u ?l] =>
      destruct (request a b c e o u l) as [[file|e4] log2]
  end; simpl in Hc2; subst log2; exists [c2]; cbn beta iota;
    (split; [simpl; rewrite <- app_assoc; reflexivity|]);
    (split; [exact Hv1|]); (split; [|reflexivity]);
    constructor; [exact Hv2 | constructor | exact Hv2 | constructor].
Qed.

(** C2.  A client whose access token is empty or absent.  Whatever the
    endpoint, the options and the base, [request] throws the
    AuthenticationError of the precondition check and the list of calls made
    is left as it was: [fetch] has not been invoked.  So does every operation
    of the client ([testConnection], which catches what it is thrown, reports
    that error instead), and no tool makes a call. *)
Theorem missing_token_fails_before_fetch :
  no_token credentials ->
  (forall endpoint options up log,
     request JSON_parse remote credentials endpoint options up log
     = (Throw (AuthenticationError
                 "No credentials provided. Include X-Google-Access-Token header."),
        log))
  /\ (forall A (op : operation A) log,
        perform JSON_parse remote message_of credentials op log
        = (surfaces message_of op
             (AuthenticationError
                "No credentials provided. Include X-Google-Access-Token header."),
           log))
  /\ (forall t log,
        snd (handler JSON_parse remote message_of credentials formatBytes
               percentage t log) = log).
Proof.
  intros Hno. split; [|split].
  - intros. apply request_without_token. exact (no_token_falsy _ Hno).
  - intros. apply perform_without_token. exact Hno.
  - intros. apply handler_silent. exact Hno.
Qed.

(** C6.  Whatever the endpoint, the method and the rest of the options, a
    response with status 401 makes [request] throw an AuthenticationError;
    and every operation of the client whose call is answered with status 401
    ends in that error ([testConnection] reporting it). *)
Theorem status_401_is_authentication_error :
  has_token credentials ->
  (forall endpoint options up log r,
     remote log (outbound credentials endpoint options up) = Responded r ->
     status r = 401 ->
     request JSON_parse remote credentials endpoint options up log
     = (Throw (AuthenticationError
                 "Authentication failed. Check your OAuth access token."),
        (log ++ [outbound credentials endpoint options up])%list))
  /\ (forall A (op : operation A) log,
        exists call,
          snd (perform JSON_parse remote message_of credentials op log)
          = (log ++ [call])%list
          /\ forall r,
               remote log call = Responded r ->
               status r = 401 ->
               fst (perform JSON_parse remote message_of credentials op log)
               = surfaces message_of op
                   (AuthenticationError
                      "Authentication failed. Check your OAuth access token.")).
Proof.
  intros Htok. split.
  - intros endpoint options up log r Hr Hst.
    exact (request_401 _ _ _ _ _ _ _ _ Htok Hr Hst).
  - intros A op log.
    destruct (perform_call A op log Htok) as (endpoint & options & Hs & Hf).
    eexists. split; [exact Hs|].
    intros r Hr Hst. apply (Hf r _ Hr).
    unfold interpret. rewrite Hst. reflexivity.
Qed.

(** C8.  A status outside 2xx that is none of 429, 401, 403, 404: [request]
    throws the generic error with that status, and its message is the
    body's [error.message], else the body's [message], else
    [API error: <status>]; a body that is not JSON, or not an object, gives
    the last one.  The call always ends in this error, whatever the body, and
    so does every operation of the client whose call is answered that way
    ([testConnection] reporting it). *)
Theorem other_status_is_api_error :
  has_token credentials ->
  (forall endpoint options up log r,
     remote log (outbound credentials endpoint options up) = Responded r ->
     ok r = false ->
     status r <> 429 -> status r <> 401 -> status r <> 403 -> status r <> 404 ->
     request JSON_parse remote credentials endpoint options up log
     = (Throw (GoogleDriveApiError
                 (best_effort_message (JSON_parse (response_body r)) (status r))
                 (status r)),
        (log ++ [outbound credentials endpoint options up])%list))
  /\ (forall A (op : operation A) log,
        exists call,
          snd (perform JSON_parse remote message_of credentials op log)
          = (log ++ [call])%list
          /\ forall r,
               remote log call = Responded r ->
               ok r = false ->
               status r <> 429 -> status r <> 401 ->
               status r <> 403 -> status r <> 404 ->
               fst (perform JSON_parse remote message_of credentials op log)
               = surfaces message_of op
                   (GoogleDriveApiError
                      (best_effort_message (JSON_parse (response_body r))
                         (status r))
                      (status r))).
Proof.
  intros Htok. split.
  - intros endpoint options up log r Hr Hok H429 H401 H403 H404.
    exact (request_other_status _ _ _ _ _ _ _ _ Htok Hr Hok H429 H401 H403 H404).
  - intros A op log.
    destruct (perform_call A op log Htok) as (endpoint & options & Hs & Hf).
    eexists. split; [exact Hs|].
    intros r Hr Hok H429 H401 H403 H404. apply (Hf r _ Hr).
    pose proof (request_other_status JSON_parse remote credentials endpoint
                  options (carries_content op) log r Htok Hr Hok H429 H401 H403
                  H404) as H.
    rewrite (request_responded _ _ _ _ _ _ _ _ Htok Hr) in H.
    congruence.
Qed.

Lemma request_payload endpoint options up log r v :
  has_token credentials ->
  (forall call, remote log call = Responded r) ->
  ok r = true -> status r <> 204 ->
  payload JSON_parse r = Some v ->
  request JSON_parse remote credentials endpoint options up log
  = (Ok (Some v), (log ++ [outbound credentials endpoint options up])%list).
Proof.
  intros Htok Hr Hok H204 Hv.
  rewrite (request_responded _ _ _ _ _ _ _ _ Htok (Hr _)).
  pose proof (proj1 (ok_range r) Hok) as Hrange.
  unfold interpret. rewrite Hok. simpl.
  destruct (Z.eqb_spec (status r) 429); [lia|].
  destruct (Z.eqb_spec (status r) 401); [lia|].
  destruct (Z.eqb_spec (status r) 403); [lia|].
  destruct (Z.eqb_spec (status r) 404); [lia|].
  destruct (Z.eqb_spec (status r) 204); [contradiction|].
  unfold payload in Hv. destruct (json_content r).
  - rewrite Hv. reflexivity.
  - rewrite Hv. reflexivity.
Qed.

Lemma paginated_payload key v log :
  v <> JNull ->
  paginated key (Some v) log = (Ok (page_of key v), log).
Proof. intros Hv. destruct v; try contradiction; reflexivity. Qed.

Lemma listing_returns_page l log r v :
  has_token credentials ->
  (forall call, remote log call = Responded r) ->
  ok r = true -> status r <> 204 ->
  payload JSON_parse r = Some v -> v <> JNull ->
  exists call,
    run_listing JSON_parse remote credentials l log
    = (Ok (page_of (resource_key l) v), (log ++ [call])%list).
Proof.
  intros Htok Hr Hok H204 Hv Hnull.
  destruct l; cbv beta iota zeta delta
    [run_listing resource_key listFiles listPermissions listComments listReplies
     listRevisions listDrives listAccessProposals];
    unfold bind;
    rewrite (request_payload _ _ _ _ _ _ Htok Hr Hok H204 Hv);
    rewrite (paginated_payload _ _ _ Hnull);
    eexists; reflexivity.
Qed.

(** C1, as the code has it.  Every listing, on a successful response whose
    payload is [v]: it returns a page; the page's [nextPageToken] is the
    payload's, verbatim (so it is absent exactly when the payload has none);
    [hasMore] is true exactly when that token is truthy, which for a string
    token means non-empty; [items] is the payload's resource array, and the
    empty array when the payload has none. *)
Theorem listing_pagination l log r v :
  has_token credentials ->
  (forall call, remote log call = Responded r) ->
  ok r = true -> status r <> 204 ->
  payload JSON_parse r = Some v -> v <> JNull ->
  exists call page,
    run_listing JSON_parse remote credentials l log
    = (Ok page, (log ++ [call])%list)
    /\ nextPageToken page = prop v "nextPageToken"
    /\ (hasMore page = true <->
        exists token, prop v "nextPageToken" = Some token
                      /\ truthy_json token = true)
    /\ (forall s, prop v "nextPageToken" = Some (JStr s) ->
        (hasMore page = true <-> s <> EmptyString))
    /\ (prop v "nextPageToken" = None ->
        hasMore page = false /\ nextPageToken page = None)
    /\ (forall xs, prop v (resource_key l) = Some (JArr xs) -> items page = JArr xs)
    /\ (prop v (resource_key l) = None -> items page = JArr []).
Proof.
  intros Htok Hr Hok H204 Hv Hnull.
  destruct (listing_returns_page l log r v Htok Hr Hok H204 Hv Hnull) as (call & Hrun).
  exists call, (page_of (resource_key l) v). split; [exact Hrun|].
  unfold page_of; simpl. split; [reflexivity|]. split; [|split; [|split; [|split]]].
  - destruct (prop v "nextPageToken") as [token|]; simpl.
    + split; [intros H; exists token; auto|].
      intros (t & Ht & Htr). inversion Ht; subst; exact Htr.
    + split; [discriminate|]. intros (t & Ht & _). discriminate.
  - intros s Hs. rewrite Hs. simpl. destruct s; simpl; split; congruence.
  - intros Hn. rewrite Hn. split; reflexivity.
  - intros xs Hxs. rewrite Hxs. reflexivity.
  - intros Hn. rewrite Hn. reflexivity.
Qed.



Lemma via_url up c b :
  baseUrl credentials = Some b -> nonempty b = true ->
  via credentials up c ->
  exists endpoint, url c = (if up then UPLOAD_BASE_URL else b) ++ endpoint.
Proof.
  intros Hb Hne (endpoint & options & ->). exists endpoint.
  unfold outbound, fetch_arguments, this_uploadUrl, this_baseUrl. simpl.
  rewrite Hb. simpl. rewrite Hne. destruct up; reflexivity.
Qed.

(** C10.  A client built with a base-URL override (a non-empty one: the
    constructor takes an empty string for none): every call [request] makes
    on the metadata base goes to the override and every call on the upload
    base goes to the fixed upload URL; [createFile] and [updateFile] with
    inline content go to the upload URL; the one call of an operation of the
    client goes to the upload URL when the operation carries inline content
    and to the override otherwise; and so do the calls of an invocation over
    the whole tool surface. *)
Theorem override_applies_to_metadata_calls_only b :
  has_token credentials ->
  baseUrl credentials = Some b -> nonempty b = true ->
  (forall endpoint options up log,
     exists c,
       snd (request JSON_parse remote credentials endpoint options up log)
       = (log ++ [c])%list
       /\ url c = (if up then UPLOAD_BASE_URL else b) ++ endpoint)
  /\ (forall params log,
        truthy_str (CreateFile.content params) = true ->
        exists c endpoint,
          snd (createFile JSON_parse remote credentials params log)
          = (log ++ [c])%list
          /\ url c = UPLOAD_BASE_URL ++ endpoint)
  /\ (forall fileId params log,
        truthy_str (UpdateFile.content params) = true ->
        exists c endpoint,
          snd (updateFile JSON_parse remote credentials fileId params log)
          = (log ++ [c])%list
          /\ url c = UPLOAD_BASE_URL ++ endpoint)
  /\ (forall A (op : operation A) log,
        exists c endpoint,
          snd (perform JSON_parse remote message_of credentials op log)
          = (log ++ [c])%list
          /\ url c = (if carries_content op then UPLOAD_BASE_URL else b)
                     ++ endpoint)
  /\ (forall t log,
        exists calls,
          snd (handler JSON_parse remote message_of credentials formatBytes
                 percentage t log)
          = (log ++ calls)%list
          /\ Forall (fun c => exists endpoint,
                        url c = (if uploads t then UPLOAD_BASE_URL else b)
                                ++ endpoint) calls).
Proof.
  intros Htok Hb Hne. split; [|split; [|split; [|split]]].
  - intros endpoint options up log.
    exists (outbound credentials endpoint options up).
    split; [apply request_logs; exact Htok|].
    unfold outbound, fetch_arguments, this_uploadUrl, this_baseUrl. simpl.
    rewrite Hb. simpl. rewrite Hne. destruct up; reflexivity.
  - intros params log Hc. unfold createFile. cbv zeta. rewrite Hc.
    rewrite (request_logs _ _ _ _ Htok). eexists. eexists.
    split; reflexivity.
  - intros fileId params log Hc. unfold updateFile. cbv zeta. rewrite Hc.
    rewrite (request_logs _ _ _ _ Htok). eexists. eexists.
    split; reflexivity.
  - intros A op log.
    destruct (perform_call A op log Htok) as (endpoint & options & Hs & _).
    exists (outbound credentials endpoint options (carries_content op)), endpoint.
    split; [exact Hs|].
    unfold outbound, fetch_arguments, this_uploadUrl, this_baseUrl. simpl.
    rewrite Hb. simpl. rewrite Hne. destruct (carries_content op); reflexivity.
  - intros t log. destruct (reads_then_writes t) eqn:Erw.
    + destruct t; try discriminate Erw.
      destruct (move_file_calls fileId newParentId removeFromCurrentParent log Htok)
        as (c1 & rest & H & Hv1 & Hrest & _).
      exists (c1 :: rest). split; [exact H|].
      constructor; [exact (via_url false c1 b Hb Hne Hv1)|].
      clear H. induction Hrest as [|c2 rest Hv2 _ IH]; constructor;
        [exact (via_url false c2 b Hb Hne Hv2)|exact IH].
    + destruct (handler_single t Htok Erw log) as (c & H & Hv).
      exists [c]. split; [exact H|].
      constructor; [exact (via_url _ c b Hb Hne Hv)|constructor].
Qed.

End Effects.

(* ------------------------------------------------------------------------- *)
(** ** Texts *)

Section Texts.

Lemma append_nil_r (s : string) : s ++ EmptyString = s.
Proof. induction s; simpl; congruence. Qed.

Lemma append_assoc (a b c : string) : (a ++ b) ++ c = a ++ (b ++ c).
Proof. induction a; simpl; congruence. Qed.

Lemma length_append (a b : string) :
  String.length (a ++ b) = (String.length a + String.length b)%nat.
Proof. induction a; simpl; congruence. Qed.

Lemma startsWith_append (a b : string) : startsWith a (a ++ b) = true.
Proof.
  induction a as [|c a IH]; simpl; [reflexivity|].
  rewrite Ascii.eqb_refl. exact IH.
Qed.

Lemma drop_append (a b : string) : drop (String.length a) (a ++ b) = b.
Proof. induction a; simpl; [reflexivity|assumption]. Qed.

End Texts.

(* ------------------------------------------------------------------------- *)
(** ** Reading back what [JSON.stringify] wrote *)

Section Reading.

Lemma string_body_escape c t :
  Parse.string_body (Stringify.escape c ++ t)
  = match Parse.string_body t with
    | Some (ps, rest) => Some (piece_of c :: ps, rest)
    | None => None
    end.
Proof.
  destruct c as [[] [] [] [] [] [] [] []]; reflexivity.
Qed.

Lemma decode_piece c ps :
  Parse.decode (piece_of c :: ps) = String c (Parse.decode ps).
Proof.
  destruct c as [[] [] [] [] [] [] [] []]; reflexivity.
Qed.

Lemma string_body_escape_all s rest :
  Parse.string_body (Stringify.escape_all s ++ String DQUOTE rest)
  = Some (pieces s, rest).
Proof.
  induction s as [|c s IH]; [reflexivity|].
  simpl Stringify.escape_all. rewrite append_assoc, string_body_escape, IH.
  reflexivity.
Qed.

Lemma decode_pieces s : Parse.decode (pieces s) = s.
Proof.
  induction s as [|c s IH]; [reflexivity|].
  simpl pieces. rewrite decode_piece, IH. reflexivity.
Qed.

Lemma string_lit_quote s rest :
  Parse.string_lit (Stringify.escape_all s ++ String DQUOTE rest) = Some (s, rest).
Proof.
  unfold Parse.string_lit. rewrite string_body_escape_all, decode_pieces.
  reflexivity.
Qed.

Lemma quote_append s rest :
  Stringify.quote s ++ rest
  = String DQUOTE (Stringify.escape_all s ++ String DQUOTE rest).
Proof.
  unfold Stringify.quote. simpl. rewrite append_assoc. reflexivity.
Qed.

Lemma value_string n r :
  Parse.value_ (S n) (String DQUOTE r)
  = match Parse.string_lit r with
    | Some (x, rest) => Some (JStr x, rest)
    | None => None
    end.
Proof. reflexivity. Qed.

Lemma elements_step n acc s :
  Parse.elements (S n) acc s
  = match Parse.value_ n s with
    | Some (v, r) =>
        match Parse.skip r with
        | String ","%char r' => Parse.elements n (v :: acc) r'
        | String "]"%char r' => Some (JArr (rev (v :: acc)), r')
        | _ => None
        end
    | None => None
    end.
Proof. reflexivity. Qed.

Lemma members_step n acc k t :
  Parse.members (S n) acc (Stringify.quote k ++ t)
  = match Parse.skip t with
    | String ":"%char r2 =>
        match Parse.value_ n r2 with
        | Some (v, r3) =>
            match Parse.skip r3 with
            | String ","%char r4 => Parse.members n (put k v acc) r4
            | String "}"%char r4 => Some (JObj (put k v acc), r4)
            | _ => None
            end
        | None => None
        end
    | _ => None
    end.
Proof.
  rewrite quote_append.
  change (Parse.members (S n) acc
            (String DQUOTE (Stringify.escape_all k ++ String DQUOTE t)))
    with (match Parse.string_lit (Stringify.escape_all k ++ String DQUOTE t) with
          | Some (k, r1) =>
              match Parse.skip r1 with
              | String ":"%char r2 =>
                  match Parse.value_ n r2 with
                  | Some (v, r3) =>
                      match Parse.skip r3 with
                      | String ","%char r4 => Parse.members n (put k v acc) r4
                      | String "}"%char r4 => Some (JObj (put k v acc), r4)
                      | _ => None
                      end
                  | None => None
                  end
              | _ => None
              end
          | None => None
          end).
  rewrite string_lit_quote. reflexivity.
Qed.

(** The text of a member and of a document, as [stringify] lays them out. *)
Lemma stringify_array l :
  Stringify.stringify (JArr l)
  = "[" ++ join "," (map Stringify.stringify l) ++ "]".
Proof. reflexivity. Qed.

Lemma stringify_object l :
  Stringify.stringify (JObj l)
  = "{" ++ join "," (map (fun '(k, x) =>
                            Stringify.quote k ++ ":" ++ Stringify.stringify x) l)
        ++ "}".
Proof. reflexivity. Qed.

Lemma array_enters n x t :
  number_free x = true ->
  Parse.value_ (S n) (String "["%char (Stringify.stringify x ++ t))
  = Parse.elements n [] (Stringify.stringify x ++ t).
Proof.
  destruct x as [| [] | z | x | l | l]; intros Hn; try discriminate Hn;
    reflexivity.
Qed.

Lemma object_enters n k t :
  Parse.value_ (S n) (String "{"%char (Stringify.quote k ++ t))
  = Parse.members n [] (Stringify.quote k ++ t).
Proof. reflexivity. Qed.

Lemma stringify_not_empty j : (1 <= String.length (Stringify.stringify j))%nat.
Proof.
  destruct j as [| [] | z | x | l | l]; simpl; try lia.
  unfold String_of_number.
  destruct (Z.to_int z) as [d|d]; simpl.
  - destruct d; simpl; lia.
  - lia.
Qed.

Lemma put_fresh k (v : json) acc :
  fresh k acc = true -> put k v acc = (acc ++ [(k, v)])%list.
Proof.
  induction acc as [|[k' v'] acc IH]; simpl; [reflexivity|].
  intros H. apply andb_true_iff in H. destruct H as [H1 H2].
  destruct (String.eqb k k'); [discriminate|]. rewrite (IH H2). reflexivity.
Qed.

Lemma distinct_middle acc k (v : json) l :
  distinct (acc ++ (k, v) :: l) = true -> fresh k acc = true.
Proof.
  induction acc as [|[k' v'] acc IH]; simpl; [reflexivity|].
  intros H. apply andb_true_iff in H. destruct H as [H1 H2].
  rewrite (IH H2), andb_true_r.
  clear IH H2. induction acc as [|[k2 v2] acc IH]; simpl in H1.
  - apply andb_true_iff in H1. destruct H1 as [H1 _].
    rewrite String.eqb_sym. exact H1.
  - apply andb_true_iff in H1. destruct H1 as [_ H1]. exact (IH H1).
Qed.

Lemma elements_read_back F :
  (forall m, (m < F)%nat -> reads_back m) ->
  forall l acc m rest,
    l <> [] -> (m < F)%nat ->
    forallb number_free l = true -> forallb distinct_keys l = true ->
    (String.length (join "," (map Stringify.stringify l)) + 1 <= m)%nat ->
    Parse.elements m acc (join "," (map Stringify.stringify l) ++ "]" ++ rest)
    = Some (JArr (rev acc ++ l), rest).
Proof.
  intros IH l. induction l as [|x l IHl]; intros acc m rest Hne Hm Hn Hd Hlen;
    [contradiction|].
  destruct m as [|m]; [lia|].
  simpl in Hn, Hd. apply andb_true_iff in Hn, Hd.
  destruct Hn as [Hnx Hnl], Hd as [Hdx Hdl].
  rewrite elements_step. destruct l as [|y l].
  - change (join "," (map Stringify.stringify [x]))
      with (Stringify.stringify x) in *.
    rewrite (IH m ltac:(lia) x ("]" ++ rest) Hnx Hdx ltac:(lia)).
    simpl. reflexivity.
  - change (join "," (map Stringify.stringify (x :: y :: l)))
      with (Stringify.stringify x ++ "," ++ join "," (map Stringify.stringify (y :: l)))
      in *.
    rewrite !length_append in Hlen. rewrite !append_assoc.
    change (String.length ",") with 1%nat in Hlen.
    pose proof (stringify_not_empty x) as Hx.
    rewrite (IH m ltac:(lia) x _ Hnx Hdx ltac:(lia)).
    change (Parse.skip ("," ++ join "," (map Stringify.stringify (y :: l)) ++ "]" ++ rest))
      with (String ","%char (join "," (map Stringify.stringify (y :: l)) ++ "]" ++ rest)).
    cbv iota beta.
    rewrite (IHl (x :: acc) m rest ltac:(discriminate) ltac:(lia) Hnl Hdl
               ltac:(lia)).
    simpl rev. rewrite <- app_assoc. reflexivity.
Qed.

Lemma members_read_back F :
  (forall m, (m < F)%nat -> reads_back m) ->
  forall l acc m rest,
    l <> [] -> (m < F)%nat ->
    forallb (fun '(_, x) => number_free x) l = true ->
    forallb (fun '(_, x) => distinct_keys x) l = true ->
    distinct (acc ++ l) = true ->
    (String.length (join "," (map member l)) + 1 <= m)%nat ->
    Parse.members m acc (join "," (map member l) ++ "}" ++ rest)
    = Some (JObj (acc ++ l), rest).
Proof.
  intros IH l. induction l as [|[k v] l IHl];
    intros acc m rest Hne Hm Hn Hd Hk Hlen; [contradiction|].
  destruct m as [|m]; [lia|].
  simpl in Hn, Hd. apply andb_true_iff in Hn, Hd.
  destruct Hn as [Hnx Hnl], Hd as [Hdx Hdl].
  pose proof (put_fresh k v acc (distinct_middle acc k v l Hk)) as Hput.
  pose proof (stringify_not_empty v) as Hv.
  destruct l as [|y l].
  - change (join "," (map member [(k, v)]))
      with (Stringify.quote k ++ ":" ++ Stringify.stringify v) in *.
    rewrite !length_append in Hlen. rewrite !append_assoc.
    rewrite members_step.
    change (Parse.skip (":" ++ Stringify.stringify v ++ "}" ++ rest))
      with (String ":"%char (Stringify.stringify v ++ "}" ++ rest)).
    cbv iota beta.
    rewrite (IH m ltac:(lia) v _ Hnx Hdx ltac:(lia)).
    simpl. rewrite Hput. reflexivity.
  - change (join "," (map member ((k, v) :: y :: l)))
      with ((Stringify.quote k ++ ":" ++ Stringify.stringify v)
            ++ "," ++ join "," (map member (y :: l))) in *.
    rewrite !length_append in Hlen. rewrite !append_assoc.
    change (String.length ",") with 1%nat in Hlen.
    rewrite members_step.
    change (Parse.skip (":" ++ Stringify.stringify v ++ ","
                        ++ join "," (map member (y :: l)) ++ "}" ++ rest))
      with (String ":"%char (Stringify.stringify v ++ ","
                              ++ join "," (map member (y :: l)) ++ "}" ++ rest)).
    cbv iota beta.
    rewrite (IH m ltac:(lia) v _ Hnx Hdx ltac:(lia)).
    change (Parse.skip ("," ++ join "," (map member (y :: l)) ++ "}" ++ rest))
      with (String ","%char (join "," (map member (y :: l)) ++ "}" ++ rest)).
    cbv iota beta. rewrite Hput.
    rewrite (IHl (acc ++ [(k, v)])%list m rest ltac:(discriminate) ltac:(lia)
               Hnl Hdl).
    + rewrite <- app_assoc. reflexivity.
    + rewrite <- app_assoc. exact Hk.
    + lia.
Qed.

Lemma value_reads_back fuel : reads_back fuel.
Proof.
  induction fuel as [fuel IH] using lt_wf_ind.
  intros j rest Hn Hd Hlen.
  pose proof (stringify_not_empty j) as H1.
  destruct fuel as [|n]; [lia|].
  destruct j as [| [] | z | x | l | l]; try reflexivity; try discriminate Hn.
  - change (Stringify.stringify (JStr x)) with (Stringify.quote x).
    rewrite quote_append, value_string, string_lit_quote. reflexivity.
  - rewrite stringify_array in *. simpl in Hn, Hd.
    destruct l as [|x l]; [reflexivity|].
    change (("[" ++ join "," (map Stringify.stringify (x :: l)) ++ "]") ++ rest)
      with (String "["%char
              ((join "," (map Stringify.stringify (x :: l)) ++ "]") ++ rest)).
    rewrite append_assoc.
    change (String.length ("[" ++ join "," (map Stringify.stringify (x :: l)) ++ "]"))
      with (S (String.length (join "," (map Stringify.stringify (x :: l)) ++ "]")))
      in Hlen.
    rewrite length_append in Hlen. change (String.length "]") with 1%nat in Hlen.
    assert (Henter :
      Parse.value_ (S n)
        (String "["%char (join "," (map Stringify.stringify (x :: l)) ++ "]" ++ rest))
      = Parse.elements n []
          (join "," (map Stringify.stringify (x :: l)) ++ "]" ++ rest)).
    { apply andb_true_iff in Hn. destruct Hn as [Hnx _].
      destruct l as [|y l].
      - exact (array_enters n x _ Hnx).
      - change (join "," (map Stringify.stringify (x :: y :: l)))
          with (Stringify.stringify x ++ ","
                ++ join "," (map Stringify.stringify (y :: l))).
        rewrite !append_assoc. exact (array_enters n x _ Hnx). }
    rewrite Henter.
    exact (elements_read_back (S n) IH (x :: l) [] n rest ltac:(discriminate)
             ltac:(lia) Hn Hd ltac:(lia)).
  - rewrite stringify_object in *. simpl in Hn, Hd.
    destruct l as [|[k v] l]; [reflexivity|].
    apply andb_true_iff in Hd. destruct Hd as [Hk Hd].
    change (fun '(k, x) => Stringify.quote k ++ ":" ++ Stringify.stringify x)
      with member in *.
    change (("{" ++ join "," (map member ((k, v) :: l)) ++ "}") ++ rest)
      with (String "{"%char ((join "," (map member ((k, v) :: l)) ++ "}") ++ rest)).
    rewrite append_assoc.
    change (String.length ("{" ++ join "," (map member ((k, v) :: l)) ++ "}"))
      with (S (String.length (join "," (map member ((k, v) :: l)) ++ "}")))
      in Hlen.
    rewrite length_append in Hlen. change (String.length "}") with 1%nat in Hlen.
    assert (Henter :
      Parse.value_ (S n)
        (String "{"%char (join "," (map member ((k, v) :: l)) ++ "}" ++ rest))
      = Parse.members n [] (join "," (map member ((k, v) :: l)) ++ "}" ++ rest)).
    { destruct l as [|y l].
      - change (join "," (map member [(k, v)]))
          with (Stringify.quote k ++ ":" ++ Stringify.stringify v).
        rewrite !append_assoc. exact (object_enters n k _).
      - change (join "," (map member ((k, v) :: y :: l)))
          with ((Stringify.quote k ++ ":" ++ Stringify.stringify v)
                ++ "," ++ join "," (map member (y :: l))).
        rewrite !append_assoc. exact (object_enters n k _). }
    rewrite Henter.
    exact (members_read_back (S n) IH ((k, v) :: l) [] n rest ltac:(discriminate)
             ltac:(lia) Hn Hd Hk ltac:(lia)).
Qed.

(** What [JSON.stringify] writes for a document without numbers and without
    repeated property names, [JSON.parse] reads back as that document. *)
Lemma parse_stringify j :
  plain j = true -> Parse.parse (JSON_stringify j) = Some j.
Proof.
  unfold plain, JSON_stringify, Parse.parse. intros H.
  apply andb_true_iff in H. destruct H as [Hn Hd].
  rewrite <- (append_nil_r (Stringify.stringify j)) at 2.
  rewrite (value_reads_back (S (String.length (Stringify.stringify j))) j
             EmptyString Hn Hd ltac:(lia)).
  reflexivity.
Qed.

End Reading.

(* ------------------------------------------------------------------------- *)
(** ** Reading back a multipart body *)

Section Framing.

Import Multipart.

Lemma cut_unfold d s :
  cut d s
  = if startsWith d s then Some (EmptyString, drop (String.length d) s)
    else match s with
         | EmptyString => None
         | String c r =>
             match cut d r with
             | Some (a, b) => Some (String c a, b)
             | None => None
             end
         end.
Proof. destruct s; reflexivity. Qed.

Lemma cut_here d t : cut d (d ++ t) = Some (EmptyString, t).
Proof. rewrite cut_unfold, startsWith_append, drop_append. reflexivity. Qed.

Lemma cut_cons d x s :
  startsWith d (String x s) = false ->
  cut d (String x s)
  = match cut d s with
    | Some (a, b) => Some (String x a, b)
    | None => None
    end.
Proof. intros H. simpl. rewrite H. reflexivity. Qed.

(** The search passes over a stretch in which the first character of the
    pattern does not occur. *)
Lemma cut_pass c d a t :
  without c a = true ->
  cut (String c d) (a ++ t)
  = match cut (String c d) t with
    | Some (x, y) => Some (a ++ x, y)
    | None => None
    end.
Proof.
  induction a as [|x a IH]; intros H.
  - simpl. destruct (cut (String c d) t) as [[? ?]|]; reflexivity.
  - simpl in H. apply andb_true_iff in H. destruct H as [Hx Ha].
    change (String x a ++ t) with (String x (a ++ t)).
    rewrite cut_cons.
    + rewrite (IH Ha). destruct (cut (String c d) t) as [[? ?]|]; reflexivity.
    + simpl. rewrite Ascii.eqb_sym. destruct (Ascii.eqb x c); [discriminate|].
      reflexivity.
Qed.

Lemma startsWith_long p a t :
  (String.length p <= String.length a)%nat ->
  startsWith p (a ++ t) = startsWith p a.
Proof.
  revert a. induction p as [|y p IH]; intros a H; [reflexivity|].
  destruct a as [|x a]; simpl in H; [lia|].
  simpl. rewrite (IH a ltac:(lia)). reflexivity.
Qed.

(** A pattern that starts before the end of [a] and runs into what follows
    has, further in, the character that follows. *)
Lemma startsWith_straddle p a c u :
  startsWith p (a ++ String c u) = true ->
  (String.length a < String.length p)%nat ->
  without c p = false.
Proof.
  revert p. induction a as [|x a IH]; intros p H Hlen.
  - destruct p as [|y p]; simpl in Hlen; [lia|].
    simpl in H. apply andb_true_iff in H. destruct H as [H _].
    simpl. rewrite H. reflexivity.
  - destruct p as [|y p]; simpl in Hlen; [lia|].
    simpl in H. apply andb_true_iff in H. destruct H as [_ H].
    simpl. rewrite (IH p H ltac:(lia)). apply andb_false_r.
Qed.

(** The first occurrence of a pattern whose first character occurs nowhere
    else in it, after a text that does not contain the pattern. *)
Lemma cut_absent c d a t :
  without c d = true ->
  includes (String c d) a = false ->
  cut (String c d) (a ++ String c d ++ t) = Some (a, t).
Proof.
  intros Hd. induction a as [|x a IH]; intros Ha.
  - exact (cut_here (String c d) t).
  - simpl in Ha.
    destruct (Ascii.eqb c x && startsWith d a) eqn:E; [discriminate|].
    change (String x a ++ String c d ++ t) with (String x (a ++ String c d ++ t)).
    rewrite cut_cons.
    + rewrite (IH Ha). reflexivity.
    + simpl. destruct (Ascii.eqb c x); [|reflexivity]. simpl in E. simpl.
      destruct (Nat.leb_spec (String.length d) (String.length a)) as [Hle | Hlt].
      * rewrite (startsWith_long d a _ Hle). exact E.
      * destruct (startsWith d (a ++ String c (d ++ t))) eqn:S; [|reflexivity].
        rewrite (startsWith_straddle d a c (d ++ t) S Hlt) in Hd. discriminate.
Qed.

Lemma without_append c a b :
  without c (a ++ b) = without c a && without c b.
Proof.
  induction a as [|x a IH]; simpl; [reflexivity|].
  rewrite IH, andb_assoc. reflexivity.
Qed.

Lemma escape_without_CR x : without CR (Stringify.escape x) = true.
Proof. destruct x as [[] [] [] [] [] [] [] []]; reflexivity. Qed.

Lemma quote_without_CR x : without CR (Stringify.quote x) = true.
Proof.
  unfold Stringify.quote. simpl. rewrite without_append. simpl.
  rewrite andb_true_r. induction x as [|c x IH]; [reflexivity|].
  simpl. rewrite without_append, escape_without_CR, IH. reflexivity.
Qed.

Lemma digits_without_CR d :
  without CR (NilZero.string_of_uint d) = true.
Proof.
  destruct d; try reflexivity; simpl;
    match goal with
    | |- context [NilEmpty.string_of_uint ?u] =>
        induction u; simpl; auto
    end.
Qed.

Lemma number_without_CR z : without CR (String_of_number z) = true.
Proof.
  unfold String_of_number. destruct (Z.to_int z) as [d|d]; simpl.
  - apply digits_without_CR.
  - apply digits_without_CR.
Qed.

Lemma join_without_CR l :
  Forall (fun x => without CR x = true) l -> without CR (join "," l) = true.
Proof.
  induction 1 as [|x l Hx Hl IH]; [reflexivity|].
  destruct l as [|y l]; [exact Hx|].
  change (join "," (x :: y :: l)) with (x ++ "," ++ join "," (y :: l)).
  rewrite !without_append, Hx, IH. reflexivity.
Qed.

(** [JSON.stringify] never writes a carriage return: it escapes them. *)
Lemma stringify_without_CR :
  forall j, without CR (Stringify.stringify j) = true.
Proof.
  fix IH 1. intros [| [] | z | x | l | l]; try reflexivity.
  - apply number_without_CR.
  - apply quote_without_CR.
  - rewrite stringify_array, !without_append.
    change (without CR "[") with true. change (without CR "]") with true.
    rewrite andb_true_r. cbv iota beta delta [andb].
    apply join_without_CR. induction l as [|x l IHl]; constructor.
    + apply IH.
    + exact IHl.
  - rewrite stringify_object, !without_append.
    change (without CR "{") with true. change (without CR "}") with true.
    rewrite andb_true_r. cbv iota beta delta [andb].
    apply join_without_CR. induction l as [|[k x] l IHl]; constructor.
    + rewrite !without_append, quote_without_CR, IH. reflexivity.
    + exact IHl.
Qed.

Lemma entity_read h body :
  without CR h = true -> nonempty h = true ->
  entity (h ++ CRLF ++ CRLF ++ body) = Some (h, body).
Proof.
  intros Hh Hne. unfold entity.
  destruct h as [|x h]; [discriminate|].
  assert (Hx : Ascii.eqb CR x = false).
  { simpl in Hh. rewrite Ascii.eqb_sym. destruct (Ascii.eqb x CR); [discriminate|].
    reflexivity. }
  change (startsWith CRLF (String x h ++ CRLF ++ CRLF ++ body))
    with (Ascii.eqb CR x && startsWith (String LF EmptyString)
                              (h ++ CRLF ++ CRLF ++ body)).
  rewrite Hx. cbv iota beta. simpl andb. cbv iota.
  change (CRLF ++ CRLF) with (String CR (String LF CRLF)).
  rewrite (cut_pass CR (String LF CRLF) (String x h) _ Hh).
  change (CRLF ++ CRLF ++ body) with (String CR (String LF CRLF) ++ body).
  rewrite cut_here, append_nil_r. reflexivity.
Qed.

(** The delimiter line, with its first character set apart. *)
Lemma delimiter_line_head :
  dash_boundary boundary = String CR (String LF ("--" ++ boundary)).
Proof. reflexivity. Qed.

Lemma part_cut_json h js rest :
  without CR h = true -> without CR js = true ->
  cut (dash_boundary boundary)
    (h ++ CRLF ++ CRLF ++ String "{"%char js ++ dash_boundary boundary ++ rest)
  = Some (h ++ CRLF ++ CRLF ++ String "{"%char js, rest).
Proof.
  intros Hh Hjs. rewrite delimiter_line_head.
  rewrite (cut_pass CR _ h _ Hh).
  change (CRLF ++ CRLF ++ String "{"%char js
          ++ String CR (String LF ("--" ++ boundary)) ++ rest)
    with (String CR (String LF (String CR (String LF
            (String "{"%char js
             ++ String CR (String LF ("--" ++ boundary)) ++ rest))))).
  rewrite cut_cons by reflexivity. rewrite cut_cons by reflexivity.
  rewrite cut_cons by reflexivity. rewrite cut_cons by reflexivity.
  rewrite (cut_pass CR _ (String "{"%char js) _ Hjs).
  rewrite cut_here, append_nil_r. reflexivity.
Qed.

Lemma part_cut_content h content rest :
  without CR h = true -> boundary_free content = true ->
  cut (dash_boundary boundary)
    (h ++ CRLF ++ CRLF ++ content ++ dash_boundary boundary ++ rest)
  = Some (h ++ CRLF ++ CRLF ++ content, rest).
Proof.
  intros Hh Hc. unfold boundary_free, delimiter_line in Hc.
  apply negb_true_iff in Hc. rewrite delimiter_line_head in *.
  rewrite (cut_pass CR _ h _ Hh).
  change (CRLF ++ CRLF ++ content
          ++ String CR (String LF ("--" ++ boundary)) ++ rest)
    with (String CR (String LF
            ((CRLF ++ content)
             ++ String CR (String LF ("--" ++ boundary)) ++ rest))).
  rewrite cut_cons by reflexivity. rewrite cut_cons by reflexivity.
  rewrite (cut_absent CR (String LF ("--" ++ boundary)) (CRLF ++ content) rest
             eq_refl Hc).
  reflexivity.
Qed.

Lemma parts_part n b e rest p :
  entity e = Some p ->
  cut (dash_boundary b) (e ++ dash_boundary b ++ rest) = Some (e, rest) ->
  parts (S n) b (CRLF ++ e ++ dash_boundary b ++ rest)
  = match parts n b rest with
    | Some ps => Some (p :: ps)
    | None => None
    end.
Proof.
  intros He Hcut.
  change (parts (S n) b (CRLF ++ e ++ dash_boundary b ++ rest))
    with (match cut (dash_boundary b) (e ++ dash_boundary b ++ rest) with
          | Some (e, rest) =>
              match entity e, parts n b rest with
              | Some p, Some ps => Some (p :: ps)
              | _, _ => None
              end
          | None => None
          end).
  rewrite Hcut, He. reflexivity.
Qed.

Lemma boundary_line_length :
  String.length (dash_boundary boundary) = 32%nat.
Proof. reflexivity. Qed.

(** A body framed by [multipartBody], with metadata that is an object, a
    content type on one line and a content in which no line starts with the
    boundary marker, reads back as its two parts. *)
Lemma read_multipartBody props mimeType content :
  single_line mimeType = true ->
  boundary_free content = true ->
  read boundary (multipartBody (JObj props) mimeType content)
  = Some [(json_part_header, JSON_stringify (JObj props));
          (content_part_header mimeType, content)].
Proof.
  intros Hm Hc.
  assert (Hjson : exists js, JSON_stringify (JObj props) = String "{"%char js
                             /\ without CR js = true).
  { pose proof (stringify_without_CR (JObj props)) as H.
    unfold JSON_stringify. rewrite stringify_object in *.
    eexists. split; [reflexivity|]. exact H. }
  destruct Hjson as (js & Hjs & Hfree).
  assert (Hh2 : without CR (content_part_header mimeType) = true).
  { unfold content_part_header. rewrite without_append.
    destruct mimeType as [[|c m]|]; try reflexivity. exact Hm. }
  assert (Hshape :
    multipartBody (JObj props) mimeType content
    = dash_boundary boundary
      ++ CRLF ++ (json_part_header ++ CRLF ++ CRLF ++ String "{"%char js)
      ++ dash_boundary boundary
      ++ CRLF ++ (content_part_header mimeType ++ CRLF ++ CRLF ++ content)
      ++ dash_boundary boundary ++ "--").
  { unfold multipartBody. rewrite Hjs.
    unfold content_part_header, json_part_header.
    rewrite !append_assoc. reflexivity. }
  unfold read. rewrite Hshape at 1. rewrite cut_here.
  assert (Hfuel : exists n, String.length (multipartBody (JObj props) mimeType content)
                            = S (S (S n))).
  { rewrite Hshape, !length_append, boundary_line_length.
    eexists. simpl. reflexivity. }
  destruct Hfuel as (n & ->).
  rewrite (parts_part (S (S n)) boundary _ _
             (json_part_header, String "{"%char js)).
  - rewrite (parts_part (S n) boundary _ _ (content_part_header mimeType, content)).
    + rewrite Hjs. reflexivity.
    + apply entity_read; [exact Hh2|reflexivity].
    + rewrite !append_assoc. apply part_cut_content; assumption.
  - apply entity_read; reflexivity.
  - rewrite !append_assoc. apply part_cut_json; [reflexivity|exact Hfree].
Qed.

End Framing.

(* ------------------------------------------------------------------------- *)
(** ** Uploads with inline content *)

Section Upload.

Variable JSON_parse : string -> option json.
Variable remote : list HttpRequest -> HttpRequest -> fetched.
Variable credentials : TenantCredentials.

Lemma strings_number_free l : forallb number_free (map JStr l) = true.
Proof. induction l; simpl; auto. Qed.

Lemma strings_distinct_keys l : forallb distinct_keys (map JStr l) = true.
Proof. induction l; simpl; auto. Qed.

(** The metadata of [createFile]: [name] always, [mimeType] and
    [description] when they are non-empty, [parents] when it is given, in
    that order and nothing else. *)
Lemma createFile_metadata_keys params :
  createFile_metadata params
  = js_obj [("name", Some (JStr (CreateFile.name params)));
            ("mimeType",
             if truthy_str (CreateFile.mimeType params)
             then str (CreateFile.mimeType params) else None);
            ("parents", strings (CreateFile.parents params));
            ("description",
             if truthy_str (CreateFile.description params)
             then str (CreateFile.description params) else None)].
Proof.
  unfold createFile_metadata, assign_if. destruct params as [n m ps d c]. simpl.
  destruct m as [[|? ?]|], ps as [ps|], d as [[|? ?]|]; reflexivity.
Qed.

Lemma createFile_metadata_plain params :
  plain (createFile_metadata params) = true.
Proof.
  rewrite createFile_metadata_keys. destruct params as [n m ps d c]. simpl.
  unfold plain.
  destruct m as [[|? ?]|], ps as [ps|], d as [[|? ?]|]; simpl;
    rewrite ?strings_number_free, ?strings_distinct_keys; reflexivity.
Qed.

(** C4, as the code has it.  [createFile] with non-empty inline content,
    a content type on one line and a content in which no line starts with
    the boundary marker: the one call it makes carries a multipart body
    that reads back as two parts; the first, parsed, is exactly the metadata
    object ([name], then [mimeType] when non-empty, [parents] when given,
    [description] when non-empty, and no other key); the second is the
    content, byte for byte. *)
Theorem createFile_multipart_round_trip params content log :
  has_token credentials ->
  CreateFile.content params = Some content -> nonempty content = true ->
  single_line (CreateFile.mimeType params) = true ->
  boundary_free content = true ->
  exists call body json_text,
    snd (createFile JSON_parse remote credentials params log)
    = (log ++ [call])%list
    /\ http_method call = Some "POST"
    /\ lookup "Content-Type" (http_headers call) = Some multipart_content_type
    /\ http_body call = Some body
    /\ Multipart.read boundary body
       = Some [(json_part_header, json_text);
               (content_part_header (CreateFile.mimeType params), content)]
    /\ Parse.parse json_text = Some (createFile_metadata params)
    /\ createFile_metadata params
       = js_obj [("name", Some (JStr (CreateFile.name params)));
                 ("mimeType",
                  if truthy_str (CreateFile.mimeType params)
                  then str (CreateFile.mimeType params) else None);
                 ("parents", strings (CreateFile.parents params));
                 ("description",
                  if truthy_str (CreateFile.description params)
                  then str (CreateFile.description params) else None)].
Proof.
  intros Htok Hcontent Hne Hline Hfree.
  unfold createFile. cbv zeta. rewrite Hcontent.
  change (truthy_str (Some content)) with (nonempty content). rewrite Hne.
  rewrite (request_logs JSON_parse remote credentials _ _ _ log Htok).
  eexists. eexists. exists (JSON_stringify (createFile_metadata params)).
  split; [reflexivity|]. split; [reflexivity|]. split; [reflexivity|].
  split; [reflexivity|]. split; [|split].
  - simpl the. unfold createFile_metadata at 1.
    rewrite (read_multipartBody _ _ _ Hline Hfree). reflexivity.
  - apply parse_stringify. apply createFile_metadata_plain.
  - apply createFile_metadata_keys.
Qed.

End Upload.

(* ------------------------------------------------------------------------- *)
(** ** Runs of the model *)

Section Runs.

(** C2 at a tenant whose token is the empty string: the pipeline, and the
    deletion of a file. *)
Lemma missing_token_witness :
  no_token tenant_without_token
  /\ request Parse.parse page_network tenant_without_token "/about?fields=*"
       no_options false []
     = (Throw (AuthenticationError
                 "No credentials provided. Include X-Google-Access-Token header."),
        [])
  /\ perform Parse.parse page_network no_message tenant_without_token
       (deleteFile_ "f1") []
     = (Throw (AuthenticationError
                 "No credentials provided. Include X-Google-Access-Token header."),
        []).
Proof.
  assert (H : no_token tenant_without_token) by (right; reflexivity).
  destruct (missing_token_fails_before_fetch Parse.parse page_network no_message
              tenant_without_token no_rendering no_percentage H)
    as (Hrequest & Hperform & _).
  split; [exact H|]. split; [apply Hrequest|].
  exact (Hperform unit (deleteFile_ "f1") []).
Defined.

(** C6 at a DELETE answered with 401. *)
Lemma status_401_witness :
  request Parse.parse (answering (json_response 401 sample_error_text)) tenant
    "/files/f1?supportsAllDrives=true" DELETE false []
  = (Throw (AuthenticationError
              "Authentication failed. Check your OAuth access token."),
     [outbound tenant "/files/f1?supportsAllDrives=true" DELETE false]).
Proof.
  destruct (status_401_is_authentication_error Parse.parse
              (answering (json_response 401 sample_error_text)) no_message tenant
              eq_refl) as (Hrequest & _).
  exact (Hrequest "/files/f1?supportsAllDrives=true" DELETE false []
           (json_response 401 sample_error_text) eq_refl eq_refl).
Defined.

Example deleteFile_answered_401 :
  fst (perform Parse.parse (answering (json_response 401 sample_error_text))
         no_message tenant (deleteFile_ "f1") [])
  = Throw (AuthenticationError
             "Authentication failed. Check your OAuth access token.").
Proof. vm_compute. reflexivity. Qed.

Example testConnection_answered_401 :
  fst (perform Parse.parse (answering (json_response 401 sample_error_text))
         no_message tenant testConnection_ [])
  = Ok {| connected := false; connection_message := EmptyString |}.
Proof. vm_compute. reflexivity. Qed.

(** C7 at a 200 with a JSON body. *)
Lemma success_shape_witness :
  fst (request Parse.parse page_network tenant "/files" no_options false [])
  = match Parse.parse sample_page_text with
    | Some payload => Ok (Some payload)
    | None => Throw SyntaxError
    end.
Proof.
  destruct (success_is_shaped_by_status_and_content_type Parse.parse page_network
              tenant "/files" no_options false []
              (json_response 200 sample_page_text) eq_refl eq_refl eq_refl)
    as (_ & H & _).
  apply H; [discriminate | reflexivity].
Defined.

Example export_is_returned_as_text :
  fst (request Parse.parse (answering (text_response 200 "a,b,c")) tenant
         "/files/f1/export?mimeType=text%2Fcsv" no_options false [])
  = Ok (Some (JStr "a,b,c")).
Proof. vm_compute. reflexivity. Qed.

Example no_content_is_undefined :
  fst (request Parse.parse (answering (json_response 204 EmptyString)) tenant
         "/files/f1?supportsAllDrives=true" DELETE false [])
  = Ok undefined.
Proof. vm_compute. reflexivity. Qed.

(** C8 at a 500 whose body carries [error.message]. *)
Lemma api_error_witness :
  request Parse.parse (answering (json_response 500 sample_error_text)) tenant
    "/files" no_options false []
  = (Throw (GoogleDriveApiError
              (best_effort_message (Parse.parse sample_error_text) 500) 500),
     [outbound tenant "/files" no_options false]).
Proof.
  destruct (other_status_is_api_error Parse.parse
              (answering (json_response 500 sample_error_text)) no_message tenant
              eq_refl) as (Hrequest & _).
  apply (Hrequest "/files" no_options false []
           (json_response 500 sample_error_text) eq_refl eq_refl);
    discriminate.
Defined.

Example api_error_message_read :
  best_effort_message (Parse.parse sample_error_text) 500 = JStr "Backend Error".
Proof. vm_compute. reflexivity. Qed.

Example api_error_message_default :
  best_effort_message (Parse.parse "<html>Bad Gateway</html>") 502
  = JStr "API error: 502".
Proof. vm_compute. reflexivity. Qed.

(** C1, amended, at a page that carries a token. *)
Lemma listing_pagination_witness :
  exists call page,
    run_listing Parse.parse page_network tenant (files_listing ListFiles.none) []
    = (Ok page, [call])
    /\ nextPageToken page = Some (JStr "page-2")
    /\ hasMore page = true.
Proof.
  destruct (listing_pagination Parse.parse page_network tenant
              (files_listing ListFiles.none) []
              (json_response 200 sample_page_text)
              (JObj [("files", JArr [JObj [("id", JStr "f1")]]);
                     ("nextPageToken", JStr "page-2")])
              eq_refl (fun _ => eq_refl) eq_refl
              ltac:(discriminate) ltac:(vm_compute; reflexivity)
              ltac:(discriminate))
    as (call & page & Hrun & Htoken & _ & Hmore & _).
  exists call, page. split; [exact Hrun|]. split; [exact Htoken|].
  apply (Hmore "page-2" eq_refl). discriminate.
Defined.

(** C1 as stated fails: a payload that carries the empty string as its
    token gives a page with [hasMore = false] whose [nextPageToken] is not
    absent. *)
Lemma empty_token_is_forwarded_without_more :
  exists page,
    fst (listFiles Parse.parse (answering (json_response 200 empty_token_page_text))
           tenant ListFiles.none [])
    = Ok page
    /\ payload Parse.parse (json_response 200 empty_token_page_text)
       = Some (JObj [("files", JArr []); ("nextPageToken", JStr EmptyString)])
    /\ hasMore page = false
    /\ nextPageToken page = Some (JStr EmptyString)
    /\ nextPageToken page <> None.
Proof.
  eexists. split; [vm_compute; reflexivity|].
  split; [vm_compute; reflexivity|].
  split; [reflexivity|]. split; [reflexivity|]. discriminate.
Qed.

(** C3: a throttled call whose [Retry-After] is a date, as HTTP allows, gets
    [NaN] for its retry-after value, not the default. *)
Theorem retry_after_http_date_is_NaN :
  fst (request Parse.parse
         (answering (throttled [("Retry-After", "Wed, 21 Oct 2015 07:28:00 GMT")]))
         tenant "/files" no_options false [])
  = Throw (RateLimitError "Rate limit exceeded" NaN).
Proof. vm_compute. reflexivity. Qed.

Example retry_after_seconds_are_parsed :
  fst (request Parse.parse (answering (throttled [("retry-after", "120")]))
         tenant "/files" no_options false [])
  = Throw (RateLimitError "Rate limit exceeded" (Finite 120)).
Proof. vm_compute. reflexivity. Qed.

Example retry_after_absent_is_sixty :
  fst (request Parse.parse (answering (throttled []))
         tenant "/files" no_options false [])
  = Throw (RateLimitError "Rate limit exceeded" (Finite 60)).
Proof. vm_compute. reflexivity. Qed.

(** C4, amended, at a small text file. *)
Lemma multipart_round_trip_witness :
  exists call body json_text,
    snd (createFile Parse.parse file_network tenant sample_upload [])
    = [call]
    /\ http_body call = Some body
    /\ Multipart.read boundary body
       = Some [(json_part_header, json_text);
               (content_part_header (Some "text/plain"), "first line")]
    /\ Parse.parse json_text = Some (createFile_metadata sample_upload).
Proof.
  destruct (createFile_multipart_round_trip Parse.parse file_network tenant
              sample_upload "first line" []
              eq_refl eq_refl eq_refl eq_refl eq_refl)
    as (call & body & json_text & Hlog & _ & _ & Hbody & Hread & Hparse & _).
  exists call, body, json_text. auto.
Defined.

(** C4 as stated fails: a content with a line that starts with the boundary
    marker is cut short when the body is read back. *)
Lemma colliding_content_is_cut_short :
  CreateFile.content colliding_upload = Some colliding_content
  /\ nonempty colliding_content = true
  /\ exists body,
       first_body (snd (createFile Parse.parse file_network tenant
                          colliding_upload []))
       = Some body
       /\ Multipart.read boundary body
          = Some [(json_part_header,
                   JSON_stringify (createFile_metadata colliding_upload));
                  (content_part_header None, "x")]
       /\ "x" <> colliding_content.
Proof.
  split; [reflexivity|]. split; [reflexivity|].
  eexists. split; [vm_compute; reflexivity|].
  split; [vm_compute; reflexivity|]. discriminate.
Qed.

(** A content type with an empty line in it moves the start of the content
    part. *)
Example broken_content_type_shifts_the_content :
  Multipart.read boundary
    (multipartBody (JObj [("name", JStr "a")])
       (Some ("text/plain" ++ CRLF ++ CRLF ++ "x")) "y")
  = Some [(json_part_header, JSON_stringify (JObj [("name", JStr "a")]));
          ("Content-Type: text/plain", "x" ++ CRLF ++ CRLF ++ "y")].
Proof. vm_compute. reflexivity. Qed.

(** C5 as stated fails: moving a file takes two calls, a read and then an
    update. *)
Lemma move_file_makes_two_calls :
  map http_method
    (snd (handler Parse.parse file_network no_message tenant no_rendering
            no_percentage (googledrive_move_file "f1" "p2" true) []))
  = [None; Some "PATCH"].
Proof. vm_compute. reflexivity. Qed.

Example move_file_stops_after_a_failed_read :
  map http_method
    (snd (handler Parse.parse (answering (json_response 404 sample_error_text))
            no_message tenant no_rendering no_percentage
            (googledrive_move_file "f1" "p2" true) []))
  = [None].
Proof. vm_compute. reflexivity. Qed.

(** C10 at a tenant with an override. *)
Lemma override_witness :
  (forall endpoint options up log,
     exists c,
       snd (request Parse.parse file_network tenant_with_override endpoint
              options up log)
       = (log ++ [c])%list
       /\ url c = (if up then UPLOAD_BASE_URL else "https://drive.example.test/v3")
                  ++ endpoint)
  /\ exists c endpoint,
       snd (createFile Parse.parse file_network tenant_with_override
              sample_upload [])
       = [c]
       /\ url c = UPLOAD_BASE_URL ++ endpoint.
Proof.
  destruct (override_applies_to_metadata_calls_only Parse.parse file_network
              no_message tenant_with_override no_rendering no_percentage
              "https://drive.example.test/v3" eq_refl eq_refl eq_refl)
    as (Hrequest & Hcreate & _ & _ & _).
  split; [exact Hrequest|].
  exact (Hcreate sample_upload [] eq_refl).
Defined.

End Runs.

(* ------------------------------------------------------------------------- *)
(** ** The calls of the client, one by one *)

Section Calls.

Variable JSON_parse : string -> option json.
Variable remote : list HttpRequest -> HttpRequest -> fetched.
Variable message_of : error -> string.
Variable credentials : TenantCredentials.

Ltac open_client :=
  cbv beta iota zeta delta
    [perform carries_content surfaces
     testConnection getAbout listFiles getFile createFile updateFile copyFile
     deleteFile emptyTrash exportFile downloadFile generateIds listLabels
     modifyLabels watchFile createFolder listFolderContents listPermissions
     getPermission createPermission updatePermission deletePermission
     listComments getComment createComment updateComment deleteComment
     listReplies getReply createReply updateReply deleteReply listRevisions
     getRevision updateRevision deleteRevision listDrives getDrive createDrive
     updateDrive deleteDrive hideDrive unhideDrive getStartPageToken
     listChanges watchChanges stopChannel listApps getApp listAccessProposals
     getAccessProposal resolveAccessProposal getOperation
     CreateFile.content UpdateFile.content truthy_str].

(** The anatomy of an operation: one [request], whose options carry the
    multipart content type exactly when the operation carries inline content,
    a method that is absent or one of three, and a body only under POST and
    PATCH. *)
Lemma perform_anatomy A (op : operation A) log :
  exists endpoint options,
    snd (perform JSON_parse remote message_of credentials op log)
    = snd (request JSON_parse remote credentials endpoint options
             (carries_content op) log)
    /\ (forall e,
          fst (request JSON_parse remote credentials endpoint options
                 (carries_content op) log) = Throw e ->
          fst (perform JSON_parse remote message_of credentials op log)
          = surfaces message_of op e)
    /\ headers options
       = (if carries_content op
          then Some [("Content-Type", multipart_content_type)] else None)
    /\ (method options = None \/ method options = Some "POST"
        \/ method options = Some "PATCH" \/ method options = Some "DELETE")
    /\ (defined (body options) = true ->
        method options = Some "POST" \/ method options = Some "PATCH").
Proof.
  destruct op; open_client;
    try match goal with
        | |- context [if ?b then _ else _] => destruct b
        end;
    unfold try_catch, bind;
    match goal with
    | |- context [request ?a ?b ?c ?e ?o ?u log] =>
        exists e, o; destruct (request a b c e o u log) as [[v|e0] l]
    end; simpl;
    (split; [|split; [intros e1 He; try discriminate He; try congruence|]]);
    try reflexivity;
    try apply paginated_silent;
    try match goal with
        | |- context [get ?v ?k] =>
            destruct (get v k); try reflexivity;
            match goal with
            | |- context [to_string ?w] => destruct (to_string w); reflexivity
            end
        end;
    (split; [reflexivity|]);
    (split; [tauto|]); intros Hb; try discriminate Hb; tauto.
Qed.

Lemma forbidden_message_denied text :
  forbidden_message JSON_parse text = denied_message (JSON_parse text).
Proof.
  unfold forbidden_message, denied_message.
  destruct (JSON_parse text) as [j|]; [|reflexivity].
  destruct j as [| b | z | x | l | props]; try reflexivity.
  simpl. destruct (lookup "error" props) as [e|]; simpl; [|reflexivity].
  destruct e as [| b | z | x | l | eprops]; simpl; try reflexivity.
  destruct (lookup "message" eprops) as [m|]; simpl; [|reflexivity].
  destruct (truthy_json m); reflexivity.
Qed.

(** A [fetch] that fails: [request] lets the failure through, the call made. *)
Lemma request_unanswered endpoint options up log what :
  has_token credentials ->
  remote log (outbound credentials endpoint options up) = NetworkFailure what ->
  request JSON_parse remote credentials endpoint options up log
  = (Throw (TypeError what),
     (log ++ [outbound credentials endpoint options up])%list).
Proof.
  intros Htok Hr.
  rewrite (request_unfold JSON_parse remote credentials _ _ _ _ Htok).
  unfold bind, fetch. rewrite Hr. reflexivity.
Qed.

(** With a token: the one call of an operation, and what the operation makes
    of an error or of a silence of the network. *)
Lemma perform_one_call A (op : operation A) log :
  has_token credentials ->
  exists endpoint options,
    snd (perform JSON_parse remote message_of credentials op log)
    = (log ++ [outbound credentials endpoint options (carries_content op)])%list
    /\ (forall r e,
          remote log (outbound credentials endpoint options (carries_content op))
          = Responded r ->
          interpret JSON_parse endpoint r = Throw e ->
          fst (perform JSON_parse remote message_of credentials op log)
          = surfaces message_of op e)
    /\ (forall what,
          remote log (outbound credentials endpoint options (carries_content op))
          = NetworkFailure what ->
          fst (perform JSON_parse remote message_of credentials op log)
          = surfaces message_of op (TypeError what))
    /\ headers options
       = (if carries_content op
          then Some [("Content-Type", multipart_content_type)] else None)
    /\ (method options = None \/ method options = Some "POST"
        \/ method options = Some "PATCH" \/ method options = Some "DELETE")
    /\ (defined (body options) = true ->
        method options = Some "POST" \/ method options = Some "PATCH").
Proof.
  intros Htok.
  destruct (perform_anatomy A op log)
    as (endpoint & options & Hs & Hf & Hh & Hm & Hb).
  exists endpoint, options.
  split; [rewrite Hs; apply request_logs; exact Htok|].
  split; [|split; [|split; [exact Hh|split; [exact Hm|exact Hb]]]].
  - intros r e Hr He. apply Hf.
    rewrite (request_responded JSON_parse remote credentials _ _ _ _ _ Htok Hr).
    exact He.
  - intros what Hr. apply Hf.
    rewrite (request_unanswered _ _ _ _ _ Htok Hr). reflexivity.
Qed.

(** X1.  A response with status 403: [request] throws a ForbiddenError whose
    message is the body's [error.message] when the body is JSON and that
    field is truthy, and [Access denied] otherwise, whatever the body; every
    operation of the client whose call is answered that way ends in this
    error ([testConnection] reporting it). *)
Theorem status_403_is_forbidden :
  has_token credentials ->
  (forall endpoint options up log r,
     remote log (outbound credentials endpoint options up) = Responded r ->
     status r = 403 ->
     request JSON_parse remote credentials endpoint options up log
     = (Throw (ForbiddenError (denied_message (JSON_parse (response_body r)))),
        (log ++ [outbound credentials endpoint options up])%list))
  /\ (forall A (op : operation A) log,
        exists call,
          snd (perform JSON_parse remote message_of credentials op log)
          = (log ++ [call])%list
          /\ forall r,
               remote log call = Responded r ->
               status r = 403 ->
               fst (perform JSON_parse remote message_of credentials op log)
               = surfaces message_of op
                   (ForbiddenError
                      (denied_message (JSON_parse (response_body r))))).
Proof.
  intros Htok. split.
  - intros endpoint options up log r Hr Hst.
    rewrite (request_responded JSON_parse remote credentials _ _ _ _ _ Htok Hr).
    unfold interpret. rewrite Hst. simpl.
    rewrite forbidden_message_denied. reflexivity.
  - intros A op log.
    destruct (perform_one_call A op log Htok)
      as (endpoint & options & Hs & Hf & _).
    eexists. split; [exact Hs|].
    intros r Hr Hst. apply (Hf r _ Hr).
    unfold interpret. rewrite Hst. simpl.
    rewrite forbidden_message_denied. reflexivity.
Qed.

(** X2.  A response with status 404: the NotFoundError names the endpoint of
    the call, which is its URL without the base, query string included; for
    [request] and for every operation of the client. *)
Theorem status_404_names_the_endpoint :
  has_token credentials ->
  (forall endpoint options up log r,
     remote log (outbound credentials endpoint options up) = Responded r ->
     status r = 404 ->
     request JSON_parse remote credentials endpoint options up log
     = (Throw (NotFoundError "Resource" endpoint),
        (log ++ [outbound credentials endpoint options up])%list))
  /\ (forall A (op : operation A) log,
        exists call endpoint,
          snd (perform JSON_parse remote message_of credentials op log)
          = (log ++ [call])%list
          /\ url call = base_of credentials (carries_content op) ++ endpoint
          /\ forall r,
               remote log call = Responded r ->
               status r = 404 ->
               fst (perform JSON_parse remote message_of credentials op log)
               = surfaces message_of op (NotFoundError "Resource" endpoint)).
Proof.
  intros Htok. split.
  - intros endpoint options up log r Hr Hst.
    rewrite (request_responded JSON_parse remote credentials _ _ _ _ _ Htok Hr).
    unfold interpret. rewrite Hst. reflexivity.
  - intros A op log.
    destruct (perform_one_call A op log Htok)
      as (endpoint & options & Hs & Hf & _).
    eexists. exists endpoint. split; [exact Hs|]. split.
    + unfold base_of. destruct (carries_content op); reflexivity.
    + intros r Hr Hst. apply (Hf r _ Hr).
      unfold interpret. rewrite Hst. reflexivity.
Qed.

(** X3.  With a token, an operation of the client makes exactly one call,
    whatever the network does with it: nothing is tried again after an error
    status and nothing after a [fetch] that fails, whose error the operation
    lets through as it is ([testConnection] reporting it). *)
Theorem one_call_and_no_retry A (op : operation A) log :
  has_token credentials ->
  exists call,
    snd (perform JSON_parse remote message_of credentials op log)
    = (log ++ [call])%list
    /\ via credentials (carries_content op) call
    /\ forall what,
         remote log call = NetworkFailure what ->
         fst (perform JSON_parse remote message_of credentials op log)
         = surfaces message_of op (TypeError what).
Proof.
  intros Htok.
  destruct (perform_one_call A op log Htok)
    as (endpoint & options & Hs & _ & Hn & _).
  eexists. split; [exact Hs|]. split; [|exact Hn].
  exists endpoint, options. reflexivity.
Qed.

(** X4.  With a token, the call of an operation carries exactly two headers:
    [Authorization], the token as a bearer, and [Content-Type], which is
    [application/json] unless the operation carries inline content, when it
    is the multipart type with the fixed boundary. *)
Theorem every_call_carries_the_token A (op : operation A) log :
  has_token credentials ->
  exists call,
    snd (perform JSON_parse remote message_of credentials op log)
    = (log ++ [call])%list
    /\ http_headers call
       = call_headers (the (accessToken credentials)) (carries_content op).
Proof.
  intros Htok.
  destruct (perform_one_call A op log Htok)
    as (endpoint & options & Hs & _ & _ & Hh & _).
  eexists. split; [exact Hs|].
  unfold outbound, fetch_arguments. simpl. rewrite Hh.
  destruct (carries_content op); reflexivity.
Qed.

(** X5.  A client without a base-URL override, an empty string counting
    as none: the call of an operation goes to the upload URL when the
    operation carries inline content and to the default API URL otherwise. *)
Theorem without_override_calls_go_to_the_default_base A (op : operation A) log :
  has_token credentials ->
  truthy_str (baseUrl credentials) = false ->
  exists call endpoint,
    snd (perform JSON_parse remote message_of credentials op log)
    = (log ++ [call])%list
    /\ url call
       = (if carries_content op then UPLOAD_BASE_URL else API_BASE_URL)
         ++ endpoint.
Proof.
  intros Htok Hb.
  destruct (perform_one_call A op log Htok)
    as (endpoint & options & Hs & _).
  eexists. exists endpoint. split; [exact Hs|].
  unfold outbound, fetch_arguments, this_uploadUrl, this_baseUrl. simpl.
  destruct (carries_content op); [reflexivity|].
  destruct (baseUrl credentials) as [[|c b]|]; try discriminate Hb; reflexivity.
Qed.

(** X6.  The method of a call is left out (a GET) or is POST, PATCH or
    DELETE, and a body is sent only under POST and PATCH: no operation sends
    one with a GET or a DELETE. *)
Theorem bodies_only_under_post_and_patch A (op : operation A) log :
  has_token credentials ->
  exists call,
    snd (perform JSON_parse remote message_of credentials op log)
    = (log ++ [call])%list
    /\ (http_method call = None \/ http_method call = Some "POST"
        \/ http_method call = Some "PATCH" \/ http_method call = Some "DELETE")
    /\ (defined (http_body call) = true ->
        http_method call = Some "POST" \/ http_method call = Some "PATCH").
Proof.
  intros Htok.
  destruct (perform_one_call A op log Htok)
    as (endpoint & options & Hs & _ & _ & _ & Hm & Hb).
  eexists. split; [exact Hs|]. split; [exact Hm|exact Hb].
Qed.

End Calls.

(* ------------------------------------------------------------------------- *)
(** ** What the operations make of a response *)

Section Answers.

Variable JSON_parse : string -> option json.
Variable remote : list HttpRequest -> HttpRequest -> fetched.
Variable message_of : error -> string.
Variable credentials : TenantCredentials.

(** The responses the pipeline turns into a payload. *)
Lemma interpret_payload endpoint r v :
  interpret JSON_parse endpoint r = Ok (Some v)
  <-> ok r = true /\ status r <> 204 /\ payload JSON_parse r = Some v.
Proof.
  unfold interpret, payload. split.
  - destruct (status r =? 429); [discriminate|].
    destruct (status r =? 401); [discriminate|].
    destruct (status r =? 403); [discriminate|].
    destruct (status r =? 404); [discriminate|].
    destruct (ok r); simpl; [|discriminate].
    destruct (Z.eqb_spec (status r) 204); [discriminate|].
    destruct (json_content r).
    + destruct (JSON_parse (response_body r)); [|discriminate].
      intros H. inversion H. auto.
    + intros H. inversion H. auto.
  - intros (Hok & H204 & Hv).
    pose proof (proj1 (ok_range r) Hok) as Hrange. rewrite Hok. simpl.
    destruct (Z.eqb_spec (status r) 429); [lia|].
    destruct (Z.eqb_spec (status r) 401); [lia|].
    destruct (Z.eqb_spec (status r) 403); [lia|].
    destruct (Z.eqb_spec (status r) 404); [lia|].
    destruct (Z.eqb_spec (status r) 204); [contradiction|].
    destruct (json_content r); rewrite Hv; reflexivity.
Qed.

(** The responses the pipeline turns into [undefined]. *)
Lemma interpret_undefined endpoint r :
  interpret JSON_parse endpoint r = Ok undefined <-> status r = 204.
Proof.
  unfold interpret. split.
  - destruct (status r =? 429); [discriminate|].
    destruct (status r =? 401); [discriminate|].
    destruct (status r =? 403); [discriminate|].
    destruct (status r =? 404); [discriminate|].
    destruct (ok r); simpl; [|discriminate].
    destruct (Z.eqb_spec (status r) 204); [auto|].
    destruct (json_content r); [|discriminate].
    destruct (JSON_parse (response_body r)); discriminate.
  - intros H. unfold ok. rewrite H. reflexivity.
Qed.

End Answers.

(* ------------------------------------------------------------------------- *)
(** ** Errors at the tool surface *)

Section Boundary.

Variable JSON_parse : string -> option json.
Variable remote : list HttpRequest -> HttpRequest -> fetched.
Variable message_of : error -> string.
Variable credentials : TenantCredentials.
Variable formatBytes : value -> string.
Variable percentage : value -> value -> string.

Ltac open_tools :=
  cbv beta iota zeta delta
    [handler handle uploads formatResponse success at_the_boundary
     testConnection getAbout listFiles getFile createFile updateFile copyFile
     deleteFile emptyTrash exportFile downloadFile generateIds listLabels
     modifyLabels watchFile createFolder listFolderContents listPermissions
     getPermission createPermission updatePermission deletePermission
     listComments getComment createComment updateComment deleteComment
     listReplies getReply createReply updateReply deleteReply listRevisions
     getRevision updateRevision deleteRevision listDrives getDrive createDrive
     updateDrive deleteDrive hideDrive unhideDrive getStartPageToken
     listChanges watchChanges stopChannel listApps getApp listAccessProposals
     getAccessProposal resolveAccessProposal getOperation
     CreateFile.content UpdateFile.content truthy_str].

(** The first thing a tool does is one [request]; when that throws, the
    tool stops there and returns the error at its boundary. *)
Lemma handler_anatomy t log :
  exists endpoint options,
    forall e calls,
      request JSON_parse remote credentials endpoint options (uploads t) log
      = (Throw e, calls) ->
      handler JSON_parse remote message_of credentials formatBytes percentage t log
      = (Ok (at_the_boundary message_of t e), calls).
Proof.
  destruct t; open_tools;
    try match goal with
        | |- context [if ?b then _ else _] => destruct b
        end;
    unfold try_catch, bind;
    match goal with
    | |- context [request ?a ?b ?c ?e ?o ?u log] =>
        exists e, o; intros e1 calls He; rewrite He; reflexivity
    end.
Qed.

(** X7.  No error leaves a tool: whatever the credentials and whatever the
    network does, a tool invocation returns a response.  And the response of
    [googledrive_test_connection] is never the one of its [catch] branch:
    [testConnection] has caught everything before. *)
Theorem tools_never_throw t log :
  exists response,
    fst (handler JSON_parse remote message_of credentials formatBytes percentage
           t log) = Ok response
    /\ forall e, response <> connection_failed e.
Proof.
  destruct t; open_tools; unfold try_catch, bind, lift, ret;
    repeat first
      [ progress cbv beta iota
      | match goal with
        | |- context [request ?a ?b ?c ?e ?o ?u ?l] =>
            destruct (request a b c e o u l) as [[?|?] ?]
        | |- context [paginated ?k ?v ?l] =>
            destruct (paginated k v l) as [[?|?] ?]
        | |- context [get ?v ?k] => destruct (get v k)
        | |- context [join_opt ?v] => destruct (join_opt v)
        | |- context [to_string ?w] => destruct (to_string w)
        | |- context [if ?b then _ else _] => destruct b
        end ];
    eexists; (split; [reflexivity|discriminate]).
Qed.

(** X8.  With a token, the first call of a tool decides: when the pipeline
    makes an error of its response, or when the network does not answer, the
    tool makes no other call and returns that error formatted
    ([googledrive_test_connection] returns the report of it). *)
Theorem tool_errors_are_formatted t log :
  has_token credentials ->
  exists endpoint options,
    (forall r e,
       remote log (outbound credentials endpoint options (uploads t))
       = Responded r ->
       interpret JSON_parse endpoint r = Throw e ->
       handler JSON_parse remote message_of credentials formatBytes percentage
         t log
       = (Ok (at_the_boundary message_of t e),
          (log ++ [outbound credentials endpoint options (uploads t)])%list))
    /\ (forall what,
          remote log (outbound credentials endpoint options (uploads t))
          = NetworkFailure what ->
          handler JSON_parse remote message_of credentials formatBytes
            percentage t log
          = (Ok (at_the_boundary message_of t (TypeError what)),
             (log ++ [outbound credentials endpoint options (uploads t)])%list)).
Proof.
  intros Htok.
  destruct (handler_anatomy t log) as (endpoint & options & H).
  exists endpoint, options. split.
  - intros r e Hr He. apply H.
    rewrite (request_responded JSON_parse remote credentials _ _ _ _ _ Htok Hr).
    rewrite He. reflexivity.
  - intros what Hr. apply H.
    apply (request_unanswered JSON_parse remote credentials _ _ _ _ _ Htok Hr).
Qed.

(** X9.  Without a token, every tool returns the AuthenticationError of the
    precondition check, formatted, and makes no call;
    [googledrive_test_connection] returns [connected = false] with that
    error's message. *)
Theorem missing_token_at_the_tool_surface t log :
  no_token credentials ->
  handler JSON_parse remote message_of credentials formatBytes percentage t log
  = (Ok (at_the_boundary message_of t
           (AuthenticationError
              "No credentials provided. Include X-Google-Access-Token header.")),
     log).
Proof.
  intros Hno.
  destruct (handler_anatomy t log) as (endpoint & options & H).
  apply H. apply request_without_token. apply no_token_falsy. exact Hno.
Qed.

End Boundary.

(* ------------------------------------------------------------------------- *)
(** ** Payloads: who reads them, and what of them *)

Section Payloads.

Variable JSON_parse : string -> option json.
Variable remote : list HttpRequest -> HttpRequest -> fetched.
Variable message_of : error -> string.
Variable credentials : TenantCredentials.
Variable formatBytes : value -> string.
Variable percentage : value -> value -> string.

Ltac open_readers :=
  cbv beta iota zeta delta
    [perform surfaces reads_payload
     testConnection getAbout listFiles getFile createFile updateFile copyFile
     deleteFile emptyTrash exportFile downloadFile generateIds listLabels
     modifyLabels watchFile createFolder listFolderContents listPermissions
     getPermission createPermission updatePermission deletePermission
     listComments getComment createComment updateComment deleteComment
     listReplies getReply createReply updateReply deleteReply listRevisions
     getRevision updateRevision deleteRevision listDrives getDrive createDrive
     updateDrive deleteDrive hideDrive unhideDrive getStartPageToken
     listChanges watchChanges stopChannel listApps getApp listAccessProposals
     getAccessProposal resolveAccessProposal getOperation
     CreateFile.content UpdateFile.content truthy_str].

(** One response to one call, turned into a payload. *)
Lemma request_answered endpoint options up log r v :
  has_token credentials ->
  remote log (outbound credentials endpoint options up) = Responded r ->
  ok r = true -> status r <> 204 ->
  payload JSON_parse r = Some v ->
  request JSON_parse remote credentials endpoint options up log
  = (Ok (Some v), (log ++ [outbound credentials endpoint options up])%list).
Proof.
  intros Htok Hr Hok H204 Hv.
  rewrite (request_responded JSON_parse remote credentials _ _ _ _ _ Htok Hr).
  rewrite (proj2 (interpret_payload JSON_parse endpoint r v)
             (conj Hok (conj H204 Hv))).
  reflexivity.
Qed.

(** A response without a payload the client can read: a 204, or a JSON
    [null]. *)
Lemma request_unreadable log r :
  has_token credentials ->
  (forall call, remote log call = Responded r) ->
  status r = 204
  \/ (ok r = true /\ status r <> 204 /\ payload JSON_parse r = Some JNull) ->
  exists v,
    readable v = false
    /\ forall endpoint options up,
         request JSON_parse remote credentials endpoint options up log
         = (Ok v, (log ++ [outbound credentials endpoint options up])%list).
Proof.
  intros Htok Hr [H204 | (Hok & H204 & Hv)].
  - exists undefined. split; [reflexivity|]. intros endpoint options up.
    rewrite (request_responded JSON_parse remote credentials _ _ _ _ _ Htok
               (Hr _)).
    rewrite (proj2 (interpret_undefined JSON_parse endpoint r) H204).
    reflexivity.
  - exists (Some JNull). split; [reflexivity|]. intros endpoint options up.
    exact (request_answered endpoint options up log r JNull Htok (Hr _) Hok
             H204 Hv).
Qed.

(** X10.  A response without a payload (status 204, or a JSON [null]): the
    operations that read a property of what they receive, the listings
    among them, end in a TypeError instead of an empty result
    ([testConnection] reporting it); every other operation succeeds. *)
Theorem readers_need_a_payload A (op : operation A) log r :
  has_token credentials ->
  (forall call, remote log call = Responded r) ->
  status r = 204
  \/ (ok r = true /\ status r <> 204 /\ payload JSON_parse r = Some JNull) ->
  (reads_payload op = true ->
   exists what,
     fst (perform JSON_parse remote message_of credentials op log)
     = surfaces message_of op (TypeError what))
  /\ (reads_payload op = false ->
      exists a,
        fst (perform JSON_parse remote message_of credentials op log) = Ok a).
Proof.
  intros Htok Hr Hcase.
  destruct (request_unreadable log r Htok Hr Hcase) as (v & Hv & Hreq).
  destruct op; open_readers; (split; intros Hrd; try discriminate Hrd);
    try match goal with
        | |- context [if ?b then _ else _] => destruct b
        end;
    unfold try_catch, bind, paginated, bind, lift, ret;
    rewrite Hreq;
    destruct v as [[| | | | |]|]; try discriminate Hv;
    eexists; reflexivity.
Qed.

Lemma ToString_array l :
  ToString (JArr l) = option_map (join ",") (element_texts l).
Proof.
  reflexivity.
Qed.

(** The values that convert are those [ToString] has a text for. *)
Lemma ToString_convertible :
  forall j,
    if convertible j then exists text, ToString j = Some text
    else ToString j = None.
Proof.
  fix IH 1. intros [| [] | z | x | l | props];
    try (eexists; reflexivity).
  - rewrite ToString_array. cbn [convertible].
    induction l as [|x l IHl]; [eexists; reflexivity|].
    cbn [forallb element_texts]. specialize (IH x).
    destruct (convertible x); cbn [andb].
    + destruct IH as (text & Hx).
      assert (Hhead : match x with
                      | JNull => Some EmptyString
                      | _ => ToString x
                      end <> None)
        by (destruct x; rewrite ?Hx; discriminate).
      destruct (forallb convertible l).
      * destruct IHl as (joined & Hl).
        destruct (element_texts l) as [texts|]; [|discriminate Hl].
        destruct (match x with
                  | JNull => Some EmptyString
                  | _ => ToString x
                  end) as [head|]; [|contradiction].
        eexists. reflexivity.
      * destruct (element_texts l) as [texts|]; [discriminate IHl|].
        destruct (match x with
                  | JNull => Some EmptyString
                  | _ => ToString x
                  end); reflexivity.
    + assert (Hhead : match x with
                      | JNull => Some EmptyString
                      | _ => ToString x
                      end = None)
        by (destruct x; try discriminate IH; exact IH).
      rewrite Hhead. reflexivity.
  - cbn [convertible ToString].
    destruct (lookup "toString" props); [reflexivity|eexists; reflexivity].
Qed.

Lemma testConnection_connected log r about name :
  has_token credentials ->
  remote log (outbound credentials about_user no_options false) = Responded r ->
  ok r = true -> status r <> 204 ->
  payload JSON_parse r = Some about -> about <> JNull ->
  ToString (greeted about) = Some name ->
  testConnection JSON_parse remote message_of credentials log
  = (Ok {| connected := true;
           connection_message := "Connected to Google Drive as " ++ name |},
     (log ++ [outbound credentials about_user no_options false])%list).
Proof.
  intros Htok Hr Hok H204 Hv Hnull Hname.
  unfold testConnection, getAbout, try_catch, bind.
  change ("/about?fields=" ++ encodeURIComponent "user") with about_user.
  rewrite (request_answered _ _ _ _ _ _ Htok Hr Hok H204 Hv).
  assert (Hget : get (Some about) "user" = Ok (prop about "user"))
    by (destruct about; try contradiction; reflexivity).
  unfold lift at 1. rewrite Hget. cbv zeta. unfold lift, to_string.
  fold (greeted about). rewrite Hname. reflexivity.
Qed.

Lemma testConnection_not_connected log :
  has_token credentials ->
  (forall r about,
     remote log (outbound credentials about_user no_options false) = Responded r ->
     ok r = true -> status r <> 204 ->
     payload JSON_parse r = Some about ->
     about = JNull \/ ToString (greeted about) = None) ->
  exists m,
    testConnection JSON_parse remote message_of credentials log
    = (Ok {| connected := false; connection_message := m |},
       (log ++ [outbound credentials about_user no_options false])%list).
Proof.
  intros Htok Hnone.
  unfold testConnection, getAbout, try_catch, bind.
  change ("/about?fields=" ++ encodeURIComponent "user") with about_user.
  destruct (remote log (outbound credentials about_user no_options false))
    as [r|what] eqn:Hr.
  - rewrite (request_responded JSON_parse remote credentials _ _ _ _ _ Htok Hr).
    destruct (interpret JSON_parse about_user r) as [[about|]|e] eqn:Hi.
    + apply interpret_payload in Hi. destruct Hi as (Hok & H204 & Hv).
      destruct (Hnone r about eq_refl Hok H204 Hv) as [-> | Hname].
      * eexists. reflexivity.
      * assert (Hget : get (Some about) "user" = Ok (prop about "user") \/
                       exists e, get (Some about) "user" = Throw e)
          by (destruct about; [right; eexists|left..]; reflexivity).
        destruct Hget as [Hget | (e & Hget)]; unfold lift at 1; rewrite Hget.
        -- cbv zeta. unfold lift, to_string. fold (greeted about).
           rewrite Hname. eexists. reflexivity.
        -- eexists. reflexivity.
    + eexists. reflexivity.
    + eexists. reflexivity.
  - rewrite (request_unanswered JSON_parse remote credentials _ _ _ _ _ Htok Hr).
    eexists. reflexivity.
Qed.

(** X11.  With a token, [testConnection] never throws and makes one call,
    the read of the user.  It reports [connected = true] exactly when that
    call is answered with a success that carries a payload other than
    [null] in which the name to greet converts to a string: the user's
    [displayName], else the [emailAddress], else [unknown user], the first
    that is truthy.  The message then greets that name. *)
Theorem testConnection_reports log :
  has_token credentials ->
  exists st,
    testConnection JSON_parse remote message_of credentials log
    = (Ok st, (log ++ [outbound credentials about_user no_options false])%list)
    /\ (connected st = true <->
        exists r about,
          remote log (outbound credentials about_user no_options false)
          = Responded r
          /\ ok r = true /\ status r <> 204
          /\ payload JSON_parse r = Some about /\ about <> JNull
          /\ convertible (greeted about) = true)
    /\ (forall r about name,
          remote log (outbound credentials about_user no_options false)
          = Responded r ->
          ok r = true -> status r <> 204 ->
          payload JSON_parse r = Some about -> about <> JNull ->
          ToString (greeted about) = Some name ->
          connection_message st = "Connected to Google Drive as " ++ name).
Proof.
  intros Htok.
  assert (Hcases :
    (exists r about name,
       remote log (outbound credentials about_user no_options false)
       = Responded r
       /\ ok r = true /\ status r <> 204
       /\ payload JSON_parse r = Some about /\ about <> JNull
       /\ ToString (greeted about) = Some name)
    \/ (forall r about,
          remote log (outbound credentials about_user no_options false)
          = Responded r ->
          ok r = true -> status r <> 204 ->
          payload JSON_parse r = Some about ->
          about = JNull \/ ToString (greeted about) = None)).
  { destruct (remote log (outbound credentials about_user no_options false))
      as [r|what]; [|right; discriminate].
    destruct (ok r) eqn:Hok;
      [|right; intros r' about' Hr'; inversion Hr'; subst; congruence].
    destruct (Z.eq_dec (status r) 204) as [H204|H204];
      [right; intros r' about' Hr'; inversion Hr'; subst; congruence|].
    destruct (payload JSON_parse r) as [about|] eqn:Hv;
      [|right; intros r' about' Hr'; inversion Hr'; subst; congruence].
    destruct (ToString (greeted about)) as [name|] eqn:Hname.
    - destruct about as [| b | z | x | l | props] eqn:Habout;
        [right; intros r' about' Hr' _ _ Hv'; inversion Hr'; subst;
         left; congruence|..];
        left; exists r; eexists; exists name;
        repeat split; try eassumption; try reflexivity; discriminate.
    - right. intros r' about' Hr' _ _ Hv'. inversion Hr'; subst.
      right. congruence. }
  destruct Hcases as [(r & about & name & Hr & Hok & H204 & Hv & Hnull & Hname)
                     | Hnone].
  - eexists.
    split; [exact (testConnection_connected log r about name Htok Hr Hok H204
                     Hv Hnull Hname)|].
    split.
    + split; [intros _|reflexivity].
      exists r, about. repeat split; try assumption.
      pose proof (ToString_convertible (greeted about)) as Hc.
      destruct (convertible (greeted about)); [reflexivity|congruence].
    + intros r' about' name' Hr' _ _ Hv' _ Hname'.
      rewrite Hr in Hr'. inversion Hr'; subst r'.
      rewrite Hv in Hv'. inversion Hv'; subst about'.
      rewrite Hname in Hname'. inversion Hname'. reflexivity.
  - destruct (testConnection_not_connected log Htok Hnone) as (m & Hm).
    eexists. split; [exact Hm|]. split.
    + split; [discriminate|].
      intros (r & about & Hr & Hok & H204 & Hv & Hnull & Hc).
      destruct (Hnone r about Hr Hok H204 Hv) as [-> | Hname];
        [contradiction|].
      pose proof (ToString_convertible (greeted about)) as Hconv.
      rewrite Hc in Hconv. destruct Hconv as (text & Htext). congruence.
    + intros r about name Hr Hok H204 Hv Hnull Hname.
      destruct (Hnone r about Hr Hok H204 Hv) as [-> | Hnot];
        [contradiction|congruence].
Qed.

(** X12.  The apps are listed flat: the tool returns the payload's [items]
    (the empty array when there is none) with [hasMore = false], and no page
    token, whatever else the payload carries. *)
Theorem apps_are_listed_flat appFilterExtensions appFilterMimeTypes languageCode
  log r v :
  has_token credentials ->
  (forall call, remote log call = Responded r) ->
  ok r = true -> status r <> 204 ->
  payload JSON_parse r = Some v -> v <> JNull ->
  exists call,
    handler JSON_parse remote message_of credentials formatBytes percentage
      (googledrive_list_apps appFilterExtensions appFilterMimeTypes languageCode)
      log
    = (Ok (json_text
             (Some (JObj [("items", or_json (prop v "items") (JArr []));
                          ("hasMore", JBool false)]))),
       (log ++ [call])%list).
Proof.
  intros Htok Hr Hok H204 Hv Hnull.
  unfold handler, handle, listApps, try_catch, bind. cbv zeta.
  rewrite (request_answered _ _ _ _ _ _ Htok (Hr _) Hok H204 Hv).
  destruct v; try contradiction; eexists; reflexivity.
Qed.

(** X13.  The report of [googledrive_list_changes]: the payload's [changes],
    [newStartPageToken] and [nextPageToken] as they are (an absent one stays
    absent, [changes] included); [hasMore] says whether [nextPageToken] is
    truthy, and the message whether [newStartPageToken] is. *)
Theorem list_changes_reports pageToken pageSize driveId includeRemoved
  restrictToMyDrive log r v :
  has_token credentials ->
  (forall call, remote log call = Responded r) ->
  ok r = true -> status r <> 204 ->
  payload JSON_parse r = Some v -> v <> JNull ->
  exists call fields,
    handler JSON_parse remote message_of credentials formatBytes percentage
      (googledrive_list_changes pageToken pageSize driveId includeRemoved
         restrictToMyDrive) log
    = (Ok (json_text (Some (JObj fields))), (log ++ [call])%list)
    /\ lookup "changes" fields = prop v "changes"
    /\ lookup "newStartPageToken" fields = prop v "newStartPageToken"
    /\ lookup "nextPageToken" fields = prop v "nextPageToken"
    /\ lookup "hasMore" fields = Some (JBool (truthy (prop v "nextPageToken")))
    /\ lookup "message" fields
       = Some (JStr (if truthy (prop v "newStartPageToken")
                     then "No more changes. Save newStartPageToken for future polling."
                     else "More changes available. Use nextPageToken to continue.")).
Proof.
  intros Htok Hr Hok H204 Hv Hnull.
  unfold handler, handle, listChanges, try_catch, bind. cbv zeta.
  rewrite (request_answered _ _ _ _ _ _ Htok (Hr _) Hok H204 Hv).
  assert (Hget : forall k, get (Some v) k = Ok (prop v k))
    by (intros k; destruct v; try contradiction; reflexivity).
  unfold lift. rewrite !Hget. unfold ret, js_obj.
  destruct (prop v "changes"), (prop v "newStartPageToken"),
    (prop v "nextPageToken");
    eexists; eexists; (split; [reflexivity|]); repeat split.
Qed.

Lemma ToString_strings ps :
  ToString (JArr (map JStr ps)) = Some (join "," ps).
Proof.
  rewrite ToString_array.
  assert (H : element_texts (map JStr ps) = Some ps)
    by (induction ps as [|p ps IH]; [reflexivity|];
        cbn [map element_texts ToString]; rewrite IH; reflexivity).
  rewrite H. reflexivity.
Qed.

(** X14.  [googledrive_move_file], when its read is answered with a file:
    the update that follows goes to the same file with an empty metadata
    object, adds the new parent, and takes away exactly the parents the read
    returned, joined by commas, when it is asked to and there are any. *)
Theorem move_file_removes_the_parents_it_read fileId newParentId
  removeFromCurrentParent log r file parents :
  has_token credentials ->
  remote log (outbound credentials (file_read fileId) no_options false)
  = Responded r ->
  ok r = true -> status r <> 204 ->
  payload JSON_parse r = Some file -> file <> JNull ->
  prop file "parents" = strings parents ->
  snd (handler JSON_parse remote message_of credentials formatBytes percentage
         (googledrive_move_file fileId newParentId removeFromCurrentParent) log)
  = (log
     ++ [outbound credentials (file_read fileId) no_options false;
         outbound credentials
           ("/files/" ++ fileId ++ "?"
            ++ URLSearchParams.toString
                 (move_query newParentId
                    (removed_parents removeFromCurrentParent parents)))
           (PATCH (Some "{}")) false])%list.
Proof.
  intros Htok Hr Hok H204 Hv Hnull Hparents.
  assert (Hread :
    getFile JSON_parse remote credentials fileId None log
    = (Ok (Some file),
       (log ++ [outbound credentials (file_read fileId) no_options false])%list))
    by exact (request_answered (file_read fileId) no_options false log r file
                Htok Hr Hok H204 Hv).
  unfold handler, handle, try_catch, bind. rewrite Hread.
  assert (Hget : get (Some file) "parents" = Ok (strings parents))
    by (rewrite <- Hparents; destruct file; try contradiction; reflexivity).
  unfold lift at 1. rewrite Hget.
  assert (Hjoin : join_opt (strings parents)
                  = Ok (option_map (join ",") parents)).
  { destruct parents as [ps|]; [|reflexivity].
    unfold strings, option_map, join_opt, to_string.
    rewrite ToString_strings. reflexivity. }
  unfold lift. rewrite Hjoin.
  match goal with
  | |- context [updateFile ?a ?b ?c ?f ?ps ?l] =>
      assert (Hwrite :
        snd (updateFile a b c f ps l)
        = (l ++ [outbound credentials
                   ("/files/" ++ fileId ++ "?"
                    ++ URLSearchParams.toString
                         (move_query newParentId
                            (removed_parents removeFromCurrentParent parents)))
                   (PATCH (Some "{}")) false])%list);
      [|destruct (updateFile a b c f ps l) as [[v|e] l2]; simpl in Hwrite;
        subst l2; simpl; rewrite <- app_assoc; reflexivity]
  end.
  cbv beta iota zeta delta
    [updateFile updateFile_metadata UpdateFile.content UpdateFile.name
     UpdateFile.description UpdateFile.mimeType UpdateFile.addParents
     UpdateFile.removeParents UpdateFile.starred UpdateFile.trashed].
  change (truthy_str (@None string)) with false. cbv iota.
  rewrite (request_logs JSON_parse remote credentials _ _ _ _ Htok).
  do 3 f_equal.
  unfold move_query, removed_parents.
  destruct newParentId as [|c n]; destruct removeFromCurrentParent;
    destruct parents as [ps|]; simpl; try reflexivity;
    destruct (join "," ps) as [|c' j]; reflexivity.
Qed.

End Payloads.

(* ------------------------------------------------------------------------- *)
(** ** The calls of a tool invocation *)

Section Invocations.

Variable JSON_parse : string -> option json.
Variable remote : list HttpRequest -> HttpRequest -> fetched.
Variable message_of : error -> string.
Variable credentials : TenantCredentials.
Variable formatBytes : value -> string.
Variable percentage : value -> value -> string.

(** [join_opt] returns exactly on the parents that can be joined. *)
Lemma join_opt_joinable parents :
  if joinable parents then exists joined, join_opt parents = Ok joined
  else exists e, join_opt parents = Throw e.
Proof.
  destruct parents as [[| b | z | x | l | props]|]; cbn [joinable join_opt];
    try (eexists; reflexivity).
  pose proof (ToString_convertible (JArr l)) as H. cbn [convertible] in H.
  unfold to_string. destruct (forallb convertible l).
  - destruct H as (text & ->). eexists. reflexivity.
  - rewrite H. eexists. reflexivity.
Qed.

(** The read of [googledrive_move_file] lets the update follow exactly when
    its answer allows it. *)
Lemma read_gives_parents_answer fileId log :
  has_token credentials ->
  read_gives_parents JSON_parse remote credentials fileId log
  = read_allows_update JSON_parse
      (remote log (outbound credentials (file_read fileId) no_options false)).
Proof.
  intros Htok. unfold read_gives_parents, getFile. cbv zeta.
  change ("/files/" ++ fileId ++ "?"
          ++ URLSearchParams.toString
               (URLSearchParams.set "supportsAllDrives" "true"
                  (URLSearchParams.set "fields" (or_str None DEFAULT_FILE_FIELDS)
                     URLSearchParams.empty)))
    with (file_read fileId).
  destruct (remote log (outbound credentials (file_read fileId) no_options false))
    as [r|what] eqn:Hr.
  - rewrite (request_responded JSON_parse remote credentials _ _ _ _ _ Htok Hr).
    cbn [read_allows_update].
    destruct (interpret JSON_parse (file_read fileId) r) as [[file|]|e] eqn:Hi.
    + apply interpret_payload in Hi. destruct Hi as (Hok & H204 & Hv).
      rewrite Hok, Hv. destruct (Z.eqb_spec (status r) 204); [contradiction|].
      cbn [negb andb].
      destruct file as [| b | z | x | l | props]; [reflexivity|..];
        cbn [get readable andb];
        match goal with
        | |- context [join_opt ?v] =>
            pose proof (join_opt_joinable v) as Hj;
            destruct (joinable v);
            [destruct Hj as (joined & ->)|destruct Hj as (e & ->)]; reflexivity
        end.
    + apply interpret_undefined in Hi.
      destruct (Z.eqb_spec (status r) 204); [|contradiction].
      cbn [negb]. rewrite andb_false_r. reflexivity.
    + destruct (ok r) eqn:Hok; [|reflexivity].
      destruct (Z.eqb_spec (status r) 204); [reflexivity|].
      destruct (payload JSON_parse r) as [file|] eqn:Hv; [|reflexivity].
      rewrite (proj2 (interpret_payload JSON_parse (file_read fileId) r file)
                 (conj Hok (conj n Hv))) in Hi.
      discriminate Hi.
  - rewrite (request_unanswered JSON_parse remote credentials _ _ _ _ _ Htok Hr).
    reflexivity.
Qed.

(** C5, as the code has it.  With a token, a tool invocation makes exactly
    one outbound call (an upload with inline content included: one call with
    a composite body), except [googledrive_move_file], which reads the file
    and then updates it: two calls when the read is answered with a success
    whose payload is not [null] and whose parents can be joined (none, or an
    array whose elements convert to strings), one call otherwise.  Without a
    token no call is made. *)
Theorem one_call_per_tool_but_move t log :
  exists calls,
    snd (handler JSON_parse remote message_of credentials formatBytes percentage
           t log)
    = (log ++ calls)%list
    /\ (no_token credentials -> calls = [])
    /\ (has_token credentials ->
        length calls
        = match t with
          | googledrive_move_file fileId _ _ =>
              if read_allows_update JSON_parse
                   (remote log
                      (outbound credentials (file_read fileId) no_options false))
              then 2%nat else 1%nat
          | _ => 1%nat
          end).
Proof.
  destruct (truthy_str (accessToken credentials)) eqn:Etok.
  - assert (Hno : ~ no_token credentials).
    { intros H. rewrite (no_token_falsy _ H) in Etok. discriminate. }
    destruct (reads_then_writes t) eqn:Erw.
    + destruct t; try discriminate Erw.
      destruct (move_file_calls JSON_parse remote message_of credentials
                  formatBytes percentage fileId newParentId
                  removeFromCurrentParent log Etok)
        as (c1 & rest & H & _ & _ & Hlen).
      exists (c1 :: rest). split; [exact H|]. split; [tauto|].
      intros _. cbn [length]. rewrite Hlen.
      rewrite (read_gives_parents_answer fileId log Etok).
      destruct (read_allows_update JSON_parse
                  (remote log
                     (outbound credentials (file_read fileId) no_options false)));
        reflexivity.
    + destruct (handler_single JSON_parse remote message_of credentials
                  formatBytes percentage t Etok Erw log) as (c & H & _).
      exists [c]. split; [exact H|]. split; [tauto|].
      intros _. destruct t; try discriminate Erw; reflexivity.
  - pose proof (falsy_no_token _ Etok) as Hno.
    exists []. rewrite (handler_silent JSON_parse remote message_of credentials
                         formatBytes percentage t Hno log), app_nil_r.
    split; [reflexivity|]. split; [reflexivity|].
    unfold has_token. rewrite Etok. discriminate.
Qed.

End Invocations.

(* ------------------------------------------------------------------------- *)
(** ** The listing of a folder: what is asked of the service *)

Section Folders.

Variable JSON_parse : string -> option json.
Variable remote : list HttpRequest -> HttpRequest -> fetched.
Variable credentials : TenantCredentials.

Import QueryString.















End Folders.

(* ------------------------------------------------------------------------- *)
(** ** The bodies of creations and updates *)

Section Bodies.

Variable JSON_parse : string -> option json.
Variable remote : list HttpRequest -> HttpRequest -> fetched.
Variable message_of : error -> string.
Variable credentials : TenantCredentials.
Variable formatBytes : value -> string.
Variable percentage : value -> value -> string.

(** The metadata of [updateFile]: each of [name], [description], [mimeType],
    [starred] and [trashed] that is given, in that order. *)
Lemma updateFile_metadata_keys params :
  updateFile_metadata params = update_metadata params.
Proof.
  unfold updateFile_metadata, update_metadata, assign_if.
  destruct params as [n d m c a rp st tr]. simpl.
  destruct n, d, m, st, tr; reflexivity.
Qed.

Lemma update_metadata_plain params : plain (update_metadata params) = true.
Proof.
  destruct params as [n d m c a rp st tr]. unfold update_metadata. simpl.
  destruct n, d, m, st, tr; reflexivity.
Qed.

Lemma folder_metadata_plain name parents :
  plain (folder_metadata name parents) = true.
Proof.
  unfold folder_metadata, plain. destruct parents as [ps|]; simpl;
    rewrite ?strings_number_free, ?strings_distinct_keys; reflexivity.
Qed.

(** The call [updateFile] makes when it carries content. *)
Lemma updateFile_upload_call fileId params content log :
  has_token credentials ->
  UpdateFile.content params = Some content -> nonempty content = true ->
  exists query,
    snd (updateFile JSON_parse remote credentials fileId params log)
    = (log
       ++ [outbound credentials
             ("/files/" ++ fileId ++ "?uploadType=multipart&" ++ query)
             {| method := Some "PATCH";
                headers := Some [("Content-Type", multipart_content_type)];
                body := Some (multipartBody (update_metadata params)
                                (UpdateFile.mimeType params) content) |}
             true])%list.
Proof.
  intros Htok Hcontent Hne.
  unfold updateFile. cbv zeta. rewrite Hcontent.
  change (truthy_str (Some content)) with (nonempty content). rewrite Hne.
  rewrite (request_logs JSON_parse remote credentials _ _ _ log Htok).
  rewrite updateFile_metadata_keys. eexists. reflexivity.
Qed.

(** X15.  [updateFile] with non-empty inline content, a content type on one
    line and a content in which no line starts with the boundary marker:
    one PATCH on the upload base, whose multipart body reads back as two
    parts; the first, parsed, is exactly the fields that were given ([name],
    [description], [mimeType], [starred], [trashed]; an empty string counts
    as given), the second is the content, byte for byte. *)
Theorem updateFile_multipart_round_trip fileId params content log :
  has_token credentials ->
  UpdateFile.content params = Some content -> nonempty content = true ->
  single_line (UpdateFile.mimeType params) = true ->
  boundary_free content = true ->
  exists call query body json_text,
    snd (updateFile JSON_parse remote credentials fileId params log)
    = (log ++ [call])%list
    /\ url call
       = UPLOAD_BASE_URL ++ "/files/" ++ fileId ++ "?uploadType=multipart&" ++ query
    /\ http_method call = Some "PATCH"
    /\ lookup "Content-Type" (http_headers call) = Some multipart_content_type
    /\ http_body call = Some body
    /\ Multipart.read boundary body
       = Some [(json_part_header, json_text);
               (content_part_header (UpdateFile.mimeType params), content)]
    /\ Parse.parse json_text = Some (update_metadata params).
Proof.
  intros Htok Hcontent Hne Hline Hfree.
  destruct (updateFile_upload_call fileId params content log Htok Hcontent Hne)
    as (query & Hlog).
  eexists. exists query. eexists.
  exists (JSON_stringify (update_metadata params)).
  split; [exact Hlog|]. split; [reflexivity|]. split; [reflexivity|].
  split; [reflexivity|]. split; [reflexivity|]. split.
  - unfold update_metadata at 1, js_obj.
    rewrite (read_multipartBody _ _ _ Hline Hfree). reflexivity.
  - apply parse_stringify. apply update_metadata_plain.
Qed.

(** X16.  [googledrive_update_file] takes no content type: the content it
    uploads is always labelled [text/plain], and the metadata part never
    carries a [mimeType]; it holds the name, the description and the two
    flags that were given. *)
Theorem update_tool_uploads_plain_text fileId name description content
  addParents removeParents starred trashed text log :
  has_token credentials ->
  content = Some text -> nonempty text = true ->
  boundary_free text = true ->
  exists call body json_text,
    snd (handler JSON_parse remote message_of credentials formatBytes percentage
           (googledrive_update_file fileId name description content addParents
              removeParents starred trashed) log)
    = (log ++ [call])%list
    /\ http_body call = Some body
    /\ Multipart.read boundary body
       = Some [(json_part_header, json_text);
               ("Content-Type: text/plain", text)]
    /\ Parse.parse json_text
       = Some (js_obj [("name", str name);
                       ("description", str description);
                       ("starred", boolean starred);
                       ("trashed", boolean trashed)]).
Proof.
  intros Htok Hcontent Hne Hfree.
  set (params := {| UpdateFile.name := name;
                    UpdateFile.description := description;
                    UpdateFile.mimeType := None;
                    UpdateFile.content := content;
                    UpdateFile.addParents := addParents;
                    UpdateFile.removeParents := removeParents;
                    UpdateFile.starred := starred;
                    UpdateFile.trashed := trashed |}).
  destruct (updateFile_upload_call fileId params text log Htok Hcontent Hne)
    as (query & Hlog).
  assert (Hmeta : update_metadata params
                  = js_obj [("name", str name);
                            ("description", str description);
                            ("starred", boolean starred);
                            ("trashed", boolean trashed)])
    by reflexivity.
  eexists. eexists. exists (JSON_stringify (update_metadata params)).
  split.
  { unfold handler, handle, try_catch, bind. fold params.
    destruct (updateFile JSON_parse remote credentials fileId params log)
      as [[v|e] calls]; simpl in *; exact Hlog. }
  split; [reflexivity|]. split.
  - unfold update_metadata at 1, js_obj.
    rewrite (read_multipartBody _ None text eq_refl Hfree). reflexivity.
  - rewrite <- Hmeta. apply parse_stringify. apply update_metadata_plain.
Qed.

(** X17.  [createFile] without content, an empty string included: one POST
    on the metadata base with the JSON headers, whose body, parsed, is
    exactly the metadata object. *)
Theorem createFile_without_content params log :
  has_token credentials ->
  truthy_str (CreateFile.content params) = false ->
  exists call body,
    snd (createFile JSON_parse remote credentials params log)
    = (log ++ [call])%list
    /\ url call
       = base_of credentials false ++ "/files?fields=" ++ DEFAULT_FILE_FIELDS
    /\ http_method call = Some "POST"
    /\ http_headers call = call_headers (the (accessToken credentials)) false
    /\ http_body call = Some body
    /\ Parse.parse body = Some (createFile_metadata params).
Proof.
  intros Htok Hc. unfold createFile. cbv zeta. rewrite Hc.
  rewrite (request_logs JSON_parse remote credentials _ _ _ log Htok).
  eexists. eexists.
  split; [reflexivity|]. split; [reflexivity|]. split; [reflexivity|].
  split; [reflexivity|]. split; [reflexivity|].
  apply parse_stringify. apply createFile_metadata_plain.
Qed.

(** X18.  [createFolder] never uploads: one POST on the metadata base,
    whose body, parsed, is the name, the folder type and the parents when
    they are given, and nothing else. *)
Theorem createFolder_sends_metadata_only name parents log :
  has_token credentials ->
  exists call body,
    snd (createFolder JSON_parse remote credentials name parents log)
    = (log ++ [call])%list
    /\ url call
       = base_of credentials false ++ "/files?fields=" ++ DEFAULT_FILE_FIELDS
    /\ http_method call = Some "POST"
    /\ http_body call = Some body
    /\ Parse.parse body = Some (folder_metadata name parents).
Proof.
  intros Htok. unfold createFolder, createFile. cbv zeta.
  change (truthy_str (CreateFile.content _)) with false. cbv iota.
  rewrite (request_logs JSON_parse remote credentials _ _ _ log Htok).
  eexists. eexists.
  split; [reflexivity|]. split; [reflexivity|]. split; [reflexivity|].
  split; [reflexivity|].
  assert (Hm : createFile_metadata
                 {| CreateFile.name := name;
                    CreateFile.mimeType := Some "application/vnd.google-apps.folder";
                    CreateFile.parents := parents;
                    CreateFile.description := None;
                    CreateFile.content := None |}
               = folder_metadata name parents)
    by (destruct parents; reflexivity).
  rewrite Hm. apply parse_stringify. apply folder_metadata_plain.
Qed.

End Bodies.

(* ------------------------------------------------------------------------- *)
(** ** Throttling: the seconds of [Retry-After] *)

Section Throttle.

Variable JSON_parse : string -> option json.
Variable remote : list HttpRequest -> HttpRequest -> fetched.
Variable credentials : TenantCredentials.

Lemma horner_of_uint_acc d : forall acc,
  Z.pos (Pos.of_uint_acc d acc) = horner (Z.pos acc) d.
Proof.
  induction d; intros acc; cbn [Pos.of_uint_acc horner]; try reflexivity;
    rewrite IHd; f_equal; lia.
Qed.

Lemma horner_of_uint d : Z.of_N (Pos.of_uint d) = horner 0 d.
Proof.
  induction d; cbn [Pos.of_uint horner Z.of_N]; try reflexivity;
    try exact IHd; rewrite horner_of_uint_acc; reflexivity.
Qed.

Lemma parse_digits_of_uint d : forall acc,
  parse_digits (Some acc) (NilEmpty.string_of_uint d) = Some (horner acc d).
Proof.
  induction d; intros acc; simpl; try reflexivity; rewrite IHd; reflexivity.
Qed.

Lemma parseInt_of_uint d :
  parseInt (NilZero.string_of_uint d) = Finite (horner 0 d).
Proof.
  destruct d; unfold NilZero.string_of_uint, parseInt; try reflexivity;
    simpl; rewrite parse_digits_of_uint; reflexivity.
Qed.

(** [Number.parseInt] reads back what [String] writes for an integer that is
    not negative. *)
Lemma parseInt_String_of_number n :
  0 <= n -> parseInt (String_of_number n) = Finite n.
Proof.
  intros Hn. unfold String_of_number.
  destruct n as [|p|p]; [reflexivity| |lia].
  cbn [Z.to_int NilZero.string_of_int].
  rewrite parseInt_of_uint. f_equal.
  rewrite <- horner_of_uint, DecimalPos.Unsigned.of_to. reflexivity.
Qed.

Lemma String_of_number_nonempty n :
  0 <= n -> nonempty (String_of_number n) = true.
Proof.
  intros Hn. unfold String_of_number.
  destruct n as [|p|p]; [reflexivity| |lia].
  simpl. destruct (Pos.to_uint p); reflexivity.
Qed.

(** X19.  A response with status 429 always ends in the RateLimitError.  Its
    retry-after is the number of seconds the [Retry-After] header gives in
    decimal digits, for every number a JavaScript number holds exactly (up
    to 2^53 - 1), and 60 when the header is absent or empty. *)
Theorem retry_after_seconds_are_read_back endpoint options up log r :
  has_token credentials ->
  remote log (outbound credentials endpoint options up) = Responded r ->
  status r = 429 ->
  (exists seconds,
     request JSON_parse remote credentials endpoint options up log
     = (Throw (RateLimitError "Rate limit exceeded" seconds),
        (log ++ [outbound credentials endpoint options up])%list))
  /\ (forall n,
        0 <= n <= 9007199254740991 ->
        Headers.get "Retry-After" (response_headers r)
        = Some (String_of_number n) ->
        fst (request JSON_parse remote credentials endpoint options up log)
        = Throw (RateLimitError "Rate limit exceeded" (Finite n)))
  /\ (truthy_str (Headers.get "Retry-After" (response_headers r)) = false ->
      fst (request JSON_parse remote credentials endpoint options up log)
      = Throw (RateLimitError "Rate limit exceeded" (Finite 60))).
Proof.
  intros Htok Hr Hst.
  rewrite (request_responded JSON_parse remote credentials _ _ _ _ _ Htok Hr).
  unfold interpret. rewrite Hst. simpl. split; [|split].
  - eexists. reflexivity.
  - intros n [Hn _] Hh. rewrite Hh. simpl.
    rewrite (String_of_number_nonempty n Hn), (parseInt_String_of_number n Hn).
    reflexivity.
  - intros Hh. rewrite Hh. reflexivity.
Qed.

End Throttle.

(* ------------------------------------------------------------------------- *)
(** ** Page sizes and the names of the tools *)

Section Surface.

(** X20.  [normalizePaginationParams] never returns a page size above the
    maximum; it keeps a size that is given, not zero and within the maximum,
    takes 100 (capped) for one that is absent or zero, keeps the page token,
    and normalizing twice changes nothing more. *)
Theorem normalized_page_size_is_capped params maxPageSize :
  let normal := normalizePaginationParams params maxPageSize in
  let cap := match maxPageSize with
             | Some m => m
             | None => PAGINATION_DEFAULTS.maxPageSize
             end in
  NormalizedParams.pageSize normal <= cap
  /\ (forall ps size,
        params = Some ps -> PaginationParams.pageSize ps = Some size ->
        size <> 0 -> size <= cap -> NormalizedParams.pageSize normal = size)
  /\ ((params = None
       \/ exists ps, params = Some ps
                     /\ (PaginationParams.pageSize ps = None
                         \/ PaginationParams.pageSize ps = Some 0)) ->
      NormalizedParams.pageSize normal = Z.min 100 cap)
  /\ (forall ps, params = Some ps ->
        NormalizedParams.pageToken normal = PaginationParams.pageToken ps)
  /\ normalizePaginationParams
       (Some {| PaginationParams.pageSize := Some (NormalizedParams.pageSize normal);
                PaginationParams.pageToken := NormalizedParams.pageToken normal |})
       maxPageSize
     = normal.
Proof.
  unfold normalizePaginationParams, PAGINATION_DEFAULTS.pageSize,
    PAGINATION_DEFAULTS.maxPageSize. cbv zeta.
  cbn [NormalizedParams.pageSize NormalizedParams.pageToken
       PaginationParams.pageSize PaginationParams.pageToken].
  set (given := match params with
                | Some ps => PaginationParams.pageSize ps
                | None => None
                end).
  set (cap := match maxPageSize with Some m => m | None => 1000 end).
  assert (Hnz : or_num given 100 <> 0).
  { unfold or_num. destruct given as [z|]; [|lia].
    destruct (Z.eqb_spec z 0); lia. }
  split; [apply Z.le_min_r|]. split; [|split; [|split]].
  - intros ps size Hp Hps Hsize Hle. subst given. rewrite Hp, Hps.
    unfold or_num. destruct (Z.eqb_spec size 0); [contradiction|]. lia.
  - intros H.
    assert (Hg : given = None \/ given = Some 0)
      by (subst given; destruct H as [-> | (ps & -> & [H | H])]; auto).
    destruct Hg as [-> | ->]; reflexivity.
  - intros ps ->. reflexivity.
  - f_equal. unfold or_num at 1.
    destruct (Z.eqb_spec (Z.min (or_num given 100) cap) 0); lia.
Qed.

(** X21.  The default response of the worker advertises exactly the tools
    that are registered: every registered name is in the list, every name of
    the list is one of a registered tool, and no name is there twice. *)
Theorem advertised_tools_are_the_registered_ones :
  (forall name, In name advertised_tools <-> exists t, tool_name t = name)
  /\ NoDup advertised_tools.
Proof.
  split.
  - intros name. split.
    + intros H.
      assert (Hnames :
        map tool_name
          [googledrive_test_connection;
           googledrive_get_about None;
           googledrive_get_storage_quota;
           googledrive_get_user_info;
           googledrive_get_export_formats;
           googledrive_get_import_formats;
           googledrive_list_files None 0 None None None false;
           googledrive_get_file EmptyString None;
           googledrive_create_file EmptyString None None None None;
           googledrive_update_file EmptyString None None None None None None None;
           googledrive_copy_file EmptyString None None None;
           googledrive_delete_file EmptyString;
           googledrive_empty_trash;
           googledrive_export_file EmptyString EmptyString;
           googledrive_download_file EmptyString;
           googledrive_generate_ids 0 EmptyString;
           googledrive_search_files EmptyString 0 None;
           googledrive_create_folder EmptyString None;
           googledrive_list_folder EmptyString 0 None None;
           googledrive_move_file EmptyString EmptyString false;
           googledrive_list_permissions EmptyString 0 None;
           googledrive_get_permission EmptyString EmptyString;
           googledrive_share_with_user EmptyString EmptyString EmptyString false None None;
           googledrive_share_with_group EmptyString EmptyString EmptyString false;
           googledrive_share_with_domain EmptyString EmptyString EmptyString false;
           googledrive_make_public EmptyString EmptyString false;
           googledrive_update_permission EmptyString EmptyString EmptyString None;
           googledrive_remove_permission EmptyString EmptyString;
           googledrive_list_comments EmptyString 0 None false None;
           googledrive_get_comment EmptyString EmptyString false;
           googledrive_create_comment EmptyString EmptyString None;
           googledrive_update_comment EmptyString EmptyString EmptyString;
           googledrive_delete_comment EmptyString EmptyString;
           googledrive_resolve_comment EmptyString EmptyString EmptyString;
           googledrive_reopen_comment EmptyString EmptyString EmptyString;
           googledrive_list_replies EmptyString EmptyString 0 None false;
           googledrive_get_reply EmptyString EmptyString EmptyString false;
           googledrive_create_reply EmptyString EmptyString EmptyString None;
           googledrive_update_reply EmptyString EmptyString EmptyString EmptyString;
           googledrive_delete_reply EmptyString EmptyString EmptyString;
           googledrive_list_revisions EmptyString 0 None;
           googledrive_get_revision EmptyString EmptyString;
           googledrive_update_revision EmptyString EmptyString None None None None;
           googledrive_delete_revision EmptyString EmptyString;
           googledrive_keep_revision EmptyString EmptyString;
           googledrive_list_drives 0 None None;
           googledrive_get_drive EmptyString;
           googledrive_create_drive EmptyString EmptyString None;
           googledrive_update_drive EmptyString None None None;
           googledrive_delete_drive EmptyString;
           googledrive_hide_drive EmptyString;
           googledrive_unhide_drive EmptyString;
           googledrive_update_drive_restrictions EmptyString None None None None None;
           googledrive_get_changes_start_token None;
           googledrive_list_changes EmptyString 0 None false false;
           googledrive_watch_changes EmptyString EmptyString EmptyString None None None;
           googledrive_watch_file EmptyString EmptyString EmptyString None None;
           googledrive_stop_channel EmptyString EmptyString;
           googledrive_list_apps None None None;
           googledrive_get_app EmptyString;
           googledrive_list_access_proposals EmptyString 0 None;
           googledrive_get_access_proposal EmptyString EmptyString;
           googledrive_accept_access_proposal EmptyString EmptyString None false;
           googledrive_deny_access_proposal EmptyString EmptyString false]
        = advertised_tools) by reflexivity.
      rewrite <- Hnames in H. apply in_map_iff in H.
      destruct H as (t & Ht & _). exists t. exact Ht.
    + intros (t & <-). destruct t; unfold advertised_tools, tool_name;
        repeat first [left; reflexivity | right].
  - assert (H : nodup string_dec advertised_tools = advertised_tools)
      by (vm_compute; reflexivity).
    rewrite <- H. apply NoDup_nodup.
Qed.

End Surface.

(* ------------------------------------------------------------------------- *)
(** ** More runs of the model *)

Section MoreRuns.

(** X1 at a read refused with a message. *)
Lemma status_403_witness :
  request Parse.parse (answering (json_response 403 sample_error_text)) tenant
    "/files/f1" no_options false []
  = (Throw (ForbiddenError (denied_message (Parse.parse sample_error_text))),
     [outbound tenant "/files/f1" no_options false]).
Proof.
  destruct (status_403_is_forbidden Parse.parse
              (answering (json_response 403 sample_error_text)) no_message tenant
              eq_refl) as (Hrequest & _).
  exact (Hrequest "/files/f1" no_options false []
           (json_response 403 sample_error_text) eq_refl eq_refl).
Defined.

Example refusal_message_read :
  denied_message (Parse.parse sample_error_text) = JStr "Backend Error".
Proof. vm_compute. reflexivity. Qed.

Example refusal_message_default :
  denied_message (Parse.parse "<html>Forbidden</html>") = JStr "Access denied".
Proof. vm_compute. reflexivity. Qed.

(** X2 at the deletion of a file that is not there. *)
Lemma status_404_witness :
  exists call endpoint,
    snd (perform Parse.parse (answering (json_response 404 EmptyString))
           no_message tenant (deleteFile_ "f1") [])
    = [call]
    /\ url call = API_BASE_URL ++ endpoint
    /\ fst (perform Parse.parse (answering (json_response 404 EmptyString))
              no_message tenant (deleteFile_ "f1") [])
       = Throw (NotFoundError "Resource" endpoint).
Proof.
  destruct (status_404_names_the_endpoint Parse.parse
              (answering (json_response 404 EmptyString)) no_message tenant
              eq_refl) as (_ & Hperform).
  destruct (Hperform unit (deleteFile_ "f1") [])
    as (call & endpoint & Hlog & Hurl & Herror).
  exists call, endpoint. split; [exact Hlog|]. split; [exact Hurl|].
  exact (Herror (json_response 404 EmptyString) eq_refl eq_refl).
Defined.

Example deleteFile_not_found :
  fst (perform Parse.parse (answering (json_response 404 EmptyString))
         no_message tenant (deleteFile_ "f1") [])
  = Throw (NotFoundError "Resource" "/files/f1?supportsAllDrives=true").
Proof. vm_compute. reflexivity. Qed.

(** X3 at a network that does not answer. *)
Lemma one_call_witness :
  exists call,
    snd (perform Parse.parse unreachable no_message tenant (deleteFile_ "f1") [])
    = [call]
    /\ fst (perform Parse.parse unreachable no_message tenant (deleteFile_ "f1") [])
       = Throw (TypeError "fetch failed").
Proof.
  destruct (one_call_and_no_retry Parse.parse unreachable no_message tenant
              unit (deleteFile_ "f1") [] eq_refl) as (call & Hlog & _ & Hfail).
  exists call. split; [exact Hlog|].
  exact (Hfail "fetch failed" eq_refl).
Defined.

(** X4 at an upload. *)
Lemma call_headers_witness :
  exists call,
    snd (perform Parse.parse file_network no_message tenant
           (createFile_ sample_upload) [])
    = [call]
    /\ http_headers call
       = [("Authorization", "Bearer ya29.sample-token");
          ("Content-Type", multipart_content_type)].
Proof.
  exact (every_call_carries_the_token Parse.parse file_network no_message tenant
           value (createFile_ sample_upload) [] eq_refl).
Defined.

(** X6 at a deletion. *)
Lemma method_and_body_witness :
  exists call,
    snd (perform Parse.parse file_network no_message tenant (deleteFile_ "f1") [])
    = [call]
    /\ (http_method call = None \/ http_method call = Some "POST"
        \/ http_method call = Some "PATCH" \/ http_method call = Some "DELETE")
    /\ (defined (http_body call) = true ->
        http_method call = Some "POST" \/ http_method call = Some "PATCH").
Proof.
  exact (bodies_only_under_post_and_patch Parse.parse file_network no_message
           tenant unit (deleteFile_ "f1") [] eq_refl).
Defined.

(** X5 at a tenant whose override is the empty string. *)
Lemma empty_override_witness :
  exists call endpoint,
    snd (perform Parse.parse file_network no_message
           {| accessToken := Some "ya29.sample-token";
              baseUrl := Some EmptyString |}
           (getFile_ "f1" None) [])
    = [call]
    /\ url call = API_BASE_URL ++ endpoint.
Proof.
  exact (without_override_calls_go_to_the_default_base Parse.parse file_network
           no_message
           {| accessToken := Some "ya29.sample-token";
              baseUrl := Some EmptyString |}
           value (getFile_ "f1" None) [] eq_refl eq_refl).
Defined.

(** X8 at a deletion answered with 404. *)
Lemma tool_error_witness :
  exists endpoint options,
    handler Parse.parse (answering (json_response 404 EmptyString)) no_message
      tenant no_rendering no_percentage (googledrive_delete_file "f1") []
    = (Ok (error_response (NotFoundError "Resource" endpoint)),
       [outbound tenant endpoint options false]).
Proof.
  destruct (tool_errors_are_formatted Parse.parse
              (answering (json_response 404 EmptyString)) no_message tenant
              no_rendering no_percentage (googledrive_delete_file "f1") []
              eq_refl) as (endpoint & options & Herror & _).
  exists endpoint, options.
  exact (Herror (json_response 404 EmptyString) _ eq_refl eq_refl).
Defined.

(** X9 at a listing asked of a tenant without a token. *)
Lemma missing_token_tool_witness :
  handler Parse.parse page_network no_message tenant_without_token no_rendering
    no_percentage (googledrive_list_apps None None None) []
  = (Ok (error_response
           (AuthenticationError
              "No credentials provided. Include X-Google-Access-Token header.")),
     []).
Proof.
  exact (missing_token_at_the_tool_surface Parse.parse page_network no_message
           tenant_without_token no_rendering no_percentage
           (googledrive_list_apps None None None) []
           (or_intror eq_refl)).
Defined.

(** X10 at a listing answered with 204. *)
Lemma readers_witness :
  exists what,
    fst (perform Parse.parse (answering (json_response 204 EmptyString))
           no_message tenant (listFiles_ ListFiles.none) [])
    = Throw (TypeError what).
Proof.
  destruct (readers_need_a_payload Parse.parse
              (answering (json_response 204 EmptyString)) no_message tenant
              PaginatedResponse (listFiles_ ListFiles.none) []
              (json_response 204 EmptyString) eq_refl (fun _ => eq_refl)
              (or_introl eq_refl)) as (Hreads & _).
  exact (Hreads eq_refl).
Defined.

(** X11 at a user with a name. *)
Lemma testConnection_witness :
  exists st,
    testConnection Parse.parse (answering (json_response 200 sample_about_text))
      no_message tenant []
    = (Ok st, [outbound tenant about_user no_options false])
    /\ connection_message st = "Connected to Google Drive as Ada".
Proof.
  destruct (testConnection_reports Parse.parse
              (answering (json_response 200 sample_about_text)) no_message
              tenant [] eq_refl) as (st & Hrun & _ & Hgreets).
  exists st. split; [exact Hrun|].
  exact (Hgreets (json_response 200 sample_about_text)
           (JObj [("user", JObj [("displayName", JStr "Ada");
                                 ("emailAddress", JStr "ada@example.test")])])
           "Ada"
           eq_refl eq_refl ltac:(discriminate) ltac:(vm_compute; reflexivity)
           ltac:(discriminate) eq_refl).
Defined.

(** X12 at a payload that carries a page token. *)
Lemma apps_witness :
  exists call,
    handler Parse.parse page_network no_message tenant no_rendering no_percentage
      (googledrive_list_apps None None None) []
    = (Ok (json_text (Some (JObj [("items", JArr []);
                                  ("hasMore", JBool false)]))),
       [call]).
Proof.
  exact (apps_are_listed_flat Parse.parse page_network no_message tenant
           no_rendering no_percentage None None None []
           (json_response 200 sample_page_text)
           (JObj [("files", JArr [JObj [("id", JStr "f1")]]);
                  ("nextPageToken", JStr "page-2")])
           eq_refl (fun _ => eq_refl) eq_refl ltac:(discriminate)
           ltac:(vm_compute; reflexivity) ltac:(discriminate)).
Defined.

(** X13 at the end of the stream of changes. *)
Lemma list_changes_witness :
  exists call fields,
    handler Parse.parse (answering (json_response 200 sample_changes_text))
      no_message tenant no_rendering no_percentage
      (googledrive_list_changes "start-8" 100 None true false) []
    = (Ok (json_text (Some (JObj fields))), [call])
    /\ lookup "newStartPageToken" fields = Some (JStr "start-9")
    /\ lookup "nextPageToken" fields = None
    /\ lookup "hasMore" fields = Some (JBool false).
Proof.
  destruct (list_changes_reports Parse.parse
              (answering (json_response 200 sample_changes_text)) no_message
              tenant no_rendering no_percentage "start-8" 100 None true false []
              (json_response 200 sample_changes_text)
              (JObj [("changes", JArr []);
                     ("newStartPageToken", JStr "start-9")])
              eq_refl (fun _ => eq_refl) eq_refl ltac:(discriminate)
              ltac:(vm_compute; reflexivity) ltac:(discriminate))
    as (call & fields & Hrun & _ & Hstart & Hnext & Hmore & _).
  exists call, fields. auto.
Defined.

(** X14 at a file with one parent. *)
Lemma move_file_witness :
  snd (handler Parse.parse file_network no_message tenant no_rendering
         no_percentage (googledrive_move_file "f1" "p2" true) [])
  = [outbound tenant (file_read "f1") no_options false;
     outbound tenant
       ("/files/f1?"
        ++ URLSearchParams.toString
             [("fields", DEFAULT_FILE_FIELDS); ("supportsAllDrives", "true");
              ("addParents", "p2"); ("removeParents", "p1")])
       (PATCH (Some "{}")) false].
Proof.
  exact (move_file_removes_the_parents_it_read Parse.parse file_network
           no_message tenant no_rendering no_percentage "f1" "p2" true []
           (json_response 200 sample_file_text)
           (JObj [("id", JStr "f1"); ("parents", JArr [JStr "p1"])])
           (Some ["p1"])
           eq_refl eq_refl eq_refl ltac:(discriminate)
           ltac:(vm_compute; reflexivity) ltac:(discriminate) eq_refl).
Defined.

(** X15 at an update that renames, clears the description and stars. *)
Lemma updateFile_round_trip_witness :
  exists call body json_text,
    snd (updateFile Parse.parse file_network tenant "f1" sample_update [])
    = [call]
    /\ http_method call = Some "PATCH"
    /\ http_body call = Some body
    /\ Multipart.read boundary body
       = Some [(json_part_header, json_text);
               (content_part_header None, "first line")]
    /\ Parse.parse json_text
       = Some (JObj [("name", JStr "notes.txt");
                     ("description", JStr EmptyString);
                     ("starred", JBool true)]).
Proof.
  destruct (updateFile_multipart_round_trip Parse.parse file_network tenant
              "f1" sample_update "first line" []
              eq_refl eq_refl eq_refl eq_refl eq_refl)
    as (call & query & body & json_text & Hlog & _ & Hmethod & _ & Hbody
        & Hread & Hparse).
  exists call, body, json_text. auto.
Defined.

(** X16 at an update of the content alone. *)
Lemma update_tool_witness :
  exists call body json_text,
    snd (handler Parse.parse file_network no_message tenant no_rendering
           no_percentage
           (googledrive_update_file "f1" None None (Some "first line") None None
              None None) [])
    = [call]
    /\ http_body call = Some body
    /\ Multipart.read boundary body
       = Some [(json_part_header, json_text);
               ("Content-Type: text/plain", "first line")]
    /\ Parse.parse json_text = Some (JObj []).
Proof.
  exact (update_tool_uploads_plain_text Parse.parse file_network no_message
           tenant no_rendering no_percentage "f1" None None (Some "first line")
           None None None None "first line" [] eq_refl eq_refl eq_refl eq_refl).
Defined.

(** X17 at a creation whose content is the empty string. *)
Lemma createFile_without_content_witness :
  exists call body,
    snd (createFile Parse.parse file_network tenant
           {| CreateFile.name := "empty.txt";
              CreateFile.mimeType := None;
              CreateFile.parents := None;
              CreateFile.description := None;
              CreateFile.content := Some EmptyString |} [])
    = [call]
    /\ url call = API_BASE_URL ++ "/files?fields=" ++ DEFAULT_FILE_FIELDS
    /\ http_body call = Some body
    /\ Parse.parse body = Some (JObj [("name", JStr "empty.txt")]).
Proof.
  destruct (createFile_without_content Parse.parse file_network tenant
              {| CreateFile.name := "empty.txt";
                 CreateFile.mimeType := None;
                 CreateFile.parents := None;
                 CreateFile.description := None;
                 CreateFile.content := Some EmptyString |} []
              eq_refl eq_refl)
    as (call & body & Hlog & Hurl & _ & _ & Hbody & Hparse).
  exists call, body. auto.
Defined.

(** X18 at a folder under one parent. *)
Lemma createFolder_witness :
  exists call body,
    snd (createFolder Parse.parse file_network tenant "reports" (Some ["p1"]) [])
    = [call]
    /\ http_method call = Some "POST"
    /\ http_body call = Some body
    /\ Parse.parse body
       = Some (JObj [("name", JStr "reports");
                     ("mimeType", JStr "application/vnd.google-apps.folder");
                     ("parents", JArr [JStr "p1"])]).
Proof.
  destruct (createFolder_sends_metadata_only Parse.parse file_network tenant
              "reports" (Some ["p1"]) [] eq_refl)
    as (call & body & Hlog & _ & Hmethod & Hbody & Hparse).
  exists call, body. auto.
Defined.

(** X19 at two minutes. *)
Lemma retry_after_witness :
  fst (request Parse.parse (answering (throttled [("Retry-After", "120")]))
         tenant "/files" no_options false [])
  = Throw (RateLimitError "Rate limit exceeded" (Finite 120)).
Proof.
  destruct (retry_after_seconds_are_read_back Parse.parse
              (answering (throttled [("Retry-After", "120")])) tenant
              "/files" no_options false []
              (throttled [("Retry-After", "120")]) eq_refl eq_refl eq_refl)
    as (_ & Hseconds & _).
  exact (Hseconds 120 ltac:(lia) eq_refl).
Defined.



(** The same service and file, at a folder id without a quote: nothing is
    listed. *)
Example plain_folder_id_lists_no_trashed_file :
  exists page,
    fst (listFolderContents Parse.parse (drive [("t1", trashed_file)]) tenant
           "x" no_paging [])
    = Ok page
    /\ items page = JArr [].
Proof. eexists. split; [vm_compute; reflexivity|reflexivity]. Qed.

(** A read whose parents cannot be joined ends the move after one call. *)
Example move_file_stops_when_parents_cannot_be_joined :
  map http_method
    (snd (handler Parse.parse (answering (json_response 200 odd_parents_text))
            no_message tenant no_rendering no_percentage
            (googledrive_move_file "f1" "p2" true) []))
  = [None]
  /\ read_allows_update Parse.parse
       (answering (json_response 200 odd_parents_text) []
          (outbound tenant (file_read "f1") no_options false))
     = false.
Proof. split; vm_compute; reflexivity. Qed.

(** A name that cannot be converted to a string: not connected. *)
Example testConnection_name_without_a_text :
  exists st,
    fst (testConnection Parse.parse (answering (json_response 200 odd_name_text))
           no_message tenant [])
    = Ok st
    /\ connected st = false.
Proof. eexists. split; [vm_compute; reflexivity|reflexivity]. Qed.

(** White space around a header value is not part of the value. *)
Example header_values_are_normalized :
  Headers.get "retry-after" [("Retry-After", " 120 ")] = Some "120".
Proof. reflexivity. Qed.

Example normalize_caps_a_large_page :
  NormalizedParams.pageSize
    (normalizePaginationParams
       (Some {| PaginationParams.pageSize := Some 5000;
                PaginationParams.pageToken := Some "page-2" |}) None)
  = 1000.
Proof. reflexivity. Qed.

Example normalize_lets_a_negative_size_through :
  NormalizedParams.pageSize
    (normalizePaginationParams
       (Some {| PaginationParams.pageSize := Some (-5);
                PaginationParams.pageToken := None |}) None)
  = -5.
Proof. reflexivity. Qed.

End MoreRuns.
